(** * Floating-panel widgets of ng-bootstrap: datepicker input, popover, typeahead

    A shallow embedding of
    - [src/datepicker/datepicker-input.ts]  (class [NgbInputDatepicker]),
    - [src/popover/popover.ts]              (classes [NgbPopoverWindow], [NgbPopover]),
    - [typeahead-window.ts] and [typeahead.ts] (classes [NgbTypeaheadWindow],
      [NgbTypeahead]),
    and the properties of their open/close life cycle.

    Every method of a class is a computation in a small monad that threads
    the object's fields (and the part of the browser the method touches),
    may throw a JavaScript exception, and records the calls it makes to code
    that lives outside the class (the renderer, positioning, registered
    callbacks) as a list of effects. *)

From Stdlib Require Import ZArith List String Bool Lia DecimalString.
From Stdlib Require QArith Lqa.
Import ListNotations.
Local Open Scope string_scope.
Local Open Scope Z_scope.
Local Open Scope list_scope.

(** ** Identities of browser and framework objects *)

Definition ElementId := nat.   (* a DOM element, e.g. [location.nativeElement] *)
Definition ListenerId := nat.  (* identity of a closure given to addEventListener *)
Definition ViewId := nat.      (* a [hostView] of a created component *)
Definition CallbackId := nat.  (* a function handed in by the forms API *)
Definition TemplateId := nat.  (* a [TemplateRef] *)

(** A JavaScript value of type [any]. *)
Inductive Value : Type :=
| VUndefined
| VNull
| VBool (b : bool)
| VNum (n : Z)
| VStr (s : string)
| VObj (id : nat).

(** JavaScript truthiness, as used by [value && ...] and [if (x)]. *)
Definition truthy (v : Value) : bool :=
  match v with
  | VUndefined | VNull => false
  | VBool b => b
  | VNum n => negb (n =? 0)
  | VStr s => negb (String.eqb s EmptyString)
  | VObj _ => true
  end.

(** [NgbDateStruct] (an interface) and [NgbDate] (the class implementing it)
    carry the same three fields. *)
Record NgbDateStruct : Type := { year : Z; month : Z; day : Z }.
Definition NgbDate : Type := NgbDateStruct.

(** The [{year, month}] objects of [startDate] and [navigateTo]. *)
Record YearMonth : Type := { ym_year : Z; ym_month : Z }.

(** [target] of a UI event: the document itself or some element. *)
Inductive EventTarget : Type :=
| TargetDocument
| TargetElement (e : ElementId).

Definition is_document (t : EventTarget) : bool :=
  match t with TargetDocument => true | TargetElement _ => false end.

(** A registered callback field such as [_onChange]: the initial no-op arrow
    function, or a function registered later. *)
Inductive Callback : Type :=
| Noop
| Registered (fn : CallbackId).

(** ** Calls that leave the class *)

Inductive Effect : Type :=
(* util/positioning *)
| EPositionElements (host target : ElementId) (placement : string) (appendToBody : bool)
(* Renderer and DOM *)
| ESetElementProperty (el : ElementId) (name : string) (v : Value)
| ESetElementClass (el : ElementId) (cls : string) (isAdd : bool)
| ESetElementStyle (el : ElementId) (name value : string)
| ESetStylePx (el : ElementId) (name : string) (px : Z)
| EAppendToBody (el : ElementId)
| EPreventDefault
(* the NgbDatepicker instance behind [_cRef] *)
| EDatepickerWriteValue (v : ViewId) (m : option NgbDate)
| EDatepickerSetInput (v : ViewId) (name : string) (x : Value)
| EDatepickerSetStartDate (v : ViewId) (d : YearMonth + option NgbDate)
| EDatepickerSubscribeNavigate (v : ViewId)
| EDatepickerNgOnInit (v : ViewId)
| EDatepickerRegisterOnChange (v : ViewId)
| EDatepickerSetDisabledState (v : ViewId) (isDisabled : bool)
| EDatepickerNavigateTo (v : ViewId) (d : option YearMonth)
(* registered callbacks and event emitters *)
| ECallOnChangeDate (fn : CallbackId) (d : option NgbDateStruct)
| ECallOnChange (fn : CallbackId) (x : Value)
| ECallOnTouched (fn : CallbackId)
| EEmitNavigate (x : Value)
| EEmitSelectItem (x : Value)
| EEmitSelectEvent (x : Value)
| EValueChangesNext (x : Value)
| ESubscribeSelectEvent (v : ViewId)
| EUnsubscribe
| EUnregisterListeners
(* NgbTypeaheadWindow.updateView: scrolls the active row into view *)
| EUpdateView (navUpwards : bool).

(** ** The monad of a method body *)

Inductive JsError : Type :=
| TypeError (what : string).

Inductive Outcome (A : Type) : Type :=
| Ok (a : A)
| Throw (e : JsError).
Arguments Ok {A} a.
Arguments Throw {A} e.

(** A computation over state [S]: a result, the new state and the effects
    performed, or an exception. *)
Definition M (S A : Type) : Type := S -> Outcome (A * S * list Effect).

Definition ret {S A} (a : A) : M S A := fun s => Ok (a, s, []).

Definition bind {S A B} (m : M S A) (k : A -> M S B) : M S B :=
  fun s =>
    match m s with
    | Throw e => Throw e
    | Ok (a, s1, t1) =>
        match k a s1 with
        | Throw e => Throw e
        | Ok (b, s2, t2) => Ok (b, s2, t1 ++ t2)
        end
    end.

Definition get {S} : M S S := fun s => Ok (s, s, []).
Definition put {S} (s : S) : M S unit := fun _ => Ok (tt, s, []).
Definition modify {S} (f : S -> S) : M S unit := fun s => Ok (tt, f s, []).
Definition emit {S} (e : Effect) : M S unit := fun s => Ok (tt, s, [e]).
Definition throw {S A} (e : JsError) : M S A := fun _ => Throw e.

Declare Scope js_scope.
Delimit Scope js_scope with js.
Notation "x <- c1 ;; c2" := (bind c1 (fun x => c2))
  (at level 61, c1 at next level, right associativity) : js_scope.
Notation "c1 ;; c2" := (bind c1 (fun _ => c2))
  (at level 61, right associativity) : js_scope.
Local Open Scope js_scope.

(** [if (c) { m }] without an else branch. *)
Definition when {S} (c : bool) (m : M S unit) : M S unit :=
  if c then m else ret tt.

(** [xs.forEach(f)]. *)
Fixpoint forEach {S A} (xs : list A) (f : A -> M S unit) : M S unit :=
  match xs with
  | [] => ret tt
  | x :: xs' => f x ;; forEach xs' f
  end.

(** Calling a callback field. *)
Definition call {S} (cb : Callback) (e : CallbackId -> Effect) : M S unit :=
  match cb with
  | Noop => ret tt
  | Registered fn => emit (e fn)
  end.

(** [m], when it completes from a state satisfying [I], ends in one. *)
Definition preserves {S A} (I : S -> Prop) (m : M S A) : Prop :=
  forall s a s' t, I s -> m s = Ok (a, s', t) -> I s'.

(** Observations of an outcome. *)
Definition state_of {S A} (o : Outcome (A * S * list Effect)) : option S :=
  match o with Ok (_, s, _) => Some s | Throw _ => None end.

Definition effects_of {S A} (o : Outcome (A * S * list Effect)) : option (list Effect) :=
  match o with Ok (_, _, t) => Some t | Throw _ => None end.

(** ** The document's capturing scroll listeners

    [document.addEventListener('scroll', l, true)] and its removal.  A
    listener already present is not added twice; removing a listener that is
    not registered, or [undefined], does nothing. *)

Definition addEventListener (l : ListenerId) (ls : list ListenerId) : list ListenerId :=
  if existsb (Nat.eqb l) ls then ls else ls ++ [l].

Definition removeEventListener (l : option ListenerId) (ls : list ListenerId)
  : list ListenerId :=
  match l with
  | None => ls
  | Some l => filter (fun x => negb (Nat.eqb l x)) ls
  end.

(** ** Code of the repository that the four source files import

    [util/util.ts], [util/positioning.ts], [util/triggers.ts],
    [util/popup.ts], [datepicker-service.ts] and the injected
    [NgbDateParserFormatter] are used by the classes below but are not among
    the files verified here; they are parameters of the development. *)

(** [toString] of [util/util]. *)
Class Util : Type := { toString : Value -> string }.

(** [Positioning.positionElements] of [util/positioning]: the computed
    [(top, left)] of the target. *)
Class PositioningService : Type :=
  { targetPosition : ElementId -> ElementId -> string -> bool -> Z * Z }.

(** [NgbDateParserFormatter] (injected) and
    [NgbDatepickerService.toValidDate(date, defaultValue)]. *)
Class DateServices : Type := {
  parse : string -> option NgbDateStruct;
  format : option NgbDate -> string;
  toValidDate : option NgbDateStruct -> option NgbDate -> option NgbDate
}.

(** [PopupService<T>] of [util/popup]: its internal state, the state of a
    new service, [open(content, withContext)], which hands back the host view
    and the element of the window it created, and [close()]. *)
Class PopupService : Type := {
  PopupState : Type;
  popup_new : PopupState;
  popup_open : Value -> bool -> PopupState -> PopupState * (ViewId * ElementId);
  popup_close : PopupState -> PopupState
}.

(** What the widgets rely on when they call [close()] on a service that has
    no window: nothing happens. *)
Class PopupServiceLaws `{PopupService} : Prop := {
  popup_close_new : popup_close popup_new = popup_new;
  popup_close_idem : forall s, popup_close (popup_close s) = popup_close s
}.

(** Events on the host element of a directive. *)
Inductive HostEvent : Type :=
| HClick
| HMouseEnter
| HMouseLeave
| HFocus
| HBlur
| HChange (value : string)
| HInput (value : string)
| HKeyDown (which : Z)
| HKeyUp (which : Z).

(** The three functions handed to [listenToTriggers]. *)
Inductive TriggerFn : Type := OpenFn | CloseFn | ToggleFn.

(** [listenToTriggers(renderer, element, triggers, openFn, closeFn, toggleFn)]
    of [util/triggers]: for a [triggers] string, which of the three functions
    the listeners it registers run, in order, when an event reaches the host. *)
Class Triggers : Type :=
  { listenToTriggers : string -> HostEvent -> list TriggerFn }.

(** [ComponentRef<T>]: the host view, [location.nativeElement] and the
    component [instance]. *)
Record ComponentRef (T : Type) : Type := {
  hostView : ViewId;
  nativeElement : ElementId;
  instance : T
}.
Arguments hostView {T} c.
Arguments nativeElement {T} c.
Arguments instance {T} c.

Definition set_instance {T} (i : T) (c : ComponentRef T) : ComponentRef T :=
  {| hostView := hostView c; nativeElement := nativeElement c; instance := i |}.

(** Reading a property of [r]: a [TypeError] when [r] is null or undefined. *)
Definition deref {S A} (r : option A) (what : string) : M S A :=
  match r with
  | Some a => ret a
  | None => throw (TypeError what)
  end.

Definition is_some {A} (o : option A) : bool :=
  match o with Some _ => true | None => false end.

Inductive Subscription : Type := Active | Unsubscribed.

(** ** NgbTypeaheadWindow *)

Module TypeaheadWindow.

(** [results] and [term] have no initialiser: they are undefined ([None])
    until the input is set. *)
Record NgbTypeaheadWindow : Type := {
  activeIdx : Z;
  focusFirst : bool;
  results : option (list Value);
  term : option string;
  formatter : Value -> string;
  resultTemplate : option TemplateId
}.

Definition set_activeIdx (i : Z) (w : NgbTypeaheadWindow) : NgbTypeaheadWindow :=
  {| activeIdx := i; focusFirst := focusFirst w; results := results w;
     term := term w; formatter := formatter w;
     resultTemplate := resultTemplate w |}.

(** Field initialisers of the class. *)
Definition new `{Util} : NgbTypeaheadWindow :=
  {| activeIdx := 0; focusFirst := true; results := None; term := None;
     formatter := toString; resultTemplate := None |}.

(** [this.results.length] *)
Definition results_length : M NgbTypeaheadWindow Z :=
  w <- get ;;
  rs <- deref (results w) "this.results" ;;
  ret (Z.of_nat (List.length rs)).

(** [this.results[this.activeIdx]]: [undefined] outside the array. *)
Definition getActive : M NgbTypeaheadWindow Value :=
  w <- get ;;
  rs <- deref (results w) "this.results" ;;
  ret (if activeIdx w <? 0 then VUndefined
       else nth (Z.to_nat (activeIdx w)) rs VUndefined).

Definition markActive (i : Z) : M NgbTypeaheadWindow unit :=
  modify (set_activeIdx i).

(** [updateView] only reads the DOM and writes [scrollTop] of the list
    element; no field of the component is touched.  Here the call is
    recorded as an effect and taken to return; what it does to the page,
    and the [TypeError] it raises when the walk up from the active row
    leaves the tree, is in [WindowView.updateView] below. *)
Definition updateView (navUpwards : bool) : M NgbTypeaheadWindow unit :=
  emit (EUpdateView navUpwards).

(** For an empty [results] JavaScript's [% 0] gives [NaN]; [Z.rem] does
    not, so the model of [next] is only meant for a non-empty list. *)
Definition next : M NgbTypeaheadWindow unit :=
  w <- get ;;
  let prevIndex := activeIdx w in
  length <- results_length ;;
  (if activeIdx w =? length - 1 then
     modify (set_activeIdx
               (if focusFirst w then Z.rem (activeIdx w + 1) length else -1))
   else
     modify (set_activeIdx (activeIdx w + 1))) ;;
  w' <- get ;;
  updateView (activeIdx w' <? prevIndex).

Definition prev : M NgbTypeaheadWindow unit :=
  w <- get ;;
  let prevIndex := activeIdx w in
  (if activeIdx w <? 0 then
     length <- results_length ;;
     modify (set_activeIdx (length - 1))
   else if activeIdx w =? 0 then
     (if focusFirst w then
        length <- results_length ;;
        modify (set_activeIdx (length - 1))
      else
        modify (set_activeIdx (-1)))
   else
     modify (set_activeIdx (activeIdx w - 1))) ;;
  w' <- get ;;
  updateView (activeIdx w' <? prevIndex).

Definition select (item : Value) : M NgbTypeaheadWindow unit :=
  emit (EEmitSelectEvent item).

Definition ngOnInit : M NgbTypeaheadWindow unit :=
  w <- get ;;
  modify (set_activeIdx (if focusFirst w then 0 else -1)).

(** A keyboard navigation step and a sequence of them. *)
Inductive Nav : Type := Next | Prev.

Definition nav (n : Nav) : M NgbTypeaheadWindow unit :=
  match n with Next => next | Prev => prev end.

Definition navs (ns : list Nav) : M NgbTypeaheadWindow unit :=
  forEach ns nav.

(** *** Closed forms used in the properties *)

(** The index [next()] and [prev()] move to from index [i], with [length]
    results. *)
Definition next_index (length : Z) (first : bool) (i : Z) : Z :=
  if i =? length - 1
  then (if first then Z.rem (i + 1) length else -1)
  else i + 1.

Definition prev_index (length : Z) (first : bool) (i : Z) : Z :=
  if i <? 0 then length - 1
  else if i =? 0 then (if first then length - 1 else -1)
  else i - 1.

(** The range the index lives in, by [focusFirst], for [length] results. *)
Definition index_ok (length : Z) (w : NgbTypeaheadWindow) : Prop :=
  (if focusFirst w then 0 else -1) <= activeIdx w <= length - 1.

End TypeaheadWindow.

(** ** NgbTypeaheadWindow.updateView and isFullyVisibleVertically

    What [updateView] stands for: the active row is scrolled into view.
    The page is what the two functions read of the DOM.  Client rectangles
    are rationals (every finite double is one; the functions only compare
    them); [offsetTop] and [offsetHeight] are integers. *)

Module WindowView.
Import QArith_base.
Local Open Scope Q_scope.

Definition Node := nat.

(** [getBoundingClientRect()], its vertical edges. *)
Record ClientRect : Type := { top : Q; bottom : Q }.

(** [document.body], [document.documentElement.clientHeight],
    [getBoundingClientRect()] of a node ([None] where the node has no such
    method, as the document itself) and [offsetHeight]. *)
Record Page : Type := {
  body : Node;
  clientHeight : Q;
  boundingClientRect : Node -> option ClientRect;
  offsetHeight : Node -> Z
}.

(** A button under the window's element: its rectangle, its offsets, and
    its ancestors, [parentNode] first, up to where [parentNode] is null. *)
Record Button : Type := {
  rect : ClientRect;
  offsetTop : Z;
  button_offsetHeight : Z;
  ancestors : list Node
}.

Definition parentElement (b : Button) : option Node := hd_error (ancestors b).

(** The object [isFullyVisibleVertically] returns. *)
Record Visibility : Type := {
  isVisible : bool;
  topClipped : option bool;
  bottomClipped : option bool
}.

Definition Qltb (x y : Q) : bool := negb (Qle_bool y x).

(** The [do ... while] loop: [chain] is [el] and the nodes above it. *)
Fixpoint climb (page : Page) (rootElement : Node) (top bottom : Q)
    (chain : list Node) : Outcome Visibility :=
  match chain with
  | [] => Throw (TypeError "el.getBoundingClientRect")
  | el :: above =>
      match boundingClientRect page el with
      | None => Throw (TypeError "el.getBoundingClientRect")
      | Some rect =>
          if Qle_bool (WindowView.bottom rect) top
             || Qltb (WindowView.bottom rect) bottom then
            Ok {| isVisible := false; topClipped := Some true; bottomClipped := None |}
          else if Qltb top (WindowView.top rect)
                  || Qle_bool bottom (WindowView.top rect) then
            Ok {| isVisible := false; topClipped := None; bottomClipped := Some true |}
          else
            match above with
            | next :: _ =>
                if negb (Nat.eqb next (body page)) && negb (Nat.eqb next rootElement)
                then climb page rootElement top bottom above
                else if Qltb (clientHeight page) bottom then
                  Ok {| isVisible := false; topClipped := None;
                        bottomClipped := Some true |}
                else
                  Ok {| isVisible := true; topClipped := None; bottomClipped := None |}
            | [] => climb page rootElement top bottom above
            end
      end
  end.

Definition isFullyVisibleVertically (page : Page) (element : Button)
    (rootElement : Node) : Outcome Visibility :=
  climb page rootElement (top (rect element)) (bottom (rect element))
        (ancestors element).

(** The buttons whose [parentElement] is the window's element. *)
Definition directChildren (nativeElement : Node) (buttons : list Button)
  : list Button :=
  filter (fun btn => match parentElement btn with
                     | Some p => Nat.eqb p nativeElement
                     | None => false
                     end) buttons.

(** [updateView(navUpwards)] for the window on [nativeElement], with
    [buttons] what [querySelectorAll('button')] finds under it: the element
    whose [scrollTop] is assigned, and the value, if any. *)
Definition updateView (page : Page) (nativeElement : Node) (buttons : list Button)
    (activeIdx : Z) (navUpwards : bool) : Outcome (option (Node * Z)) :=
  let directChildren := directChildren nativeElement buttons in
  if ((activeIdx <? 0) || (Z.of_nat (List.length directChildren) <=? activeIdx))%Z
  then Ok None
  else
    match nth_error directChildren (Z.to_nat activeIdx) with
    | None => Ok None
    | Some elem =>
        match isFullyVisibleVertically page elem nativeElement with
        | Throw e => Throw e
        | Ok result =>
            if negb (isVisible result) then
              match parentElement elem with
              | None => Throw (TypeError "elem.parentElement")
              | Some parent =>
                  if navUpwards then Ok (Some (parent, offsetTop elem))
                  else
                    Ok (Some (parent,
                              (offsetTop elem + button_offsetHeight elem
                               - offsetHeight page parent)%Z))
              end
            else Ok None
        end
    end.

(** The ancestors the loop looks at: the first, and then on while the next
    is neither the body nor the root element. *)
Fixpoint climbed (page : Page) (rootElement : Node) (chain : list Node) : list Node :=
  match chain with
  | [] => []
  | el :: above =>
      el :: match above with
            | next :: _ =>
                if negb (Nat.eqb next (body page)) && negb (Nat.eqb next rootElement)
                then climbed page rootElement above
                else []
            | [] => []
            end
  end.

(** The rectangle [r] holds the span from [top] to [bottom]. *)
Definition holds (r : ClientRect) (top bottom : Q) : Prop :=
  WindowView.top r <= top /\ top < WindowView.bottom r /\
  WindowView.top r < bottom /\ bottom <= WindowView.bottom r.

End WindowView.

(** ** NgbInputDatepicker *)

Module Datepicker.
Section WithServices.
Context `{DateServices}.

(** The fields of the directive.  [options] is the lookup [this[optionName]]
    of the inputs that [_applyDatepickerInputs] copies by name;
    [_zoneSubscription] is the subscription to [ngZone.onStable].  In
    [_cRef], [_model] and [_scrollListener], [None] is [null] as well as
    [undefined]: the class reads them only through truthiness tests, or
    hands them on. *)
Record NgbInputDatepicker : Type := {
  _cRef : option (ComponentRef unit);
  _model : option NgbDate;
  _zoneSubscription : Subscription;
  _ignoreUpdatePosition : bool;
  _scrollListener : option ListenerId;
  options : string -> Value;
  startDate : option YearMonth;
  _onChange : Callback;
  _onTouched : Callback;
  _elRef : ElementId
}.

(** The directive together with what its methods reach: the capturing
    scroll listeners of [document], the views of [_vcRef], and the next
    unused object identity. *)
Record World : Type := {
  this : NgbInputDatepicker;
  scrollListeners : list ListenerId;
  views : list ViewId;
  fresh : nat
}.

Definition set_cRef (c : option (ComponentRef unit)) (d : NgbInputDatepicker) :=
  {| _cRef := c; _model := _model d; _zoneSubscription := _zoneSubscription d;
     _ignoreUpdatePosition := _ignoreUpdatePosition d;
     _scrollListener := _scrollListener d; options := options d;
     startDate := startDate d; _onChange := _onChange d;
     _onTouched := _onTouched d; _elRef := _elRef d |}.

Definition set_model (m : option NgbDate) (d : NgbInputDatepicker) :=
  {| _cRef := _cRef d; _model := m; _zoneSubscription := _zoneSubscription d;
     _ignoreUpdatePosition := _ignoreUpdatePosition d;
     _scrollListener := _scrollListener d; options := options d;
     startDate := startDate d; _onChange := _onChange d;
     _onTouched := _onTouched d; _elRef := _elRef d |}.

Definition set_zoneSubscription (z : Subscription) (d : NgbInputDatepicker) :=
  {| _cRef := _cRef d; _model := _model d; _zoneSubscription := z;
     _ignoreUpdatePosition := _ignoreUpdatePosition d;
     _scrollListener := _scrollListener d; options := options d;
     startDate := startDate d; _onChange := _onChange d;
     _onTouched := _onTouched d; _elRef := _elRef d |}.

Definition set_ignoreUpdatePosition (b : bool) (d : NgbInputDatepicker) :=
  {| _cRef := _cRef d; _model := _model d; _zoneSubscription := _zoneSubscription d;
     _ignoreUpdatePosition := b;
     _scrollListener := _scrollListener d; options := options d;
     startDate := startDate d; _onChange := _onChange d;
     _onTouched := _onTouched d; _elRef := _elRef d |}.

Definition set_scrollListener (l : option ListenerId) (d : NgbInputDatepicker) :=
  {| _cRef := _cRef d; _model := _model d; _zoneSubscription := _zoneSubscription d;
     _ignoreUpdatePosition := _ignoreUpdatePosition d;
     _scrollListener := l; options := options d;
     startDate := startDate d; _onChange := _onChange d;
     _onTouched := _onTouched d; _elRef := _elRef d |}.

Definition set_onChange (f : Callback) (d : NgbInputDatepicker) :=
  {| _cRef := _cRef d; _model := _model d; _zoneSubscription := _zoneSubscription d;
     _ignoreUpdatePosition := _ignoreUpdatePosition d;
     _scrollListener := _scrollListener d; options := options d;
     startDate := startDate d; _onChange := f;
     _onTouched := _onTouched d; _elRef := _elRef d |}.

Definition set_onTouched (f : Callback) (d : NgbInputDatepicker) :=
  {| _cRef := _cRef d; _model := _model d; _zoneSubscription := _zoneSubscription d;
     _ignoreUpdatePosition := _ignoreUpdatePosition d;
     _scrollListener := _scrollListener d; options := options d;
     startDate := startDate d; _onChange := _onChange d;
     _onTouched := f; _elRef := _elRef d |}.

Definition on_this (f : NgbInputDatepicker -> NgbInputDatepicker) (w : World) : World :=
  {| this := f (this w); scrollListeners := scrollListeners w;
     views := views w; fresh := fresh w |}.

Definition set_scrollListeners (ls : list ListenerId) (w : World) : World :=
  {| this := this w; scrollListeners := ls; views := views w; fresh := fresh w |}.

Definition set_views (vs : list ViewId) (w : World) : World :=
  {| this := this w; scrollListeners := scrollListeners w; views := vs;
     fresh := fresh w |}.

Definition set_fresh (n : nat) (w : World) : World :=
  {| this := this w; scrollListeners := scrollListeners w; views := views w;
     fresh := n |}.

(** The directive as its constructor and field initialisers leave it. *)
Definition new (el : ElementId) : NgbInputDatepicker :=
  {| _cRef := None; _model := None; _zoneSubscription := Active;
     _ignoreUpdatePosition := false; _scrollListener := None;
     options := fun _ => VUndefined; startDate := None;
     _onChange := Noop; _onTouched := Noop; _elRef := el |}.

(** *** ViewContainerRef (Angular): [createComponent], [indexOf], [remove] *)

Definition createComponent : M World (ComponentRef unit) :=
  w <- get ;;
  let n := fresh w in
  modify (set_views (views w ++ [n])) ;;
  modify (set_fresh (S n)) ;;
  ret {| hostView := n; nativeElement := n; instance := tt |}.

Fixpoint index_from (i : Z) (v : ViewId) (vs : list ViewId) : Z :=
  match vs with
  | [] => -1
  | x :: vs' => if Nat.eqb x v then i else index_from (i + 1) v vs'
  end.

Definition vcRef_indexOf (v : ViewId) : M World Z :=
  w <- get ;; ret (index_from 0 v (views w)).

(** [remove(index)]: index [-1] stands for the last view. *)
Definition vcRef_remove (i : Z) : M World unit :=
  w <- get ;;
  let vs := views w in
  if i =? -1 then modify (set_views (removelast vs))
  else modify (set_views (firstn (Z.to_nat i) vs ++ skipn (S (Z.to_nat i)) vs)).

(** A new closure for [_scrollListener]. *)
Definition newListener : M World ListenerId :=
  w <- get ;;
  modify (set_fresh (S (fresh w))) ;;
  ret (fresh w).

(** *** Methods *)

Definition the_cRef : M World (ComponentRef unit) :=
  w <- get ;; deref (_cRef (this w)) "this._cRef".

Definition isOpen : M World bool :=
  w <- get ;; ret (is_some (_cRef (this w))).

(** The subscriber of [ngZone.onStable] installed by the constructor. *)
Definition onStable : M World unit :=
  w <- get ;;
  when (is_some (_cRef (this w)) && negb (_ignoreUpdatePosition (this w)))
    (c <- the_cRef ;;
     emit (EPositionElements (_elRef (this w)) (nativeElement c) "bottom-left" true)) ;;
  modify (on_this (set_ignoreUpdatePosition false)).

(** The zone becoming stable: subscribers still subscribed are run. *)
Definition zoneStable : M World unit :=
  w <- get ;;
  match _zoneSubscription (this w) with
  | Active => onStable
  | Unsubscribed => ret tt
  end.

Definition registerOnChange (fn : CallbackId) : M World unit :=
  modify (on_this (set_onChange (Registered fn))).

Definition registerOnTouched (fn : CallbackId) : M World unit :=
  modify (on_this (set_onTouched (Registered fn))).

Definition _writeModelValue (model : option NgbDate) : M World unit :=
  w <- get ;;
  emit (ESetElementProperty (_elRef (this w)) "value" (VStr (format model))) ;;
  o <- isOpen ;;
  when o
    (c <- the_cRef ;;
     emit (EDatepickerWriteValue (hostView c) model) ;;
     call (_onTouched (this w)) ECallOnTouched).

Definition writeValue (value : option NgbDateStruct) : M World unit :=
  modify (on_this (set_model
    match value with
    | Some v => toValidDate (Some {| year := year v; month := month v; day := day v |}) None
    | None => None
    end)) ;;
  w <- get ;;
  _writeModelValue (_model (this w)).

Definition setDisabledState (isDisabled : bool) : M World unit :=
  w <- get ;;
  emit (ESetElementProperty (_elRef (this w)) "disabled" (VBool isDisabled)) ;;
  o <- isOpen ;;
  when o
    (c <- the_cRef ;;
     emit (EDatepickerSetDisabledState (hostView c) isDisabled)).

Definition manualDateChange (value : string) : M World unit :=
  modify (on_this (set_model (toValidDate (parse value) None))) ;;
  w <- get ;;
  call (_onChange (this w))
    (fun fn => ECallOnChangeDate fn
       match _model (this w) with
       | Some m => Some {| year := year m; month := month m; day := day m |}
       | None => None
       end) ;;
  _writeModelValue (_model (this w)).

Definition _applyPopupStyling (nativeElement : ElementId) : M World unit :=
  emit (ESetElementClass nativeElement "dropdown-menu" true) ;;
  emit (ESetElementStyle nativeElement "display" "block") ;;
  emit (ESetElementStyle nativeElement "padding" "0.40rem").

Definition optionNames : list string :=
  ["dayTemplate"; "displayMonths"; "firstDayOfWeek"; "markDisabled"; "minDate";
   "maxDate"; "navigation"; "outsideDays"; "showFooter"; "showNavigation";
   "showWeekdays"; "showWeekNumbers"].

Definition _applyDatepickerInputs (datepickerInstance : ViewId) : M World unit :=
  forEach optionNames (fun optionName =>
    w <- get ;;
    match options (this w) optionName with
    | VUndefined => ret tt
    | v => emit (EDatepickerSetInput datepickerInstance optionName v)
    end) ;;
  w <- get ;;
  emit (EDatepickerSetStartDate datepickerInstance
          match startDate (this w) with
          | Some d => inl d
          | None => inr (_model (this w))
          end).

Definition _subscribeForDatepickerOutputs (datepickerInstance : ViewId) : M World unit :=
  emit (EDatepickerSubscribeNavigate datepickerInstance).

(** The subscriber installed by [_subscribeForDatepickerOutputs]: the popup
    has navigated. *)
Definition onNavigate (date : Value) : M World unit :=
  emit (EEmitNavigate date).

(** The body of the arrow function stored in [_scrollListener]. *)
Definition scrollListener (target : EventTarget) : M World unit :=
  when (is_document target)
    (modify (on_this (set_ignoreUpdatePosition true))).

(** The calls into the popup component ([writeValue], [ngOnInit] and
    [registerOnChange] of [NgbDatepicker], whose file is not among those
    verified here) are recorded as effects and taken to return.  Should one
    of them throw, [open] stops there, with [_cRef] set and the scroll
    listener not yet registered. *)
Definition open : M World unit :=
  o <- isOpen ;;
  when (negb o)
    (c <- createComponent ;;
     modify (on_this (set_cRef (Some c))) ;;
     c <- the_cRef ;;
     _applyPopupStyling (nativeElement c) ;;
     w <- get ;;
     emit (EDatepickerWriteValue (hostView c) (_model (this w))) ;;
     _applyDatepickerInputs (hostView c) ;;
     _subscribeForDatepickerOutputs (hostView c) ;;
     emit (EDatepickerNgOnInit (hostView c)) ;;
     emit (EDatepickerRegisterOnChange (hostView c)) ;;
     emit (EAppendToBody (nativeElement c)) ;;
     l <- newListener ;;
     modify (on_this (set_scrollListener (Some l))) ;;
     w <- get ;;
     modify (set_scrollListeners (addEventListener l (scrollListeners w)))).

Definition close : M World unit :=
  w <- get ;;
  modify (set_scrollListeners
            (removeEventListener (_scrollListener (this w)) (scrollListeners w))) ;;
  o <- isOpen ;;
  when o
    (c <- the_cRef ;;
     i <- vcRef_indexOf (hostView c) ;;
     vcRef_remove i ;;
     modify (on_this (set_cRef None))).

Definition toggle : M World unit :=
  o <- isOpen ;;
  if o then close else open.

(** The function given to [registerOnChange] of the popup in [open]: a
    date was picked. *)
Definition onDateSelect (selectedDate : option NgbDateStruct) : M World unit :=
  writeValue selectedDate ;;
  w <- get ;;
  call (_onChange (this w)) (fun fn => ECallOnChangeDate fn selectedDate) ;;
  close.

Definition navigateTo (date : option YearMonth) : M World unit :=
  o <- isOpen ;;
  when o
    (c <- the_cRef ;;
     emit (EDatepickerNavigateTo (hostView c) date)).

Definition onBlur : M World unit :=
  w <- get ;; call (_onTouched (this w)) ECallOnTouched.

Definition ngOnDestroy : M World unit :=
  close ;;
  modify (on_this (set_zoneSubscription Unsubscribed)).

(** *** Events reaching the directive *)

(** A scroll event in the document: every registered capturing listener
    runs; here these are the closures made by [open]. *)
Definition scroll (target : EventTarget) : M World unit :=
  w <- get ;;
  forEach (scrollListeners w) (fun _ => scrollListener target).

(** The host bindings [(change)], [(keyup.esc)] and [(blur)]. *)
Definition host (ev : HostEvent) : M World unit :=
  match ev with
  | HChange value => manualDateChange value
  | HKeyUp 27 => close
  | HBlur => onBlur
  | _ => ret tt
  end.

(** Pressing and releasing the Escape key on the input. *)
Definition pressEscape : M World unit :=
  host (HKeyDown 27) ;; host (HKeyUp 27).

(** *** Everything that can happen to the directive *)

(** Angular assigning the bound inputs: the input fields become those of
    [from]. *)
Definition with_inputs (from d : NgbInputDatepicker) : NgbInputDatepicker :=
  {| _cRef := _cRef d; _model := _model d; _zoneSubscription := _zoneSubscription d;
     _ignoreUpdatePosition := _ignoreUpdatePosition d;
     _scrollListener := _scrollListener d; options := options from;
     startDate := startDate from; _onChange := _onChange d;
     _onTouched := _onTouched d; _elRef := _elRef d |}.

Inductive Action : Type :=
| Inputs (from : NgbInputDatepicker)
| RegisterOnChange (fn : CallbackId)
| RegisterOnTouched (fn : CallbackId)
| WriteValue (value : option NgbDateStruct)
| SetDisabledState (isDisabled : bool)
| Open
| Close
| Toggle
| NavigateTo (date : option YearMonth)
| Host (ev : HostEvent)
| Scroll (target : EventTarget)
| ZoneStable
| DateSelect (selectedDate : option NgbDateStruct)
| Navigate (date : Value)
| Destroy.

Definition perform (a : Action) : M World unit :=
  match a with
  | Inputs from => modify (on_this (with_inputs from))
  | RegisterOnChange fn => registerOnChange fn
  | RegisterOnTouched fn => registerOnTouched fn
  | WriteValue value => writeValue value
  | SetDisabledState isDisabled => setDisabledState isDisabled
  | Open => open
  | Close => close
  | Toggle => toggle
  | NavigateTo date => navigateTo date
  | Host ev => host ev
  | Scroll target => scroll target
  | ZoneStable => zoneStable
  | DateSelect selectedDate => onDateSelect selectedDate
  | Navigate date => onNavigate date
  | Destroy => ngOnDestroy
  end.

(** The worlds a directive can be in: constructed on some element, with no
    listener and no view of its own around yet, and then taken through any
    actions that complete. *)
Inductive reachable : World -> Prop :=
| reachable_new (el : ElementId) (n : nat) :
    reachable {| this := new el; scrollListeners := []; views := []; fresh := n |}
| reachable_step (w w' : World) (a : Action) (t : list Effect) :
    reachable w -> perform a w = Ok (tt, w', t) -> reachable w'.

(** With a panel, its view is the one view and the closure in
    [_scrollListener] the one listener; without, there is neither. *)
Definition consistent (w : World) : Prop :=
  match _cRef (this w) with
  | Some c =>
      (exists l, _scrollListener (this w) = Some l /\ scrollListeners w = [l]) /\
      views w = [hostView c]
  | None => scrollListeners w = [] /\ views w = []
  end.

(** *** Closed forms used in the properties *)

Definition flagged (w : World) : World := on_this (set_ignoreUpdatePosition true) w.

(** The views of [_vcRef] once the view of [c] is removed. *)
Definition without_view (c : ComponentRef unit) (vs : list ViewId) : list ViewId :=
  let i := index_from 0 (hostView c) vs in
  if i =? -1 then removelast vs
  else firstn (Z.to_nat i) vs ++ skipn (S (Z.to_nat i)) vs.

Definition closed (w : World) : World :=
  {| this := set_cRef None (this w);
     scrollListeners := removeEventListener (_scrollListener (this w)) (scrollListeners w);
     views := match _cRef (this w) with
              | Some c => without_view c (views w)
              | None => views w
              end;
     fresh := fresh w |}.

Definition inputEffects (v : ViewId) (d : NgbInputDatepicker) : list Effect :=
  flat_map (fun optionName =>
              match options d optionName with
              | VUndefined => []
              | x => [EDatepickerSetInput v optionName x]
              end) optionNames ++
  [EDatepickerSetStartDate v
     match startDate d with Some s => inl s | None => inr (_model d) end].

Definition opened (w : World) : World :=
  let n := fresh w in
  {| this := set_scrollListener (Some (S n))
               (set_cRef (Some {| hostView := n; nativeElement := n; instance := tt |})
                  (this w));
     scrollListeners := addEventListener (S n) (scrollListeners w);
     views := views w ++ [n];
     fresh := S (S n) |}.

(** *** Closed forms of the form-control methods *)

(** What [_writeModelValue(model)] does: the formatted date goes into the
    input and, with the popup open, the popup is told and [_onTouched] is
    called. *)
Definition modelEffects (d : NgbInputDatepicker) (model : option NgbDate)
  : list Effect :=
  ESetElementProperty (_elRef d) "value" (VStr (format model)) ::
  match _cRef d with
  | Some c =>
      EDatepickerWriteValue (hostView c) model ::
      match _onTouched d with
      | Registered fn => [ECallOnTouched fn]
      | Noop => []
      end
  | None => []
  end.

(** What [open] does to the popup [n] it creates. *)
Definition openEffects (n : nat) (d : NgbInputDatepicker) : list Effect :=
  [ESetElementClass n "dropdown-menu" true;
   ESetElementStyle n "display" "block";
   ESetElementStyle n "padding" "0.40rem";
   EDatepickerWriteValue n (_model d)] ++
  inputEffects n d ++
  [EDatepickerSubscribeNavigate n;
   EDatepickerNgOnInit n;
   EDatepickerRegisterOnChange n;
   EAppendToBody n].

(** A sequence of actions. *)
Definition performs (acts : list Action) : M World unit :=
  forEach acts perform.

End WithServices.
End Datepicker.

(** ** NgbPopoverWindow and NgbPopover *)

Module Popover.
Section WithServices.
Context `{PopupService} `{Triggers}.

Inductive Placement : Type := top | bottom | left | right.

Definition placement_name (p : Placement) : string :=
  match p with
  | top => "top" | bottom => "bottom" | left => "left" | right => "right"
  end.

Record NgbPopoverWindow : Type := {
  win_placement : Placement;
  win_title : Value
}.

(** Field initialisers of [NgbPopoverWindow]. *)
Definition new_window : NgbPopoverWindow :=
  {| win_placement := top; win_title := VUndefined |}.

(** The fields of the directive.  [_unregisterListenersFn] is [None] while
    undefined and holds the [triggers] the listeners were made from once
    [ngOnInit] has run.  In [_windowRef], [None] is [null] as well as
    [undefined]: the class only tests the reference for truthiness. *)
Record NgbPopover : Type := {
  ngbPopover : Value;
  title : Value;
  placement : Placement;
  triggers : string;
  _popupService : PopupState;
  _windowRef : option (ComponentRef NgbPopoverWindow);
  _unregisterListenersFn : option string;
  _ignoreUpdatePosition : bool;
  _scrollListener : option ListenerId;
  _elementRef : ElementId
}.

(** The directive, the capturing scroll listeners of [document], the
    trigger listeners on the host element ([None]: none are registered)
    and the next unused object identity. *)
Record World : Type := {
  this : NgbPopover;
  scrollListeners : list ListenerId;
  hostListeners : option string;
  fresh : nat
}.

Definition set_popupService (s : PopupState) (p : NgbPopover) :=
  {| ngbPopover := ngbPopover p; title := title p; placement := placement p;
     triggers := triggers p; _popupService := s; _windowRef := _windowRef p;
     _unregisterListenersFn := _unregisterListenersFn p;
     _ignoreUpdatePosition := _ignoreUpdatePosition p;
     _scrollListener := _scrollListener p; _elementRef := _elementRef p |}.

Definition set_windowRef (r : option (ComponentRef NgbPopoverWindow)) (p : NgbPopover) :=
  {| ngbPopover := ngbPopover p; title := title p; placement := placement p;
     triggers := triggers p; _popupService := _popupService p; _windowRef := r;
     _unregisterListenersFn := _unregisterListenersFn p;
     _ignoreUpdatePosition := _ignoreUpdatePosition p;
     _scrollListener := _scrollListener p; _elementRef := _elementRef p |}.

Definition set_unregisterListenersFn (u : option string) (p : NgbPopover) :=
  {| ngbPopover := ngbPopover p; title := title p; placement := placement p;
     triggers := triggers p; _popupService := _popupService p;
     _windowRef := _windowRef p; _unregisterListenersFn := u;
     _ignoreUpdatePosition := _ignoreUpdatePosition p;
     _scrollListener := _scrollListener p; _elementRef := _elementRef p |}.

Definition set_ignoreUpdatePosition (b : bool) (p : NgbPopover) :=
  {| ngbPopover := ngbPopover p; title := title p; placement := placement p;
     triggers := triggers p; _popupService := _popupService p;
     _windowRef := _windowRef p;
     _unregisterListenersFn := _unregisterListenersFn p;
     _ignoreUpdatePosition := b;
     _scrollListener := _scrollListener p; _elementRef := _elementRef p |}.

Definition set_scrollListener (l : option ListenerId) (p : NgbPopover) :=
  {| ngbPopover := ngbPopover p; title := title p; placement := placement p;
     triggers := triggers p; _popupService := _popupService p;
     _windowRef := _windowRef p;
     _unregisterListenersFn := _unregisterListenersFn p;
     _ignoreUpdatePosition := _ignoreUpdatePosition p;
     _scrollListener := l; _elementRef := _elementRef p |}.

Definition on_this (f : NgbPopover -> NgbPopover) (w : World) : World :=
  {| this := f (this w); scrollListeners := scrollListeners w;
     hostListeners := hostListeners w; fresh := fresh w |}.

Definition set_scrollListeners (ls : list ListenerId) (w : World) : World :=
  {| this := this w; scrollListeners := ls; hostListeners := hostListeners w;
     fresh := fresh w |}.

Definition set_hostListeners (h : option string) (w : World) : World :=
  {| this := this w; scrollListeners := scrollListeners w; hostListeners := h;
     fresh := fresh w |}.

Definition set_fresh (n : nat) (w : World) : World :=
  {| this := this w; scrollListeners := scrollListeners w;
     hostListeners := hostListeners w; fresh := n |}.

(** The constructor: [placement] and [triggers] come from the injected
    [NgbPopoverConfig]; the inputs are still unset. *)
Definition new (el : ElementId) (config_placement : Placement)
    (config_triggers : string) : NgbPopover :=
  {| ngbPopover := VUndefined; title := VUndefined;
     placement := config_placement; triggers := config_triggers;
     _popupService := popup_new; _windowRef := None;
     _unregisterListenersFn := None; _ignoreUpdatePosition := false;
     _scrollListener := None; _elementRef := el |}.

Definition newListener : M World ListenerId :=
  w <- get ;;
  modify (set_fresh (S (fresh w))) ;;
  ret (fresh w).

Definition the_windowRef : M World (ComponentRef NgbPopoverWindow) :=
  w <- get ;; deref (_windowRef (this w)) "this._windowRef".

(** [this._popupService.open(content, withContext)] *)
Definition popupService_open (content : Value) (withContext : bool)
  : M World (ComponentRef NgbPopoverWindow) :=
  w <- get ;;
  let '(s, (v, el)) := popup_open content withContext (_popupService (this w)) in
  modify (on_this (set_popupService s)) ;;
  ret {| hostView := v; nativeElement := el; instance := new_window |}.

(** [this._popupService.close()] *)
Definition popupService_close : M World unit :=
  w <- get ;;
  modify (on_this (set_popupService (popup_close (_popupService (this w))))).

(** The body of the arrow function stored in [_scrollListener]. *)
Definition scrollListener (target : EventTarget) : M World unit :=
  when (is_document target)
    (modify (on_this (set_ignoreUpdatePosition true))).

Definition open : M World unit :=
  w <- get ;;
  when (negb (is_some (_windowRef (this w))))
    (r <- popupService_open (ngbPopover (this w)) true ;;
     modify (on_this (set_windowRef (Some r))) ;;
     r <- the_windowRef ;;
     modify (on_this (set_windowRef (Some (set_instance
               {| win_placement := placement (this w);
                  win_title := win_title (instance r) |} r)))) ;;
     r <- the_windowRef ;;
     modify (on_this (set_windowRef (Some (set_instance
               {| win_placement := win_placement (instance r);
                  win_title := title (this w) |} r)))) ;;
     l <- newListener ;;
     modify (on_this (set_scrollListener (Some l))) ;;
     w' <- get ;;
     modify (set_scrollListeners (addEventListener l (scrollListeners w')))).

Definition close : M World unit :=
  w <- get ;;
  modify (set_scrollListeners
            (removeEventListener (_scrollListener (this w)) (scrollListeners w))) ;;
  popupService_close ;;
  modify (on_this (set_windowRef None)).

Definition toggle : M World unit :=
  w <- get ;;
  if is_some (_windowRef (this w)) then close else open.

(** The framework calls [ngOnInit] once.  [hostListeners] holds the
    listeners of that one call: a second call would register a further set
    and leave the first in place, which is not kept here (see
    [initialised]). *)
Definition ngOnInit : M World unit :=
  w <- get ;;
  modify (set_hostListeners (Some (triggers (this w)))) ;;
  modify (on_this (set_unregisterListenersFn (Some (triggers (this w))))).

Definition ngAfterViewChecked : M World unit :=
  w <- get ;;
  when (is_some (_windowRef (this w)) && negb (_ignoreUpdatePosition (this w)))
    (r <- the_windowRef ;;
     emit (EPositionElements (_elementRef (this w)) (nativeElement r)
             (placement_name (placement (this w))) true)) ;;
  modify (on_this (set_ignoreUpdatePosition false)).

Definition ngOnDestroy : M World unit :=
  close ;;
  w <- get ;;
  _ <- deref (_unregisterListenersFn (this w)) "this._unregisterListenersFn" ;;
  emit EUnregisterListeners ;;
  modify (set_hostListeners None).

(** *** Events reaching the directive *)

Definition scroll (target : EventTarget) : M World unit :=
  w <- get ;;
  forEach (scrollListeners w) (fun _ => scrollListener target).

Definition trigger (f : TriggerFn) : M World unit :=
  match f with
  | OpenFn => open
  | CloseFn => close
  | ToggleFn => toggle
  end.

(** The directive has no host bindings of its own: an event on the host
    runs what the listeners made by [listenToTriggers] are bound to. *)
Definition host (ev : HostEvent) : M World unit :=
  w <- get ;;
  match hostListeners w with
  | Some t => forEach (listenToTriggers t ev) trigger
  | None => ret tt
  end.

Definition pressEscape : M World unit :=
  host (HKeyDown 27) ;; host (HKeyUp 27).

(** *** Everything that can happen to the directive *)

(** Angular assigning the bound inputs: the input fields become those of
    [from]. *)
Definition with_inputs (from p : NgbPopover) : NgbPopover :=
  {| ngbPopover := ngbPopover from; title := title from;
     placement := placement from; triggers := triggers from;
     _popupService := _popupService p; _windowRef := _windowRef p;
     _unregisterListenersFn := _unregisterListenersFn p;
     _ignoreUpdatePosition := _ignoreUpdatePosition p;
     _scrollListener := _scrollListener p; _elementRef := _elementRef p |}.

Inductive Action : Type :=
| Inputs (from : NgbPopover)
| Open
| Close
| Toggle
| Init
| AfterViewChecked
| Host (ev : HostEvent)
| Scroll (target : EventTarget)
| Destroy.

Definition perform (a : Action) : M World unit :=
  match a with
  | Inputs from => modify (on_this (with_inputs from))
  | Open => open
  | Close => close
  | Toggle => toggle
  | Init => ngOnInit
  | AfterViewChecked => ngAfterViewChecked
  | Host ev => host ev
  | Scroll target => scroll target
  | Destroy => ngOnDestroy
  end.

Inductive reachable : World -> Prop :=
| reachable_new (el : ElementId) (config_placement : Placement)
    (config_triggers : string) (n : nat) :
    reachable {| this := new el config_placement config_triggers;
                 scrollListeners := []; hostListeners := None; fresh := n |}
| reachable_step (w w' : World) (a : Action) (t : list Effect) :
    reachable w -> perform a w = Ok (tt, w', t) -> reachable w'.

(** With a panel, the closure in [_scrollListener] is the one listener;
    without, there is none and the popup service has nothing to close. *)
Definition consistent (w : World) : Prop :=
  match _windowRef (this w) with
  | Some _ => exists l, _scrollListener (this w) = Some l /\ scrollListeners w = [l]
  | None =>
      scrollListeners w = [] /\
      popup_close (_popupService (this w)) = _popupService (this w)
  end.

(** The directive as the framework drives it.  First it is constructed and
    its bound inputs are assigned. *)
Inductive constructed : World -> Prop :=
| constructed_new (el : ElementId) (config_placement : Placement)
    (config_triggers : string) (n : nat) :
    constructed {| this := new el config_placement config_triggers;
                   scrollListeners := []; hostListeners := None; fresh := n |}
| constructed_inputs (w : World) (from : NgbPopover) :
    constructed w -> constructed (on_this (with_inputs from) w).

(** Then [ngOnInit] runs, once, and after it whatever happens to the
    directive, [ngOnInit] apart. *)
Inductive initialised : World -> Prop :=
| initialised_ngOnInit (w0 w : World) (t : list Effect) :
    constructed w0 -> ngOnInit w0 = Ok (tt, w, t) -> initialised w
| initialised_step (w w' : World) (a : Action) (t : list Effect) :
    initialised w -> a <> Init -> perform a w = Ok (tt, w', t) -> initialised w'.

(** *** Closed forms used in the properties *)

Definition flagged (w : World) : World :=
  on_this (set_ignoreUpdatePosition true) w.

Definition closed (w : World) : World :=
  {| this := set_windowRef None
               (set_popupService (popup_close (_popupService (this w))) (this w));
     scrollListeners := removeEventListener (_scrollListener (this w)) (scrollListeners w);
     hostListeners := hostListeners w;
     fresh := fresh w |}.

Definition opened (w : World) : World :=
  let r := popup_open (ngbPopover (this w)) true (_popupService (this w)) in
  let n := fresh w in
  {| this := set_scrollListener (Some n)
               (set_windowRef
                  (Some {| hostView := fst (snd r); nativeElement := snd (snd r);
                           instance := {| win_placement := placement (this w);
                                          win_title := title (this w) |} |})
                  (set_popupService (fst r) (this w)));
     scrollListeners := addEventListener n (scrollListeners w);
     hostListeners := hostListeners w;
     fresh := S n |}.

(** *** Listeners *)

(** With a panel, the closure in [_scrollListener] is the one listener on
    the document; without, there is none. *)
Definition oneListener (w : World) : Prop :=
  match _windowRef (this w) with
  | Some _ => exists l, _scrollListener (this w) = Some l /\ scrollListeners w = [l]
  | None => scrollListeners w = []
  end.

End WithServices.
End Popover.

(** ** NgbTypeahead *)

Module Typeahead.
Import TypeaheadWindow.
Section WithServices.
Context `{Util} `{PositioningService} `{PopupService}.

(** [enum Key] *)
Inductive Key : Type := Tab | Enter | Escape | ArrowUp | ArrowDown.

Definition Key_value (k : Key) : Z :=
  match k with
  | Tab => 9 | Enter => 13 | Escape => 27 | ArrowUp => 38 | ArrowDown => 40
  end.

Definition Key_name (k : Key) : string :=
  match k with
  | Tab => "Tab" | Enter => "Enter" | Escape => "Escape"
  | ArrowUp => "ArrowUp" | ArrowDown => "ArrowDown"
  end.

Definition Key_all : list Key := [Tab; Enter; Escape; ArrowUp; ArrowDown].

(** The object a numeric TypeScript enum compiles to maps every name to
    its number and every number, as a property name, back to its name;
    [Key[s]] is the property [s] of that object. *)
Definition Key_properties : list (string * Value) :=
  map (fun k => (Key_name k, VNum (Key_value k))) Key_all ++
  [("9", VStr "Tab"); ("13", VStr "Enter"); ("27", VStr "Escape");
   ("38", VStr "ArrowUp"); ("40", VStr "ArrowDown")].

Fixpoint property (s : string) (ps : list (string * Value)) : Value :=
  match ps with
  | [] => VUndefined
  | (k, v) :: ps' => if String.eqb k s then v else property s ps'
  end.

Definition Key_at (s : string) : Value := property s Key_properties.

(** The fields of the directive.  In [_windowRef], [None] is [null] as well
    as [undefined]: the class tests the reference for truthiness or with
    [!= null]. *)
Record NgbTypeahead : Type := {
  _onChangeNoEmit : Callback;
  _popupService : PopupState;
  _subscription : option Subscription;
  _windowRef : option (ComponentRef NgbTypeaheadWindow);
  _ignoreUpdatePosition : bool;
  _scrollListener : option ListenerId;
  inputFormatter : option (Value -> string);
  ngbTypeahead : option CallbackId;
  resultFormatter : option (Value -> string);
  resultTemplate : option TemplateId;
  onTouched : Callback;
  _elementRef : ElementId
}.

Record World : Type := {
  this : NgbTypeahead;
  scrollListeners : list ListenerId;
  fresh : nat
}.

Definition set_onChangeNoEmit (f : Callback) (t : NgbTypeahead) :=
  {| _onChangeNoEmit := f; _popupService := _popupService t;
     _subscription := _subscription t; _windowRef := _windowRef t;
     _ignoreUpdatePosition := _ignoreUpdatePosition t;
     _scrollListener := _scrollListener t; inputFormatter := inputFormatter t;
     ngbTypeahead := ngbTypeahead t; resultFormatter := resultFormatter t;
     resultTemplate := resultTemplate t; onTouched := onTouched t;
     _elementRef := _elementRef t |}.

Definition set_popupService (s : PopupState) (t : NgbTypeahead) :=
  {| _onChangeNoEmit := _onChangeNoEmit t; _popupService := s;
     _subscription := _subscription t; _windowRef := _windowRef t;
     _ignoreUpdatePosition := _ignoreUpdatePosition t;
     _scrollListener := _scrollListener t; inputFormatter := inputFormatter t;
     ngbTypeahead := ngbTypeahead t; resultFormatter := resultFormatter t;
     resultTemplate := resultTemplate t; onTouched := onTouched t;
     _elementRef := _elementRef t |}.

Definition set_subscription (u : option Subscription) (t : NgbTypeahead) :=
  {| _onChangeNoEmit := _onChangeNoEmit t; _popupService := _popupService t;
     _subscription := u; _windowRef := _windowRef t;
     _ignoreUpdatePosition := _ignoreUpdatePosition t;
     _scrollListener := _scrollListener t; inputFormatter := inputFormatter t;
     ngbTypeahead := ngbTypeahead t; resultFormatter := resultFormatter t;
     resultTemplate := resultTemplate t; onTouched := onTouched t;
     _elementRef := _elementRef t |}.

Definition set_windowRef (r : option (ComponentRef NgbTypeaheadWindow)) (t : NgbTypeahead) :=
  {| _onChangeNoEmit := _onChangeNoEmit t; _popupService := _popupService t;
     _subscription := _subscription t; _windowRef := r;
     _ignoreUpdatePosition := _ignoreUpdatePosition t;
     _scrollListener := _scrollListener t; inputFormatter := inputFormatter t;
     ngbTypeahead := ngbTypeahead t; resultFormatter := resultFormatter t;
     resultTemplate := resultTemplate t; onTouched := onTouched t;
     _elementRef := _elementRef t |}.

Definition set_ignoreUpdatePosition (b : bool) (t : NgbTypeahead) :=
  {| _onChangeNoEmit := _onChangeNoEmit t; _popupService := _popupService t;
     _subscription := _subscription t; _windowRef := _windowRef t;
     _ignoreUpdatePosition := b;
     _scrollListener := _scrollListener t; inputFormatter := inputFormatter t;
     ngbTypeahead := ngbTypeahead t; resultFormatter := resultFormatter t;
     resultTemplate := resultTemplate t; onTouched := onTouched t;
     _elementRef := _elementRef t |}.

Definition set_scrollListener (l : option ListenerId) (t : NgbTypeahead) :=
  {| _onChangeNoEmit := _onChangeNoEmit t; _popupService := _popupService t;
     _subscription := _subscription t; _windowRef := _windowRef t;
     _ignoreUpdatePosition := _ignoreUpdatePosition t;
     _scrollListener := l; inputFormatter := inputFormatter t;
     ngbTypeahead := ngbTypeahead t; resultFormatter := resultFormatter t;
     resultTemplate := resultTemplate t; onTouched := onTouched t;
     _elementRef := _elementRef t |}.

Definition set_onTouched (f : Callback) (t : NgbTypeahead) :=
  {| _onChangeNoEmit := _onChangeNoEmit t; _popupService := _popupService t;
     _subscription := _subscription t; _windowRef := _windowRef t;
     _ignoreUpdatePosition := _ignoreUpdatePosition t;
     _scrollListener := _scrollListener t; inputFormatter := inputFormatter t;
     ngbTypeahead := ngbTypeahead t; resultFormatter := resultFormatter t;
     resultTemplate := resultTemplate t; onTouched := f;
     _elementRef := _elementRef t |}.

Definition on_this (f : NgbTypeahead -> NgbTypeahead) (w : World) : World :=
  {| this := f (this w); scrollListeners := scrollListeners w; fresh := fresh w |}.

Definition set_scrollListeners (ls : list ListenerId) (w : World) : World :=
  {| this := this w; scrollListeners := ls; fresh := fresh w |}.

Definition set_fresh (n : nat) (w : World) : World :=
  {| this := this w; scrollListeners := scrollListeners w; fresh := n |}.

(** The directive as its constructor and field initialisers leave it. *)
Definition new (el : ElementId) : NgbTypeahead :=
  {| _onChangeNoEmit := Noop; _popupService := popup_new;
     _subscription := None; _windowRef := None;
     _ignoreUpdatePosition := false; _scrollListener := None;
     inputFormatter := None; ngbTypeahead := None; resultFormatter := None;
     resultTemplate := None; onTouched := Noop; _elementRef := el |}.

Definition newListener : M World ListenerId :=
  w <- get ;;
  modify (set_fresh (S (fresh w))) ;;
  ret (fresh w).

Definition the_windowRef : M World (ComponentRef NgbTypeaheadWindow) :=
  w <- get ;; deref (_windowRef (this w)) "this._windowRef".

(** Running a method of [this._windowRef.instance]. *)
Definition on_instance {A} (m : M NgbTypeaheadWindow A) : M World A :=
  r <- the_windowRef ;;
  fun w =>
    match m (instance r) with
    | Throw e => Throw e
    | Ok (a, i, t) => Ok (a, on_this (set_windowRef (Some (set_instance i r))) w, t)
    end.

Definition popupService_open (content : Value) (withContext : bool)
  : M World (ComponentRef NgbTypeaheadWindow) :=
  w <- get ;;
  let '(s, (v, el)) := popup_open content withContext (_popupService (this w)) in
  modify (on_this (set_popupService s)) ;;
  ret {| hostView := v; nativeElement := el; instance := TypeaheadWindow.new |}.

Definition popupService_close : M World unit :=
  w <- get ;;
  modify (on_this (set_popupService (popup_close (_popupService (this w))))).

(** The property [onChange], bound to [(input)]. *)
Definition onChange (value : Value) : M World unit :=
  w <- get ;;
  call (_onChangeNoEmit (this w)) (fun fn => ECallOnChange fn value) ;;
  emit (EValueChangesNext value).

Definition ngAfterViewChecked : M World unit :=
  w <- get ;;
  when (is_some (_windowRef (this w)) && negb (_ignoreUpdatePosition (this w)))
    (r <- the_windowRef ;;
     let pos := targetPosition (_elementRef (this w)) (nativeElement r) "bottom-left" true in
     emit (EPositionElements (_elementRef (this w)) (nativeElement r) "bottom-left" true) ;;
     emit (ESetStylePx (nativeElement r) "top" (fst pos)) ;;
     emit (ESetStylePx (nativeElement r) "left" (snd pos))) ;;
  modify (on_this (set_ignoreUpdatePosition false)).

Definition registerOnChange (fn : CallbackId) : M World unit :=
  modify (on_this (set_onChangeNoEmit (Registered fn))).

Definition registerOnTouched (fn : CallbackId) : M World unit :=
  modify (on_this (set_onTouched (Registered fn))).

Definition writeValue (value : Value) : M World unit :=
  w <- get ;;
  let formattedValue :=
    match inputFormatter (this w) with
    | Some f => if truthy value then f value else toString value
    | None => toString value
    end in
  emit (ESetElementProperty (_elementRef (this w)) "value" (VStr formattedValue)).

Definition isPopupOpen : M World bool :=
  w <- get ;; ret (is_some (_windowRef (this w))).

Definition closePopup : M World unit :=
  w <- get ;;
  modify (set_scrollListeners
            (removeEventListener (_scrollListener (this w)) (scrollListeners w))) ;;
  popupService_close ;;
  modify (on_this (set_windowRef None)).

Definition _selectResult (result : Value) : M World unit :=
  writeValue result ;;
  w <- get ;;
  call (_onChangeNoEmit (this w)) (fun fn => ECallOnChange fn result) ;;
  emit (EEmitSelectItem result) ;;
  closePopup.

Definition handleKeyDown (which : Z) : M World unit :=
  w <- get ;;
  if negb (is_some (_windowRef (this w))) then ret tt
  else
    when (truthy (Key_at (toString (VNum which))))
      (emit EPreventDefault ;;
       if which =? Key_value ArrowDown then on_instance next
       else if which =? Key_value ArrowUp then on_instance prev
       else if (which =? Key_value Enter) || (which =? Key_value Tab) then
         result <- on_instance getActive ;;
         _selectResult result
       else if which =? Key_value Escape then closePopup
       else ret tt).

(** The body of the arrow function stored in [_scrollListener]. *)
Definition scrollListener (target : EventTarget) : M World unit :=
  when (is_document target)
    (modify (on_this (set_ignoreUpdatePosition true))).

Definition _openPopup : M World unit :=
  w <- get ;;
  when (negb (is_some (_windowRef (this w))))
    (r <- popupService_open VNull true ;;
     modify (on_this (set_windowRef (Some r))) ;;
     r <- the_windowRef ;;
     emit (ESubscribeSelectEvent (hostView r)) ;;
     l <- newListener ;;
     modify (on_this (set_scrollListener (Some l))) ;;
     w' <- get ;;
     modify (set_scrollListeners (addEventListener l (scrollListeners w')))).

Definition set_results (rs : list Value) (i : NgbTypeaheadWindow) :=
  {| activeIdx := activeIdx i; focusFirst := focusFirst i; results := Some rs;
     term := term i; formatter := formatter i;
     TypeaheadWindow.resultTemplate := TypeaheadWindow.resultTemplate i |}.

Definition set_term (s : string) (i : NgbTypeaheadWindow) :=
  {| activeIdx := activeIdx i; focusFirst := focusFirst i; results := results i;
     term := Some s; formatter := formatter i;
     TypeaheadWindow.resultTemplate := TypeaheadWindow.resultTemplate i |}.

Definition set_formatter (f : Value -> string) (i : NgbTypeaheadWindow) :=
  {| activeIdx := activeIdx i; focusFirst := focusFirst i; results := results i;
     term := term i; formatter := f;
     TypeaheadWindow.resultTemplate := TypeaheadWindow.resultTemplate i |}.

Definition set_resultTemplate (t : option TemplateId) (i : NgbTypeaheadWindow) :=
  {| activeIdx := activeIdx i; focusFirst := focusFirst i; results := results i;
     term := term i; formatter := formatter i;
     TypeaheadWindow.resultTemplate := t |}.

(** The subscriber installed by [ngOnInit]: a new array of results (or
    nothing) has arrived; [inputValue] is [nativeElement.value]. *)
Definition onResults (results : option (list Value)) (inputValue : string)
  : M World unit :=
  match results with
  | None | Some [] => closePopup
  | Some rs =>
      _openPopup ;;
      on_instance (modify (set_results rs)) ;;
      on_instance (modify (set_term inputValue)) ;;
      w <- get ;;
      match resultFormatter (this w) with
      | Some f => on_instance (modify (set_formatter f))
      | None => ret tt
      end ;;
      match resultTemplate (this w) with
      | Some t => on_instance (modify (set_resultTemplate (Some t)))
      | None => ret tt
      end
  end.

Definition ngOnInit : M World unit :=
  modify (on_this (set_subscription (Some Active))).

Definition ngOnDestroy : M World unit :=
  closePopup ;;
  w <- get ;;
  _ <- deref (_subscription (this w)) "this._subscription" ;;
  modify (on_this (set_subscription (Some Unsubscribed))).

(** *** Events reaching the directive *)

Definition scroll (target : EventTarget) : M World unit :=
  w <- get ;;
  forEach (scrollListeners w) (fun _ => scrollListener target).

(** The host bindings [(blur)], [(input)] and [(keydown)]. *)
Definition host (ev : HostEvent) : M World unit :=
  match ev with
  | HBlur => w <- get ;; call (onTouched (this w)) ECallOnTouched
  | HInput value => onChange (VStr value)
  | HKeyDown which => handleKeyDown which
  | _ => ret tt
  end.

(** The host binding [(document:click)]. *)
Definition documentClick : M World unit := closePopup.

Definition pressEscape : M World unit :=
  host (HKeyDown 27) ;; host (HKeyUp 27).

(** *** Everything that can happen to the directive *)

(** Angular assigning the bound inputs: the input fields become those of
    [from]. *)
Definition with_inputs (from t : NgbTypeahead) : NgbTypeahead :=
  {| _onChangeNoEmit := _onChangeNoEmit t; _popupService := _popupService t;
     _subscription := _subscription t; _windowRef := _windowRef t;
     _ignoreUpdatePosition := _ignoreUpdatePosition t;
     _scrollListener := _scrollListener t; inputFormatter := inputFormatter from;
     ngbTypeahead := ngbTypeahead from; resultFormatter := resultFormatter from;
     resultTemplate := resultTemplate from; onTouched := onTouched t;
     _elementRef := _elementRef t |}.

(** [WindowInit], [WindowMarkActive] and [WindowSelect] are what happens in
    the open window: Angular initialising it, the mouse entering a row, a
    row being clicked (which [_openPopup] has subscribed to). *)
Inductive Action : Type :=
| Inputs (from : NgbTypeahead)
| Init
| AfterViewChecked
| RegisterOnChange (fn : CallbackId)
| RegisterOnTouched (fn : CallbackId)
| WriteValue (value : Value)
| Host (ev : HostEvent)
| DocumentClick
| Scroll (target : EventTarget)
| Results (results : option (list Value)) (inputValue : string)
| WindowInit
| WindowMarkActive (activeIdx : Z)
| WindowSelect (item : Value)
| Destroy.

Definition perform (a : Action) : M World unit :=
  match a with
  | Inputs from => modify (on_this (with_inputs from))
  | Init => ngOnInit
  | AfterViewChecked => ngAfterViewChecked
  | RegisterOnChange fn => registerOnChange fn
  | RegisterOnTouched fn => registerOnTouched fn
  | WriteValue value => writeValue value
  | Host ev => host ev
  | DocumentClick => documentClick
  | Scroll target => scroll target
  | Results results inputValue => onResults results inputValue
  | WindowInit => on_instance TypeaheadWindow.ngOnInit
  | WindowMarkActive activeIdx => on_instance (markActive activeIdx)
  | WindowSelect item => on_instance (select item) ;; _selectResult item
  | Destroy => ngOnDestroy
  end.

Inductive reachable : World -> Prop :=
| reachable_new (el : ElementId) (n : nat) :
    reachable {| this := new el; scrollListeners := []; fresh := n |}
| reachable_step (w w' : World) (a : Action) (t : list Effect) :
    reachable w -> perform a w = Ok (tt, w', t) -> reachable w'.

(** With a panel, the closure in [_scrollListener] is the one listener;
    without, there is none and the popup service has nothing to close. *)
Definition consistent (w : World) : Prop :=
  match _windowRef (this w) with
  | Some _ => exists l, _scrollListener (this w) = Some l /\ scrollListeners w = [l]
  | None =>
      scrollListeners w = [] /\
      popup_close (_popupService (this w)) = _popupService (this w)
  end.

(** *** Closed forms of the key handling *)

(** An arrow key for a navigation step: ArrowDown for [next()], ArrowUp for
    [prev()]. *)
Definition arrow (n : Nav) : M World unit :=
  match n with
  | Next => handleKeyDown (Key_value ArrowDown)
  | Prev => handleKeyDown (Key_value ArrowUp)
  end.

(** The window with the index moved by a navigation step. *)
Definition moved (n : Nav) (i : NgbTypeaheadWindow) : NgbTypeaheadWindow :=
  match results i with
  | Some rs =>
      set_activeIdx
        (match n with
         | Next => next_index (Z.of_nat (List.length rs)) (focusFirst i) (activeIdx i)
         | Prev => prev_index (Z.of_nat (List.length rs)) (focusFirst i) (activeIdx i)
         end) i
  | None => i
  end.

(** [value && this.inputFormatter ? this.inputFormatter(value) : toString(value)] *)
Definition formatted (t : NgbTypeahead) (value : Value) : string :=
  match inputFormatter t with
  | Some f => if truthy value then f value else toString value
  | None => toString value
  end.

(** [this.results[this.activeIdx]] of a window. *)
Definition active (i : NgbTypeaheadWindow) : Value :=
  match results i with
  | Some rs =>
      if activeIdx i <? 0 then VUndefined
      else nth (Z.to_nat (activeIdx i)) rs VUndefined
  | None => VUndefined
  end.

(** The window once the subscriber of [ngOnInit] has handed it new results. *)
Definition offered (t : NgbTypeahead) (rs : list Value) (inputValue : string)
    (i : NgbTypeaheadWindow) : NgbTypeaheadWindow :=
  let i1 := set_term inputValue (set_results rs i) in
  let i2 := match resultFormatter t with
            | Some f => set_formatter f i1
            | None => i1
            end in
  match resultTemplate t with
  | Some x => set_resultTemplate (Some x) i2
  | None => i2
  end.

(** What [_selectResult] does besides closing the popup. *)
Definition selectEffects (t : NgbTypeahead) (result : Value) : list Effect :=
  ESetElementProperty (_elementRef t) "value" (VStr (formatted t result)) ::
  match _onChangeNoEmit t with
  | Registered fn => [ECallOnChange fn result]
  | Noop => []
  end ++ [EEmitSelectItem result].

(** What the arrow keys keep: an open popup on the results [rs], with a
    row active, on the widget that [w] is. *)
Definition browsing (w : World) (rs : list Value) (w' : World) : Prop :=
  exists r,
    _windowRef (this w') = Some r /\
    results (instance r) = Some rs /\
    focusFirst (instance r) = true /\
    index_ok (Z.of_nat (List.length rs)) (instance r) /\
    _elementRef (this w') = _elementRef (this w) /\
    inputFormatter (this w') = inputFormatter (this w) /\
    _onChangeNoEmit (this w') = _onChangeNoEmit (this w).

(** *** Closed forms used in the properties *)

Definition flagged (w : World) : World :=
  on_this (set_ignoreUpdatePosition true) w.

Definition closed (w : World) : World :=
  {| this := set_windowRef None
               (set_popupService (popup_close (_popupService (this w))) (this w));
     scrollListeners := removeEventListener (_scrollListener (this w)) (scrollListeners w);
     fresh := fresh w |}.

Definition opened (w : World) : World :=
  let r := popup_open VNull true (_popupService (this w)) in
  let n := fresh w in
  {| this := set_scrollListener (Some n)
               (set_windowRef
                  (Some {| hostView := fst (snd r); nativeElement := snd (snd r);
                           instance := TypeaheadWindow.new |})
                  (set_popupService (fst r) (this w)));
     scrollListeners := addEventListener n (scrollListeners w);
     fresh := S n |}.

(** *** Listeners *)

(** With a panel, the closure in [_scrollListener] is the one listener on
    the document; without, there is none. *)
Definition oneListener (w : World) : Prop :=
  match _windowRef (this w) with
  | Some _ => exists l, _scrollListener (this w) = Some l /\ scrollListeners w = [l]
  | None => scrollListeners w = []
  end.

End WithServices.
End Typeahead.

(** ** The three directives as one kind of widget

    The same open/close pattern is written out three times in the sources;
    [Widget] is the sum of the three worlds and gives the shared operations
    one name each. *)

Module Widget.
Section WithServices.
Context `{DateServices} `{Util} `{PositioningService} `{PopupService} `{Triggers}.

Inductive Widget : Type :=
| DatepickerInput (w : Datepicker.World)
| PopoverDirective (w : Popover.World)
| TypeaheadDirective (w : Typeahead.World).

Definition lift {S A} (inj : S -> Widget) (m : M S A) (s : S)
  : Outcome (A * Widget * list Effect) :=
  match m s with
  | Ok (a, s', t) => Ok (a, inj s', t)
  | Throw e => Throw e
  end.

Definition dispatch {A} (d : M Datepicker.World A) (p : M Popover.World A)
    (t : M Typeahead.World A) : M Widget A :=
  fun w =>
    match w with
    | DatepickerInput x => lift DatepickerInput d x
    | PopoverDirective x => lift PopoverDirective p x
    | TypeaheadDirective x => lift TypeaheadDirective t x
    end.

(** *** Operations *)

Definition open : M Widget unit :=
  dispatch Datepicker.open Popover.open Typeahead._openPopup.

Definition close : M Widget unit :=
  dispatch Datepicker.close Popover.close Typeahead.closePopup.

(** The layout-stable tick: the zone's [onStable] event, which runs the
    subscriber of the datepicker input as long as it is subscribed;
    [ngAfterViewChecked] of the other two. *)
Definition tick : M Widget unit :=
  dispatch Datepicker.zoneStable Popover.ngAfterViewChecked
           Typeahead.ngAfterViewChecked.

Definition scroll (target : EventTarget) : M Widget unit :=
  dispatch (Datepicker.scroll target) (Popover.scroll target)
           (Typeahead.scroll target).

Definition pressEscape : M Widget unit :=
  dispatch Datepicker.pressEscape Popover.pressEscape Typeahead.pressEscape.

(** [n] ticks in a row. *)
Definition ticks (n : nat) : M Widget unit :=
  forEach (repeat tt n) (fun _ => tick).

(** *** Observations *)

(** The panel reference, as the host view and element of the panel. *)
Definition panel (w : Widget) : option (ViewId * ElementId) :=
  match w with
  | DatepickerInput x =>
      option_map (fun c => (hostView c, nativeElement c))
                 (Datepicker._cRef (Datepicker.this x))
  | PopoverDirective x =>
      option_map (fun c => (hostView c, nativeElement c))
                 (Popover._windowRef (Popover.this x))
  | TypeaheadDirective x =>
      option_map (fun c => (hostView c, nativeElement c))
                 (Typeahead._windowRef (Typeahead.this x))
  end.

Definition isOpen (w : Widget) : bool := is_some (panel w).

(** [_ignoreUpdatePosition] *)
Definition ignoring (w : Widget) : bool :=
  match w with
  | DatepickerInput x => Datepicker._ignoreUpdatePosition (Datepicker.this x)
  | PopoverDirective x => Popover._ignoreUpdatePosition (Popover.this x)
  | TypeaheadDirective x => Typeahead._ignoreUpdatePosition (Typeahead.this x)
  end.

(** The tick reaches the widget: the datepicker input is still subscribed
    to [ngZone.onStable] ([ngOnDestroy] unsubscribes); the other two have
    the tick as a method of their own. *)
Definition subscribed (w : Widget) : bool :=
  match w with
  | DatepickerInput x =>
      match Datepicker._zoneSubscription (Datepicker.this x) with
      | Active => true
      | Unsubscribed => false
      end
  | PopoverDirective _ => true
  | TypeaheadDirective _ => true
  end.

(** The popover and the typeahead get their panel from a [PopupService];
    the datepicker input creates its own, and calls into it before it
    registers the scroll listener. *)
Definition usesPopupService (w : Widget) : bool :=
  match w with
  | DatepickerInput _ => false
  | PopoverDirective _ => true
  | TypeaheadDirective _ => true
  end.

(** The element the panel is positioned against. *)
Definition anchor (w : Widget) : ElementId :=
  match w with
  | DatepickerInput x => Datepicker._elRef (Datepicker.this x)
  | PopoverDirective x => Popover._elementRef (Popover.this x)
  | TypeaheadDirective x => Typeahead._elementRef (Typeahead.this x)
  end.

(** The placement handed to [positionElements]. *)
Definition placementOf (w : Widget) : string :=
  match w with
  | DatepickerInput _ => "bottom-left"
  | PopoverDirective x => Popover.placement_name (Popover.placement (Popover.this x))
  | TypeaheadDirective _ => "bottom-left"
  end.

(** [_scrollListener] *)
Definition scrollListenerOf (w : Widget) : option ListenerId :=
  match w with
  | DatepickerInput x => Datepicker._scrollListener (Datepicker.this x)
  | PopoverDirective x => Popover._scrollListener (Popover.this x)
  | TypeaheadDirective x => Typeahead._scrollListener (Typeahead.this x)
  end.

Definition documentListeners (w : Widget) : list ListenerId :=
  match w with
  | DatepickerInput x => Datepicker.scrollListeners x
  | PopoverDirective x => Popover.scrollListeners x
  | TypeaheadDirective x => Typeahead.scrollListeners x
  end.

(** The closure in [_scrollListener] is registered on the document. *)
Definition listening (w : Widget) : bool :=
  match scrollListenerOf w with
  | Some l => existsb (Nat.eqb l) (documentListeners w)
  | None => false
  end.

(** The widget has not been opened yet: no panel, [_scrollListener] still
    undefined, and a popup service as the constructor made it. *)
Definition neverOpened (w : Widget) : Prop :=
  isOpen w = false /\ scrollListenerOf w = None /\
  match w with
  | DatepickerInput _ => True
  | PopoverDirective x => Popover._popupService (Popover.this x) = popup_new
  | TypeaheadDirective x => Typeahead._popupService (Typeahead.this x) = popup_new
  end.

(** The model, the registered callbacks and the configuration inputs of
    [b] are those of [a]. *)
Definition sameSettings (a b : Widget) : Prop :=
  match a, b with
  | DatepickerInput x, DatepickerInput y =>
      Datepicker._model (Datepicker.this y) = Datepicker._model (Datepicker.this x) /\
      Datepicker._onChange (Datepicker.this y) = Datepicker._onChange (Datepicker.this x) /\
      Datepicker._onTouched (Datepicker.this y) = Datepicker._onTouched (Datepicker.this x) /\
      Datepicker.options (Datepicker.this y) = Datepicker.options (Datepicker.this x) /\
      Datepicker.startDate (Datepicker.this y) = Datepicker.startDate (Datepicker.this x)
  | PopoverDirective x, PopoverDirective y =>
      Popover.ngbPopover (Popover.this y) = Popover.ngbPopover (Popover.this x) /\
      Popover.title (Popover.this y) = Popover.title (Popover.this x) /\
      Popover.placement (Popover.this y) = Popover.placement (Popover.this x) /\
      Popover.triggers (Popover.this y) = Popover.triggers (Popover.this x)
  | TypeaheadDirective x, TypeaheadDirective y =>
      Typeahead._onChangeNoEmit (Typeahead.this y) = Typeahead._onChangeNoEmit (Typeahead.this x) /\
      Typeahead.onTouched (Typeahead.this y) = Typeahead.onTouched (Typeahead.this x) /\
      Typeahead.inputFormatter (Typeahead.this y) = Typeahead.inputFormatter (Typeahead.this x) /\
      Typeahead.ngbTypeahead (Typeahead.this y) = Typeahead.ngbTypeahead (Typeahead.this x) /\
      Typeahead.resultFormatter (Typeahead.this y) = Typeahead.resultFormatter (Typeahead.this x) /\
      Typeahead.resultTemplate (Typeahead.this y) = Typeahead.resultTemplate (Typeahead.this x)
  | _, _ => False
  end.

Definition is_nil {A} (l : list A) : bool :=
  match l with [] => true | _ => false end.

(** A popover none of whose trigger listeners runs anything when the
    Escape key goes down or up. *)
Definition escapeUnbound (w : Widget) : bool :=
  match w with
  | PopoverDirective x =>
      match Popover.hostListeners x with
      | Some t => is_nil (listenToTriggers t (HKeyDown 27)) &&
                  is_nil (listenToTriggers t (HKeyUp 27))
      | None => true
      end
  | _ => false
  end.

(** The widget with [_ignoreUpdatePosition] set. *)
Definition flagged (w : Widget) : Widget :=
  match w with
  | DatepickerInput x => DatepickerInput (Datepicker.flagged x)
  | PopoverDirective x => PopoverDirective (Popover.flagged x)
  | TypeaheadDirective x => TypeaheadDirective (Typeahead.flagged x)
  end.

(** The widgets the code can get to. *)
Definition reachable (w : Widget) : Prop :=
  match w with
  | DatepickerInput x => Datepicker.reachable x
  | PopoverDirective x => Popover.reachable x
  | TypeaheadDirective x => Typeahead.reachable x
  end.

(** The calls to [positionElements] among some effects. *)
Definition positionings (t : list Effect) : list Effect :=
  filter (fun e => match e with EPositionElements _ _ _ _ => true | _ => false end) t.

End WithServices.
End Widget.

(** ** Stand-ins for the imported code

    Implementations of the parameters, for evaluating the model on concrete
    inputs. *)

Module Sample.

(** String conversion of a value in a template literal; the empty string
    for [undefined] and [null]. *)
Definition util : Util :=
  {| toString := fun v =>
       match v with
       | VUndefined | VNull => EmptyString
       | VBool true => "true"
       | VBool false => "false"
       | VNum n => NilZero.string_of_int (Z.to_int n)
       | VStr s => s
       | VObj _ => "[object Object]"
       end |}.

Definition positioning : PositioningService :=
  {| targetPosition := fun _ _ _ _ => (0, 0) |}.

Definition valid (d : NgbDateStruct) : bool :=
  (1 <=? month d) && (month d <=? 12) && (1 <=? day d) && (day d <=? 31).

(** A formatter that knows one date. *)
Definition dates : DateServices :=
  {| parse := fun s =>
       if String.eqb s "2016-08-01"
       then Some {| year := 2016; month := 8; day := 1 |} else None;
     format := fun d => match d with Some _ => "2016-08-01" | None => EmptyString end;
     toValidDate := fun d defaultValue =>
       match d with
       | Some x => if valid x then Some x else defaultValue
       | None => defaultValue
       end |}.

(** Modelled from the spec: [PopupService] of [util/popup], which the
    popover and the typeahead import and which is not among the files
    verified here.  The spec has a widget own "zero-or-one floating child
    component": the service holds at most one window, [open] creates it and
    [close] removes it. *)
Definition popup : PopupService :=
  {| PopupState := option ViewId * nat;
     popup_new := (None, 0%nat);
     popup_open := fun _ _ s => ((Some (snd s), S (snd s)), (snd s, snd s));
     popup_close := fun s => (None, snd s) |}.

(** Modelled from the spec: [listenToTriggers] of [util/triggers], which
    the popover imports and which is not among the files verified here.
    The spec counts the "trigger event names" among the configuration
    inputs, and the [triggers] input is documented as the events that
    should trigger: with [triggers = 'click'] a click on the host toggles
    the popover and no other event is listened to. *)
Definition triggers : Triggers :=
  {| listenToTriggers := fun t ev =>
       if String.eqb t "click"
       then match ev with HClick => [ToggleFn] | _ => [] end
       else [] |}.

(** A datepicker input on element 1, as constructed and once opened. *)
Definition newDatepicker : Datepicker.World :=
  {| Datepicker.this := Datepicker.new 1%nat;
     Datepicker.scrollListeners := [];
     Datepicker.views := [];
     Datepicker.fresh := 0%nat |}.

Definition openDatepicker : Datepicker.World := Datepicker.opened newDatepicker.

(** A popover on element 1 configured with [triggers = 'click'], after
    [ngOnInit], and once opened. *)
Definition newPopover : @Popover.World popup :=
  {| Popover.this :=
       Popover.set_unregisterListenersFn (Some "click")
         (@Popover.new popup 1%nat Popover.top "click");
     Popover.scrollListeners := [];
     Popover.hostListeners := Some "click";
     Popover.fresh := 0%nat |}.

Definition openPopover : @Popover.World popup := @Popover.opened popup newPopover.

(** A typeahead on element 1, as constructed and with its popup open. *)
Definition newTypeahead : @Typeahead.World popup :=
  {| Typeahead.this := @Typeahead.new popup 1%nat;
     Typeahead.scrollListeners := [];
     Typeahead.fresh := 0%nat |}.

Definition openTypeahead : @Typeahead.World popup :=
  @Typeahead.opened util popup newTypeahead.

End Sample.

(** ** More concrete inputs *)

Module Sample2.

(** The value of a computation that completes, [w] otherwise. *)
Definition after {S} (m : M S unit) (w : S) : S :=
  match m w with
  | Ok (_, w', _) => w'
  | Throw _ => w
  end.

Definition fruits : list Value := [VStr "apple"; VStr "banana"; VStr "cherry"].

(** The sample typeahead once three results have arrived for the text "a". *)
Definition offeredTypeahead : @Typeahead.World Sample.popup :=
  after (@Typeahead.onResults Sample.util Sample.popup (Some fruits) "a")
        Sample.newTypeahead.

Definition offeredRef : ComponentRef TypeaheadWindow.NgbTypeaheadWindow :=
  match Typeahead._windowRef (Typeahead.this offeredTypeahead) with
  | Some r => r
  | None => {| hostView := 0%nat; nativeElement := 0%nat;
               instance := @TypeaheadWindow.new Sample.util |}
  end.

(** The sample datepicker input destroyed, and then opened and scrolled
    all the same. *)
Definition destroyedDatepicker : Datepicker.World :=
  after (@Datepicker.ngOnDestroy) Sample.openDatepicker.

Definition revivedDatepicker : Datepicker.World :=
  after (@Datepicker.performs Sample.dates
           [Datepicker.Open; Datepicker.Scroll TargetDocument])
        destroyedDatepicker.

(** The sample popover freshly constructed, and destroyed after use. *)
Definition constructedPopover : @Popover.World Sample.popup :=
  {| Popover.this := @Popover.new Sample.popup 1%nat Popover.top "click";
     Popover.scrollListeners := [];
     Popover.hostListeners := None;
     Popover.fresh := 0%nat |}.

Definition destroyedPopover : @Popover.World Sample.popup :=
  after (@Popover.ngOnDestroy Sample.popup) Sample.openPopover.

(** A page: the body (node 0) holds a wrapper (node 1, as high as the
    viewport), which holds the window's element (node 2, from 100 to 300);
    above the body are the html element (node 3) and the document (node 4). *)
Definition page : WindowView.Page :=
  {| WindowView.body := 0%nat;
     WindowView.clientHeight := QArith_base.inject_Z 600;
     WindowView.boundingClientRect := fun n =>
       match n with
       | 0%nat | 1%nat | 3%nat =>
           Some {| WindowView.top := QArith_base.inject_Z 0;
                   WindowView.bottom := QArith_base.inject_Z 600 |}
       | 2%nat =>
           Some {| WindowView.top := QArith_base.inject_Z 100;
                   WindowView.bottom := QArith_base.inject_Z 300 |}
       | _ => None
       end;
     WindowView.offsetHeight := fun n =>
       match n with 2%nat => 200 | _ => 600 end |}.

(** A row of 30 pixels at offset [y] in the window's element. *)
Definition row (y : Z) : WindowView.Button :=
  {| WindowView.rect :=
       {| WindowView.top := QArith_base.inject_Z (100 + y);
          WindowView.bottom := QArith_base.inject_Z (130 + y) |};
     WindowView.offsetTop := y;
     WindowView.button_offsetHeight := 30;
     WindowView.ancestors := [2%nat; 1%nat; 0%nat; 3%nat; 4%nat] |}.

End Sample2.

(** * Properties *)

(** ** Reasoning about method bodies *)

Lemma bind_ok {S A B} (m : M S A) (k : A -> M S B) s a s1 t1 :
  m s = Ok (a, s1, t1) ->
  bind m k s =
    match k a s1 with
    | Throw e => Throw e
    | Ok (b, s2, t2) => Ok (b, s2, t1 ++ t2)
    end.
Proof. intros E. unfold bind. rewrite E. reflexivity. Qed.

Lemma bind_ok_ok {S A B} (m : M S A) (k : A -> M S B) s a s1 t1 b s2 t2 :
  m s = Ok (a, s1, t1) ->
  k a s1 = Ok (b, s2, t2) ->
  bind m k s = Ok (b, s2, t1 ++ t2).
Proof. intros E1 E2. rewrite (bind_ok _ _ _ _ _ _ E1), E2. reflexivity. Qed.

(** *** Rules for [preserves] *)

Section Preservation.
Context {S : Type} (I : S -> Prop).

Lemma preserves_ret {A} (a : A) : preserves I (ret a).
Proof. intros s a' s' t Hs E. injection E as _ <- _. exact Hs. Qed.

Lemma preserves_get : preserves I get.
Proof. intros s a' s' t Hs E. injection E as _ <- _. exact Hs. Qed.

Lemma preserves_emit (e : Effect) : preserves I (emit e).
Proof. intros s a' s' t Hs E. injection E as _ <- _. exact Hs. Qed.

Lemma preserves_throw {A} (e : JsError) : preserves I (@throw S A e).
Proof. intros s a' s' t Hs E. discriminate E. Qed.

Lemma preserves_modify (f : S -> S) :
  (forall s, I s -> I (f s)) -> preserves I (modify f).
Proof. intros Hf s a' s' t Hs E. injection E as _ <- _. auto. Qed.

Lemma preserves_bind {A B} (m : M S A) (k : A -> M S B) :
  preserves I m -> (forall a, preserves I (k a)) -> preserves I (bind m k).
Proof.
  intros Hm Hk s b s' t Hs E. unfold bind in E.
  destruct (m s) as [[[a s1] t1]|] eqn:E1; [|discriminate E].
  destruct (k a s1) as [[[b' s2] t2]|] eqn:E2; [|discriminate E].
  injection E as _ <- _.
  exact (Hk a s1 b' s2 t2 (Hm s a s1 t1 Hs E1) E2).
Qed.

Lemma preserves_when (c : bool) (m : M S unit) :
  preserves I m -> preserves I (when c m).
Proof. intros Hm. destruct c; [exact Hm | apply preserves_ret]. Qed.

Lemma preserves_forEach {A} (xs : list A) (f : A -> M S unit) :
  (forall x, preserves I (f x)) -> preserves I (forEach xs f).
Proof.
  intros Hf. induction xs as [|x xs IH]; simpl.
  - apply preserves_ret.
  - apply preserves_bind; [apply Hf | intros _; exact IH].
Qed.

Lemma preserves_call (cb : Callback) (e : CallbackId -> Effect) :
  preserves I (call cb e).
Proof. destruct cb; [apply preserves_ret | apply preserves_emit]. Qed.

Lemma preserves_deref {A} (r : option A) (what : string) :
  preserves I (deref r what).
Proof. destruct r; [apply preserves_ret | apply preserves_throw]. Qed.

End Preservation.

(** Takes a method body apart along the rules; what is left are the
    assignments, each to be shown to keep the invariant. *)
Ltac preserve_by known :=
  repeat first
    [ assumption
    | known
    | apply preserves_ret
    | apply preserves_get
    | apply preserves_emit
    | apply preserves_throw
    | apply preserves_call
    | apply preserves_deref
    | apply preserves_when
    | apply preserves_bind; [| intros ?]
    | apply preserves_forEach; intros ?
    | match goal with
      | |- preserves _ (match ?x with _ => _ end) => destruct x
      end ].

Ltac preserve := preserve_by fail.

(** ** NgbTypeaheadWindow: the active index *)

Section WindowNavigation.
Import TypeaheadWindow.

Lemma next_eq (w : NgbTypeaheadWindow) (rs : list Value) :
  results w = Some rs ->
  next w =
    let length := Z.of_nat (List.length rs) in
    let i := if activeIdx w =? length - 1
             then (if focusFirst w then Z.rem (activeIdx w + 1) length else -1)
             else activeIdx w + 1 in
    Ok (tt, set_activeIdx i w, [EUpdateView (i <? activeIdx w)]).
Proof.
  intros R. unfold next, results_length, bind, get, modify, updateView, emit.
  rewrite R. simpl.
  destruct (activeIdx w =? Z.of_nat (List.length rs) - 1); reflexivity.
Qed.

Lemma prev_eq (w : NgbTypeaheadWindow) (rs : list Value) :
  results w = Some rs ->
  prev w =
    let length := Z.of_nat (List.length rs) in
    let i := if activeIdx w <? 0 then length - 1
             else if activeIdx w =? 0
                  then (if focusFirst w then length - 1 else -1)
                  else activeIdx w - 1 in
    Ok (tt, set_activeIdx i w, [EUpdateView (i <? activeIdx w)]).
Proof.
  intros R. unfold prev, results_length, bind, get, modify, updateView, emit.
  destruct (activeIdx w <? 0); [rewrite R; reflexivity|].
  destruct (activeIdx w =? 0); [|reflexivity].
  destruct (focusFirst w); [rewrite R|]; reflexivity.
Qed.

Lemma length_pos (rs : list Value) : rs <> [] -> 0 < Z.of_nat (List.length rs).
Proof. destruct rs; [congruence|]. intros _. simpl List.length. lia. Qed.

Lemma nav_index_ok (n : Nav) (w : NgbTypeaheadWindow) (rs : list Value) :
  results w = Some rs -> rs <> [] ->
  index_ok (Z.of_nat (List.length rs)) w ->
  exists w' t, nav n w = Ok (tt, w', t) /\
    results w' = Some rs /\ focusFirst w' = focusFirst w /\
    index_ok (Z.of_nat (List.length rs)) w'.
Proof.
  intros R Hne Hok. pose proof (length_pos rs Hne) as Hpos.
  unfold index_ok in *.
  destruct n; simpl nav; [rewrite (next_eq w rs R) | rewrite (prev_eq w rs R)];
    cbv zeta; eexists; eexists; (split; [reflexivity|]);
    (split; [exact R|]); (split; [reflexivity|]); simpl.
  - destruct (Z.eqb_spec (activeIdx w) (Z.of_nat (List.length rs) - 1)) as [E|E].
    + destruct (focusFirst w); [|lia].
      replace (activeIdx w + 1) with (Z.of_nat (List.length rs)) by lia.
      rewrite Z.rem_same by lia. lia.
    + destruct (focusFirst w); lia.
  - destruct (Z.ltb_spec (activeIdx w) 0) as [L|L].
    + destruct (focusFirst w); lia.
    + destruct (Z.eqb_spec (activeIdx w) 0) as [E|E];
        destruct (focusFirst w); lia.
Qed.

Lemma navs_index_ok (ns : list Nav) (rs : list Value) :
  rs <> [] ->
  forall w, results w = Some rs -> index_ok (Z.of_nat (List.length rs)) w ->
  exists w' t, navs ns w = Ok (tt, w', t) /\
    results w' = Some rs /\ focusFirst w' = focusFirst w /\
    index_ok (Z.of_nat (List.length rs)) w'.
Proof.
  intros Hne. induction ns as [|n ns IH]; intros w R Hok.
  - exists w, []. split; [reflexivity|]. split; [exact R|].
    split; [reflexivity | exact Hok].
  - destruct (nav_index_ok n w rs R Hne Hok) as (w1 & t1 & E1 & R1 & F1 & K1).
    destruct (IH w1 R1 K1) as (w2 & t2 & E2 & R2 & F2 & K2).
    exists w2, (t1 ++ t2). split.
    + unfold navs. simpl forEach. apply bind_ok_ok with (1 := E1) (2 := E2).
    + split; [exact R2|]. split; [congruence | exact K2].
Qed.

(** C9. For a window with a non-empty result list, [ngOnInit] followed by
    any sequence of [next()] and [prev()] calls runs to completion and
    leaves [activeIdx] equal to -1 or within [0, results.length - 1]; when
    [focusFirst] is true it is never -1, [next()] from the last index
    gives 0 and [prev()] from index 0 gives the last index. *)
Theorem window_activeIdx_in_range :
  forall (w : NgbTypeaheadWindow) (rs : list Value) (ns : list Nav),
    results w = Some rs -> rs <> [] ->
    let length := Z.of_nat (List.length rs) in
    exists w' t,
      (ngOnInit ;; navs ns) w = Ok (tt, w', t) /\
      (activeIdx w' = -1 \/ 0 <= activeIdx w' <= length - 1) /\
      (focusFirst w = true ->
         activeIdx w' <> -1 /\
         (activeIdx w' = length - 1 ->
            option_map activeIdx (state_of (next w')) = Some 0) /\
         (activeIdx w' = 0 ->
            option_map activeIdx (state_of (prev w')) = Some (length - 1))).
Proof.
  intros w rs ns R Hne length. pose proof (length_pos rs Hne) as Hpos.
  fold length in Hpos.
  set (w0 := set_activeIdx (if focusFirst w then 0 else -1) w).
  assert (E0 : ngOnInit w = Ok (tt, w0, [])) by reflexivity.
  destruct (navs_index_ok ns rs Hne w0) as (w' & t & E & R' & F & K).
  { exact R. }
  { unfold index_ok. simpl. destruct (focusFirst w); lia. }
  exists w', ([] ++ t). split.
  { apply bind_ok_ok with (1 := E0) (2 := E). }
  simpl in F. unfold index_ok in K. fold length in K. rewrite F in K. split.
  { destruct (focusFirst w); lia. }
  intros FF. rewrite FF in K. split; [lia|]. split; intros Hi.
  - rewrite (next_eq w' rs R'). cbv zeta. simpl. fold length.
    rewrite F, FF, Hi, Z.eqb_refl.
    replace (length - 1 + 1) with length by lia.
    rewrite Z.rem_same by lia. reflexivity.
  - rewrite (prev_eq w' rs R'). cbv zeta. simpl. fold length.
    rewrite F, FF, Hi. reflexivity.
Qed.

Lemma window_activeIdx_in_range_witness :
  exists w' t,
    (ngOnInit ;; navs [Next; Next; Prev; Prev; Prev])
      (Typeahead.set_results [VStr "a"; VStr "b"] (@TypeaheadWindow.new Sample.util))
      = Ok (tt, w', t) /\ activeIdx w' = 1.
Proof.
  destruct (window_activeIdx_in_range
              (Typeahead.set_results [VStr "a"; VStr "b"] (@TypeaheadWindow.new Sample.util))
              [VStr "a"; VStr "b"] [Next; Next; Prev; Prev; Prev])
    as (w' & t & E & _).
  - reflexivity.
  - discriminate.
  - exists w', t. split; [exact E|].
    vm_compute in E. injection E as <- _. reflexivity.
Defined.

End WindowNavigation.

(** ** NgbTypeaheadWindow: how [next] and [prev] move the index *)

Section WindowMoves.
Import TypeaheadWindow.

Lemma set_activeIdx_same (w : NgbTypeaheadWindow) :
  set_activeIdx (activeIdx w) w = w.
Proof. destruct w; reflexivity. Qed.

Lemma next_step (w : NgbTypeaheadWindow) (rs : list Value) :
  results w = Some rs ->
  let i := next_index (Z.of_nat (List.length rs)) (focusFirst w) (activeIdx w) in
  next w = Ok (tt, set_activeIdx i w, [EUpdateView (i <? activeIdx w)]).
Proof. intros R. rewrite (next_eq w rs R). reflexivity. Qed.

Lemma prev_step (w : NgbTypeaheadWindow) (rs : list Value) :
  results w = Some rs ->
  let i := prev_index (Z.of_nat (List.length rs)) (focusFirst w) (activeIdx w) in
  prev w = Ok (tt, set_activeIdx i w, [EUpdateView (i <? activeIdx w)]).
Proof. intros R. rewrite (prev_eq w rs R). reflexivity. Qed.

Lemma prev_next_index (n : Z) (first : bool) (i : Z) :
  0 < n -> (if first then 0 else -1) <= i <= n - 1 ->
  prev_index n first (next_index n first i) = i.
Proof.
  intros Hn Hi. unfold next_index, prev_index.
  destruct (Z.eqb_spec i (n - 1)) as [E|E].
  - destruct first.
    + replace (i + 1) with n by lia. rewrite Z.rem_same by lia. simpl. lia.
    + simpl. lia.
  - destruct (Z.ltb_spec (i + 1) 0); [destruct first; lia|].
    destruct (Z.eqb_spec (i + 1) 0); [destruct first; lia | lia].
Qed.

Lemma next_prev_index (n : Z) (first : bool) (i : Z) :
  0 < n -> (if first then 0 else -1) <= i <= n - 1 ->
  next_index n first (prev_index n first i) = i.
Proof.
  intros Hn Hi. unfold next_index, prev_index.
  destruct (Z.ltb_spec i 0).
  - rewrite Z.eqb_refl. destruct first; lia.
  - destruct (Z.eqb_spec i 0).
    + destruct first.
      * rewrite Z.eqb_refl. replace (n - 1 + 1) with n by lia.
        rewrite Z.rem_same by lia. lia.
      * destruct (Z.eqb_spec (-1) (n - 1)); lia.
    + destruct (Z.eqb_spec (i - 1) (n - 1)); lia.
Qed.

Lemma set_activeIdx_results (i : Z) (w : NgbTypeaheadWindow) :
  results (set_activeIdx i w) = results w.
Proof. destruct w; reflexivity. Qed.

Lemma set_activeIdx_twice (i j : Z) (w : NgbTypeaheadWindow) :
  set_activeIdx j (set_activeIdx i w) = set_activeIdx j w.
Proof. destruct w; reflexivity. Qed.

(** Whenever [next()] and then [prev()] return, or [prev()] and then
    [next()], the window with results is back in exactly the state it was
    in: on the index range the two are inverse to each other, wrap-around
    and the "no row" index -1 included. *)
Theorem window_next_prev_inverse :
  forall (w w1 w2 : NgbTypeaheadWindow) (rs : list Value) (t1 t2 : list Effect),
    results w = Some rs -> rs <> [] ->
    index_ok (Z.of_nat (List.length rs)) w ->
    (next w = Ok (tt, w1, t1) /\ prev w1 = Ok (tt, w2, t2)) \/
    (prev w = Ok (tt, w1, t1) /\ next w1 = Ok (tt, w2, t2)) ->
    w2 = w.
Proof.
  intros w w1 w2 rs t1 t2 R Hne Hok E.
  pose proof (length_pos rs Hne) as Hpos. unfold index_ok in Hok.
  destruct E as [[E1 E2]|[E1 E2]].
  - rewrite (next_step w rs R) in E1. cbv zeta in E1. injection E1 as <- _.
    rewrite (prev_step _ rs) in E2 by (rewrite set_activeIdx_results; exact R).
    cbv zeta in E2. injection E2 as <- _.
    rewrite set_activeIdx_twice. simpl activeIdx. simpl focusFirst.
    rewrite (prev_next_index _ (focusFirst w) _ Hpos Hok).
    apply set_activeIdx_same.
  - rewrite (prev_step w rs R) in E1. cbv zeta in E1. injection E1 as <- _.
    rewrite (next_step _ rs) in E2 by (rewrite set_activeIdx_results; exact R).
    cbv zeta in E2. injection E2 as <- _.
    rewrite set_activeIdx_twice. simpl activeIdx. simpl focusFirst.
    rewrite (next_prev_index _ (focusFirst w) _ Hpos Hok).
    apply set_activeIdx_same.
Qed.

Lemma window_next_prev_inverse_witness :
  set_activeIdx 2
    (set_activeIdx 0
       (Typeahead.set_results [VStr "a"; VStr "b"; VStr "c"]
          (set_activeIdx 2 (@TypeaheadWindow.new Sample.util))))
  = Typeahead.set_results [VStr "a"; VStr "b"; VStr "c"]
      (set_activeIdx 2 (@TypeaheadWindow.new Sample.util)).
Proof.
  apply (window_next_prev_inverse
           (Typeahead.set_results [VStr "a"; VStr "b"; VStr "c"]
              (set_activeIdx 2 (@TypeaheadWindow.new Sample.util)))
           (set_activeIdx 0
              (Typeahead.set_results [VStr "a"; VStr "b"; VStr "c"]
                 (set_activeIdx 2 (@TypeaheadWindow.new Sample.util))))
           _
           [VStr "a"; VStr "b"; VStr "c"]
           [EUpdateView true] [EUpdateView false]).
  - reflexivity.
  - discriminate.
  - unfold index_ok. simpl. lia.
  - left. split; reflexivity.
Defined.

Lemma next_index_cyclic (n : Z) (first : bool) (i : Z) :
  0 < n -> (if first then 0 else -1) <= i <= n - 1 ->
  next_index n first i =
    if first then (i + 1) mod n else (i + 1 + 1) mod (n + 1) - 1.
Proof.
  intros Hn Hi. unfold next_index.
  destruct (Z.eqb_spec i (n - 1)) as [E|E].
  - destruct first.
    + replace (i + 1) with n by lia. rewrite Z.rem_same, Z.mod_same by lia.
      reflexivity.
    + replace (i + 1 + 1) with (n + 1) by lia. rewrite Z.mod_same by lia.
      reflexivity.
  - destruct first; rewrite Z.mod_small by lia; lia.
Qed.

Lemma next_k_times_runs (k : nat) :
  forall (w : NgbTypeaheadWindow) (rs : list Value),
    results w = Some rs -> rs <> [] ->
    index_ok (Z.of_nat (List.length rs)) w ->
    exists w' t,
      navs (repeat Next k) w = Ok (tt, w', t) /\
      activeIdx w' =
        if focusFirst w
        then (activeIdx w + Z.of_nat k) mod Z.of_nat (List.length rs)
        else (activeIdx w + 1 + Z.of_nat k) mod (Z.of_nat (List.length rs) + 1) - 1.
Proof.
  induction k as [|k IH]; intros w rs R Hne Hok;
    pose proof (length_pos rs Hne) as Hpos; unfold index_ok in Hok.
  - exists w, []. split; [reflexivity|].
    rewrite !Z.add_0_r. destruct (focusFirst w); rewrite Z.mod_small by lia; lia.
  - pose proof (next_step w rs R) as E1. cbv zeta in E1.
    pose proof (next_index_cyclic _ (focusFirst w) _ Hpos Hok) as C.
    set (i1 := next_index (Z.of_nat (List.length rs)) (focusFirst w) (activeIdx w)) in *.
    assert (Hok1 : index_ok (Z.of_nat (List.length rs)) (set_activeIdx i1 w)).
    { unfold index_ok. simpl. rewrite C. destruct (focusFirst w).
      - pose proof (Z.mod_pos_bound (activeIdx w + 1) (Z.of_nat (List.length rs))). lia.
      - pose proof (Z.mod_pos_bound (activeIdx w + 1 + 1) (Z.of_nat (List.length rs) + 1)).
        lia. }
    destruct (IH (set_activeIdx i1 w) rs R Hne Hok1) as (w' & t & E2 & A).
    exists w', ([EUpdateView (i1 <? activeIdx w)] ++ t). split.
    + unfold navs. simpl repeat. simpl forEach.
      apply bind_ok_ok with (1 := E1) (2 := E2).
    + rewrite A. simpl activeIdx. simpl focusFirst. rewrite C, Nat2Z.inj_succ.
      destruct (focusFirst w).
      * rewrite Z.add_mod_idemp_l by lia. f_equal. lia.
      * replace ((activeIdx w + 1 + 1) mod (Z.of_nat (List.length rs) + 1) - 1 + 1
                 + Z.of_nat k)
          with ((activeIdx w + 1 + 1) mod (Z.of_nat (List.length rs) + 1) + Z.of_nat k)
          by lia.
        rewrite Z.add_mod_idemp_l by lia. f_equal. f_equal. lia.
Qed.

(** When [k] calls of [next()] in a row have returned, the index has moved
    [k] places forward round a cycle: over the rows when [focusFirst] is
    set, over the rows and the "no row" index -1 when it is not. *)
Theorem window_next_k_times :
  forall (k : nat) (w w' : NgbTypeaheadWindow) (rs : list Value) (t : list Effect),
    results w = Some rs -> rs <> [] ->
    index_ok (Z.of_nat (List.length rs)) w ->
    navs (repeat Next k) w = Ok (tt, w', t) ->
    activeIdx w' =
      if focusFirst w
      then (activeIdx w + Z.of_nat k) mod Z.of_nat (List.length rs)
      else (activeIdx w + 1 + Z.of_nat k) mod (Z.of_nat (List.length rs) + 1) - 1.
Proof.
  intros k w w' rs t R Hne Hok E.
  destruct (next_k_times_runs k w rs R Hne Hok) as (w2 & t2 & E2 & A).
  rewrite E2 in E. injection E as <- _. exact A.
Qed.

Lemma window_next_k_times_witness :
  exists w' t,
    navs (repeat Next 7%nat)
      (Typeahead.set_results [VStr "a"; VStr "b"; VStr "c"]
         (@TypeaheadWindow.new Sample.util)) = Ok (tt, w', t) /\
    activeIdx w' = 1.
Proof.
  eexists. eexists. split; [reflexivity|].
  refine (window_next_k_times 7%nat
            (Typeahead.set_results [VStr "a"; VStr "b"; VStr "c"]
               (@TypeaheadWindow.new Sample.util))
            _ [VStr "a"; VStr "b"; VStr "c"] _ _ _ _ _).
  - reflexivity.
  - discriminate.
  - unfold index_ok. simpl. lia.
  - reflexivity.
Defined.

(** The direction handed to [updateView]: [next()] says "upwards" exactly
    when it leaves the last row for another position, [prev()] exactly
    when it moves to the row above or from the first row to "no row";
    wrapping from the first row to the last counts as downwards. *)
Theorem window_navUpwards :
  forall (w : NgbTypeaheadWindow) (rs : list Value),
    results w = Some rs -> rs <> [] ->
    index_ok (Z.of_nat (List.length rs)) w ->
    effects_of (next w) =
      Some [EUpdateView ((activeIdx w =? Z.of_nat (List.length rs) - 1) &&
                         (negb (focusFirst w) || (1 <? Z.of_nat (List.length rs))))] /\
    effects_of (prev w) =
      Some [EUpdateView ((0 <? activeIdx w) ||
                         ((activeIdx w =? 0) && negb (focusFirst w)))].
Proof.
  intros w rs R Hne Hok. pose proof (length_pos rs Hne) as Hpos.
  unfold index_ok in Hok.
  rewrite (next_step w rs R), (prev_step w rs R). cbv zeta. simpl effects_of.
  unfold next_index, prev_index. split; do 3 f_equal.
  - destruct (Z.eqb_spec (activeIdx w) (Z.of_nat (List.length rs) - 1)) as [E|E].
    + destruct (focusFirst w); simpl.
      * replace (activeIdx w + 1) with (Z.of_nat (List.length rs)) by lia.
        rewrite Z.rem_same by lia.
        destruct (Z.ltb_spec 0 (activeIdx w)), (Z.ltb_spec 1 (Z.of_nat (List.length rs)));
          lia.
      * destruct (Z.ltb_spec (-1) (activeIdx w)); [reflexivity | lia].
    + simpl. destruct (Z.ltb_spec (activeIdx w + 1) (activeIdx w)); [lia | reflexivity].
  - destruct (Z.ltb_spec (activeIdx w) 0) as [L|L].
    + destruct (Z.ltb_spec 0 (activeIdx w)); [lia|].
      destruct (Z.eqb_spec (activeIdx w) 0); [lia|]. simpl.
      destruct (Z.ltb_spec (Z.of_nat (List.length rs) - 1) (activeIdx w)); [lia|reflexivity].
    + destruct (Z.eqb_spec (activeIdx w) 0) as [E|E].
      * rewrite E. simpl. destruct (focusFirst w); simpl; [|reflexivity].
        destruct (Z.ltb_spec (Z.of_nat (List.length rs) - 1) 0); [lia | reflexivity].
      * destruct (Z.ltb_spec 0 (activeIdx w)); [|lia]. simpl.
        destruct (Z.ltb_spec (activeIdx w - 1) (activeIdx w)); [reflexivity | lia].
Qed.

Lemma window_navUpwards_witness :
  effects_of (next (Typeahead.set_results [VStr "a"; VStr "b"]
                      (set_activeIdx 1 (@TypeaheadWindow.new Sample.util))))
    = Some [EUpdateView true] /\
  effects_of (prev (Typeahead.set_results [VStr "a"; VStr "b"]
                      (set_activeIdx 1 (@TypeaheadWindow.new Sample.util))))
    = Some [EUpdateView true].
Proof.
  apply (window_navUpwards
           (Typeahead.set_results [VStr "a"; VStr "b"]
              (set_activeIdx 1 (@TypeaheadWindow.new Sample.util)))
           [VStr "a"; VStr "b"]).
  - reflexivity.
  - discriminate.
  - unfold index_ok. simpl. lia.
Defined.

Lemma getActive_eq (w : NgbTypeaheadWindow) (rs : list Value) :
  results w = Some rs ->
  getActive w =
    Ok (if activeIdx w <? 0 then VUndefined
        else nth (Z.to_nat (activeIdx w)) rs VUndefined, w, []).
Proof. intros R. unfold getActive, bind, get. rewrite R. reflexivity. Qed.

(** With [focusFirst] set, whatever sequence of [next()] and [prev()]
    follows [ngOnInit], [getActive()] returns one of the results, never
    [undefined]; with [focusFirst] unset, right after [ngOnInit] no row is
    active and [getActive()] is [undefined]. *)
Theorem window_getActive_is_a_result :
  forall (w : NgbTypeaheadWindow) (rs : list Value) (ns : list Nav),
    results w = Some rs -> rs <> [] ->
    (focusFirst w = true ->
     exists w' t v,
       (ngOnInit ;; navs ns) w = Ok (tt, w', t) /\
       getActive w' = Ok (v, w', []) /\ In v rs) /\
    (focusFirst w = false ->
     exists w0,
       ngOnInit w = Ok (tt, w0, []) /\ getActive w0 = Ok (VUndefined, w0, [])).
Proof.
  intros w rs ns R Hne. pose proof (length_pos rs Hne) as Hpos. split; intros FF.
  - set (w0 := set_activeIdx (if focusFirst w then 0 else -1) w).
    assert (E0 : ngOnInit w = Ok (tt, w0, [])) by reflexivity.
    destruct (navs_index_ok ns rs Hne w0) as (w' & t & E & R' & F & K).
    { exact R. }
    { unfold index_ok. simpl. rewrite FF. lia. }
    simpl in F. unfold index_ok in K. rewrite F, FF in K.
    exists w', ([] ++ t). eexists. split.
    { apply bind_ok_ok with (1 := E0) (2 := E). }
    split; [apply (getActive_eq w' rs R')|].
    destruct (Z.ltb_spec (activeIdx w') 0); [lia|].
    apply nth_In. lia.
  - eexists. split; [reflexivity|].
    rewrite (getActive_eq _ rs) by exact R. simpl. rewrite FF. reflexivity.
Qed.

Lemma window_getActive_is_a_result_witness :
  exists w' t v,
    (ngOnInit ;; navs [Prev; Prev; Next])
      (Typeahead.set_results [VStr "a"; VStr "b"; VStr "c"]
         (@TypeaheadWindow.new Sample.util)) = Ok (tt, w', t) /\
    getActive w' = Ok (v, w', []) /\ In v [VStr "a"; VStr "b"; VStr "c"].
Proof.
  apply (proj1 (window_getActive_is_a_result
                  (Typeahead.set_results [VStr "a"; VStr "b"; VStr "c"]
                     (@TypeaheadWindow.new Sample.util))
                  [VStr "a"; VStr "b"; VStr "c"] [Prev; Prev; Next]
                  eq_refl ltac:(discriminate))).
  reflexivity.
Defined.

End WindowMoves.

(** ** Scrolling the active row into view *)

Section WindowViewFacts.
Import QArith_base Lqa WindowView.
Local Open Scope Q_scope.

Lemma Qltb_true (x y : Q) : Qltb x y = true <-> x < y.
Proof.
  unfold Qltb. rewrite negb_true_iff. split; intros E.
  - apply Qnot_le_lt. intros L. apply Qle_bool_iff in L. congruence.
  - destruct (Qle_bool y x) eqn:B; [|reflexivity].
    apply Qle_bool_iff in B. lra.
Qed.

Lemma Qltb_false (x y : Q) : Qltb x y = false <-> y <= x.
Proof.
  unfold Qltb. rewrite negb_false_iff. apply Qle_bool_iff.
Qed.

Lemma Qle_bool_false (x y : Q) : Qle_bool x y = false <-> y < x.
Proof.
  split; intros E.
  - apply Qnot_le_lt. intros L. apply Qle_bool_iff in L. congruence.
  - destruct (Qle_bool x y) eqn:B; [|reflexivity].
    apply Qle_bool_iff in B. lra.
Qed.

(** When [isFullyVisibleVertically] returns, it says "visible" exactly when
    every ancestor it looked at holds the element between its top and
    bottom edges and the element's bottom edge is inside the viewport. *)
Theorem isFullyVisibleVertically_sound_and_complete :
  forall (page : Page) (element : Button) (rootElement : Node) (v : Visibility),
    isFullyVisibleVertically page element rootElement = Ok v ->
    (isVisible v = true <->
     Forall (fun el => exists r, boundingClientRect page el = Some r /\
                                 holds r (top (rect element)) (bottom (rect element)))
            (climbed page rootElement (ancestors element)) /\
     bottom (rect element) <= clientHeight page).
Proof.
  intros page element rootElement v. unfold isFullyVisibleVertically.
  generalize (top (rect element)) (bottom (rect element)). intros t b.
  induction (ancestors element) as [|el above IH]; simpl; [discriminate|].
  destruct (boundingClientRect page el) as [r|] eqn:Br; [|discriminate].
  destruct (Qle_bool (WindowView.bottom r) t || Qltb (WindowView.bottom r) b) eqn:C1.
  { intros E. injection E as <-. simpl. split; [discriminate|].
    intros [F _]. inversion F as [|? ? (r' & Er & Hr) _]; subst.
    rewrite Br in Er. injection Er as <-. unfold holds in Hr.
    apply orb_true_iff in C1. destruct C1 as [C|C];
      [apply Qle_bool_iff in C | apply Qltb_true in C]; lra. }
  destruct (Qltb t (WindowView.top r) || Qle_bool b (WindowView.top r)) eqn:C2.
  { intros E. injection E as <-. simpl. split; [discriminate|].
    intros [F _]. inversion F as [|? ? (r' & Er & Hr) _]; subst.
    rewrite Br in Er. injection Er as <-. unfold holds in Hr.
    apply orb_true_iff in C2. destruct C2 as [C|C];
      [apply Qltb_true in C | apply Qle_bool_iff in C]; lra. }
  apply orb_false_iff in C1. destruct C1 as [C1a C1b].
  apply orb_false_iff in C2. destruct C2 as [C2a C2b].
  apply Qle_bool_false in C1a. apply Qltb_false in C1b.
  apply Qltb_false in C2a. apply Qle_bool_false in C2b.
  assert (Hr : exists r0, boundingClientRect page el = Some r0 /\ holds r0 t b).
  { exists r. split; [exact Br|]. unfold holds. repeat split; assumption. }
  destruct above as [|next above'].
  { simpl. discriminate. }
  destruct (negb (Nat.eqb next (body page)) && negb (Nat.eqb next rootElement)).
  - intros E. rewrite (IH E). split.
    + intros [F B]. split; [constructor; assumption | exact B].
    + intros [F B]. split; [inversion F; assumption | exact B].
  - destruct (Qltb (clientHeight page) b) eqn:C3; intros E; injection E as <-; simpl.
    + apply Qltb_true in C3. split; [discriminate|]. intros [_ B]. lra.
    + apply Qltb_false in C3. split; [|reflexivity].
      intros _. split; [constructor; [exact Hr | constructor] | exact C3].
Qed.

Lemma directChildren_parent (nativeElement : Node) (buttons : list Button)
    (elem : Button) :
  In elem (directChildren nativeElement buttons) ->
  parentElement elem = Some nativeElement.
Proof.
  unfold directChildren. rewrite filter_In. intros [_ P].
  destruct (parentElement elem) as [p|]; [|discriminate P].
  apply Nat.eqb_eq in P. subst. reflexivity.
Qed.

(** [updateView] assigns [scrollTop] only to the window's own element, and
    only when the active index names one of its direct-child buttons that
    is not fully visible: going up, the row's [offsetTop]; going down, the
    value that puts the row's lower edge on the lower edge of the element.
    With no such row (index -1, or past the buttons) it returns without
    reading the page. *)
Theorem updateView_scrolls_hidden_active_row :
  forall (page : Page) (nativeElement : Node) (buttons : list Button)
         (activeIdx : Z) (navUpwards : bool),
    ((activeIdx < 0 \/
      Z.of_nat (List.length (directChildren nativeElement buttons)) <= activeIdx)%Z ->
     updateView page nativeElement buttons activeIdx navUpwards = Ok None) /\
    (forall node value,
       updateView page nativeElement buttons activeIdx navUpwards
         = Ok (Some (node, value)) ->
       node = nativeElement /\
       exists elem v,
         nth_error (directChildren nativeElement buttons) (Z.to_nat activeIdx)
           = Some elem /\
         isFullyVisibleVertically page elem nativeElement = Ok v /\
         isVisible v = false /\
         value = if navUpwards then offsetTop elem
                 else (offsetTop elem + button_offsetHeight elem
                       - offsetHeight page nativeElement)%Z).
Proof.
  intros page root buttons activeIdx navUpwards. unfold updateView. cbv zeta. split.
  - intros [L|L].
    + destruct (Z.ltb_spec activeIdx 0); [reflexivity | lia].
    + destruct (Z.leb_spec (Z.of_nat (List.length (directChildren root buttons)))
                           activeIdx); [|lia].
      rewrite orb_true_r. reflexivity.
  - intros node value.
    destruct ((activeIdx <? 0)%Z
              || (Z.of_nat (List.length (directChildren root buttons)) <=? activeIdx)%Z);
      [discriminate|].
    destruct (nth_error (directChildren root buttons) (Z.to_nat activeIdx))
      as [elem|] eqn:N; [|discriminate].
    pose proof (directChildren_parent root buttons elem (nth_error_In _ _ N)) as P.
    destruct (isFullyVisibleVertically page elem root) as [v|] eqn:V; [|discriminate].
    destruct (isVisible v) eqn:Vis; simpl; [discriminate|].
    rewrite P. destruct navUpwards; intros E; injection E as <- <-;
      (split; [reflexivity|]); exists elem, v; repeat split; assumption.
Qed.

End WindowViewFacts.

Lemma forEach_effects {S A} (f : A -> M S unit) (g : A -> list Effect)
    (xs : list A) (s : S) :
  (forall x, f x s = Ok (tt, s, g x)) ->
  forEach xs f s = Ok (tt, s, flat_map g xs).
Proof.
  intros Hf. induction xs as [|x xs IH]; simpl; [reflexivity|].
  apply bind_ok_ok with (1 := Hf x) (2 := IH).
Qed.

Lemma forEach_silent {S A} (f : A -> M S unit) (xs : list A) (s : S) :
  (forall x, f x s = Ok (tt, s, [])) ->
  forEach xs f s = Ok (tt, s, []).
Proof.
  intros Hf. rewrite (forEach_effects f (fun _ => []) xs s Hf).
  induction xs; simpl; congruence.
Qed.

(** A loop whose body brings every state to [g s], with [g] idempotent. *)
Lemma forEach_settle {S A} (f : A -> M S unit) (g : S -> S) (xs : list A) (s : S) :
  (forall x s', f x s' = Ok (tt, g s', [])) ->
  (forall s', g (g s') = g s') ->
  forEach xs f s = Ok (tt, match xs with [] => s | _ => g s end, []).
Proof.
  intros Hf Hg.
  assert (K : forall ys, forEach ys f (g s) = Ok (tt, g s, [])).
  { induction ys as [|y ys IH]; simpl; [reflexivity|].
    rewrite (bind_ok _ _ _ _ _ _ (Hf y (g s))), Hg, IH. reflexivity. }
  destruct xs as [|x xs]; simpl; [reflexivity|].
  rewrite (bind_ok _ _ _ _ _ _ (Hf x s)), K. reflexivity.
Qed.

Lemma removeEventListener_idem (l : option ListenerId) (ls : list ListenerId) :
  removeEventListener l (removeEventListener l ls) = removeEventListener l ls.
Proof.
  destruct l as [l|]; simpl; [|reflexivity].
  induction ls as [|x ls IH]; simpl; [reflexivity|].
  destruct (negb (Nat.eqb l x)) eqn:E; simpl; [rewrite E, IH|]; auto.
Qed.

(** ** NgbInputDatepicker *)

Section DatepickerFacts.
Context `{DateServices}.
Import Datepicker.

Ltac break :=
  repeat match goal with
         | w : World |- _ => destruct w
         | d : NgbInputDatepicker |- _ => destruct d
         end.

Lemma datepicker_scroll_eq (target : EventTarget) (w : World) :
  scroll target w =
    Ok (tt,
        if is_document target
        then match scrollListeners w with [] => w | _ => flagged w end
        else w,
        []).
Proof.
  unfold scroll. rewrite (bind_ok _ _ _ _ _ _ (eq_refl : get w = Ok (w, w, []))).
  destruct target; simpl is_document.
  - rewrite (forEach_settle _ flagged); [reflexivity | reflexivity |].
    intros; break; reflexivity.
  - rewrite forEach_silent; reflexivity.
Qed.

Lemma datepicker_close_eq (w : World) : close w = Ok (tt, closed w, []).
Proof.
  break. destruct _cRef0 as [c|]; [|reflexivity].
  unfold closed, without_view; simpl.
  cbv [close bind get modify isOpen when the_cRef deref ret vcRef_indexOf
       vcRef_remove set_scrollListeners on_this set_views]; simpl.
  destruct (index_from 0 (hostView c) views0 =? -1); reflexivity.
Qed.

Lemma datepicker_closed_closed (w : World) : closed (closed w) = closed w.
Proof.
  break. unfold closed; simpl. rewrite removeEventListener_idem. reflexivity.
Qed.

Lemma datepicker_applyInputs_eq (v : ViewId) (w : World) :
  _applyDatepickerInputs v w = Ok (tt, w, inputEffects v (this w)).
Proof.
  unfold _applyDatepickerInputs, inputEffects.
  eapply bind_ok_ok.
  - apply forEach_effects. intros x.
    cbv [bind get]. destruct (options (this w) x); reflexivity.
  - reflexivity.
Qed.

Lemma datepicker_open_eq (w : World) :
  _cRef (this w) = None ->
  exists t, open w = Ok (tt, opened w, t).
Proof.
  intros E. break. simpl in E. subst.
  cbv beta iota zeta delta -[_applyDatepickerInputs app addEventListener].
  rewrite datepicker_applyInputs_eq.
  cbv beta iota zeta delta -[inputEffects app addEventListener].
  eexists. reflexivity.
Qed.

Lemma datepicker_open_preserves : preserves consistent open.
Proof.
  intros w a w' t C E.
  destruct (_cRef (this w)) as [c|] eqn:R.
  - assert (E' : open w = Ok (tt, w, [])).
    { break. simpl in R. subst. reflexivity. }
    rewrite E' in E. injection E as _ <- _. exact C.
  - destruct (datepicker_open_eq w R) as [t' E']. rewrite E' in E.
    injection E as _ <- _. unfold consistent in *. rewrite R in C.
    destruct C as [L V]. break. simpl in *. subst. split; [eauto | reflexivity].
Qed.

Lemma datepicker_close_preserves : preserves consistent close.
Proof.
  intros w a w' t C E. rewrite datepicker_close_eq in E. injection E as _ <- _.
  unfold consistent in *. break. simpl in *.
  destruct _cRef0 as [c|].
  - destruct C as [(l & L & Ls) V]. subst. simpl.
    unfold without_view. simpl. rewrite !Nat.eqb_refl. split; reflexivity.
  - destruct C as [L V]. subst. destruct _scrollListener0; split; reflexivity.
Qed.

Lemma datepicker_perform_preserves (a : Action) : preserves consistent (perform a).
Proof.
  pose proof datepicker_open_preserves as PO.
  pose proof datepicker_close_preserves as PC.
  destruct a; simpl perform;
    unfold registerOnChange, registerOnTouched, writeValue, setDisabledState,
      toggle, navigateTo, host, manualDateChange, onBlur, scroll, scrollListener,
      zoneStable, onStable, onDateSelect, onNavigate, writeValue,
      _writeModelValue, ngOnDestroy, isOpen, the_cRef;
    preserve;
    try (apply preserves_modify; intros [[] ? ? ?] C; exact C).
Qed.

(** Every world the directive can reach is consistent. *)
Lemma datepicker_reachable_consistent (w : World) :
  reachable w -> consistent w.
Proof.
  induction 1 as [el n | w w' a t _ IH E].
  - split; reflexivity.
  - exact (datepicker_perform_preserves a w tt w' t IH E).
Qed.

End DatepickerFacts.

(** ** NgbInputDatepicker: the form-control side *)

Section DatepickerForms.
Context `{DateServices}.
Import Datepicker.

Lemma date_copy (d : NgbDateStruct) :
  {| year := year d; month := month d; day := day d |} = d.
Proof. destruct d; reflexivity. Qed.

Lemma writeModelValue_eq (model : option NgbDate) (w : World) :
  _writeModelValue model w = Ok (tt, w, modelEffects (this w) model).
Proof.
  destruct w as [[c m z i l o s oc ot e] ls vs n]. unfold modelEffects. simpl.
  destruct c as [c|]; [|reflexivity]. destruct ot; reflexivity.
Qed.

Lemma writeValue_eq (value : option NgbDateStruct) (w : World) :
  let model := match value with
               | Some v => toValidDate (Some v) None
               | None => None
               end in
  writeValue value w =
    Ok (tt, on_this (set_model model) w, modelEffects (this w) model).
Proof.
  cbv zeta. unfold writeValue.
  eapply (bind_ok_ok _ _ _ _ _ [] _ _ _); [reflexivity|].
  eapply (bind_ok_ok _ _ _ _ _ [] _ _ _); [reflexivity|].
  rewrite writeModelValue_eq. destruct value as [v|]; [rewrite date_copy|];
    destruct w as [[] ? ? ?]; reflexivity.
Qed.

(** [writeValue] stores the date when [toValidDate] accepts it and null
    otherwise, shows the stored date in the input and in an open popup, and
    never calls the change callback. *)
Theorem datepicker_writeValue_never_calls_onChange :
  forall (value : option NgbDateStruct) (w : World),
  exists w' t,
    writeValue value w = Ok (tt, w', t) /\
    _model (this w') = match value with
                       | Some v => toValidDate (Some v) None
                       | None => None
                       end /\
    _cRef (this w') = _cRef (this w) /\
    In (ESetElementProperty (_elRef (this w)) "value"
          (VStr (format (_model (this w'))))) t /\
    (forall fn d, ~ In (ECallOnChangeDate fn d) t).
Proof.
  intros value w. eexists. eexists. split; [apply writeValue_eq|].
  destruct w as [[c m z i l o s oc ot e] ls vs n]. simpl.
  split; [reflexivity|]. split; [reflexivity|]. split; [left; reflexivity|].
  intros fn d. unfold modelEffects. simpl.
  destruct c as [c|]; [destruct ot|]; simpl; intuition discriminate.
Qed.

(** [manualDateChange] with text that parses to a valid date: the date is
    the new model, a registered change callback gets that date, and the
    input shows the formatter's rendering of it. *)
Theorem datepicker_manualDateChange_valid :
  forall (value : string) (d : NgbDate) (w : World),
    toValidDate (parse value) None = Some d ->
    manualDateChange value w =
      Ok (tt, on_this (set_model (Some d)) w,
          match _onChange (this w) with
          | Registered fn => [ECallOnChangeDate fn (Some d)]
          | Noop => []
          end ++ modelEffects (this w) (Some d)).
Proof.
  intros value d [[c m z i l o s oc ot e] ls vs n] E.
  unfold manualDateChange, modelEffects. cbn. rewrite E. rewrite date_copy.
  destruct oc, c, ot; reflexivity.
Qed.

(** A date picked in the popup: the value is written as by [writeValue],
    then a registered change callback is called, once, with the picked date
    as it was handed over, and the popup is closed. *)
Theorem datepicker_date_selection :
  forall (selectedDate : option NgbDateStruct) (w : World),
    let model := match selectedDate with
                 | Some v => toValidDate (Some v) None
                 | None => None
                 end in
    onDateSelect selectedDate w =
      Ok (tt, closed (on_this (set_model model) w),
          modelEffects (this w) model ++
          match _onChange (this w) with
          | Registered fn => [ECallOnChangeDate fn selectedDate]
          | Noop => []
          end).
Proof.
  intros selectedDate w. cbv zeta. unfold onDateSelect.
  eapply bind_ok_ok; [apply writeValue_eq|].
  eapply (bind_ok_ok _ _ _ _ _ [] _ _ _); [reflexivity|].
  replace (match _onChange (this w) with
           | Registered fn => [ECallOnChangeDate fn selectedDate]
           | Noop => []
           end)
    with (match _onChange (this w) with
          | Registered fn => [ECallOnChangeDate fn selectedDate]
          | Noop => []
          end ++ []) by apply app_nil_r.
  eapply bind_ok_ok; [|apply datepicker_close_eq].
  destruct w as [[c m z i l o s oc ot e] ls vs n]. simpl. destruct oc; reflexivity.
Qed.

Lemma datepicker_open_effects (w : World) :
  _cRef (this w) = None ->
  open w = Ok (tt, opened w, openEffects (fresh w) (this w)).
Proof.
  intros E. destruct w as [[c m z i l o s oc ot e] ls vs n]. simpl in E. subst.
  cbv beta iota zeta delta -[_applyDatepickerInputs app addEventListener].
  rewrite datepicker_applyInputs_eq.
  cbv beta iota zeta delta -[inputEffects app addEventListener openEffects].
  reflexivity.
Qed.

Lemma optionNames_NoDup : NoDup optionNames.
Proof.
  pose proof (NoDup_nodup string_dec optionNames) as N.
  vm_compute in N. exact N.
Qed.

Lemma definedInputs_In (v : ViewId) (d : NgbInputDatepicker) (names : list string)
    (name : string) (x : Value) :
  In (EDatepickerSetInput v name x)
     (flat_map (fun optionName =>
                  match options d optionName with
                  | VUndefined => []
                  | y => [EDatepickerSetInput v optionName y]
                  end) names) <->
  In name names /\ options d name = x /\ x <> VUndefined.
Proof.
  rewrite in_flat_map. split.
  - intros (o & Io & Ix).
    destruct (options d o) eqn:Eo; simpl in Ix;
      try contradiction; destruct Ix as [Ix|[]]; injection Ix as <- <-;
      (split; [exact Io|]); (split; [exact Eo|]); discriminate.
  - intros (Io & Eo & Nx). exists name. split; [exact Io|].
    rewrite Eo. destruct x; try congruence; left; reflexivity.
Qed.

Lemma definedInputs_NoDup (v : ViewId) (d : NgbInputDatepicker) (names : list string) :
  NoDup names ->
  NoDup (flat_map (fun optionName =>
                     match options d optionName with
                     | VUndefined => []
                     | y => [EDatepickerSetInput v optionName y]
                     end) names).
Proof.
  induction 1 as [|a l Na Nl IH]; [constructor|].
  change (NoDup ((match options d a with
                  | VUndefined => []
                  | y => [EDatepickerSetInput v a y]
                  end) ++
                 flat_map (fun optionName =>
                             match options d optionName with
                             | VUndefined => []
                             | y => [EDatepickerSetInput v optionName y]
                             end) l)).
  destruct (options d a) eqn:Ea; simpl; try exact IH;
    (constructor; [|exact IH]); intros K; apply definedInputs_In in K;
    destruct K as [K _]; exact (Na K).
Qed.

(** [_applyDatepickerInputs] leaves the directive as it is and hands the
    popup exactly the inputs that are set: an input is assigned if and only
    if it is one of the twelve option names and its value is not
    [undefined], with the value the directive has and no more than once;
    after them [startDate] is assigned, once: the input of that name when
    set and the model otherwise. *)
Theorem applyDatepickerInputs_passes_defined_inputs :
  forall (datepickerInstance : ViewId) (w : World),
  exists t0,
    _applyDatepickerInputs datepickerInstance w =
      Ok (tt, w,
          t0 ++ [EDatepickerSetStartDate datepickerInstance
                   match startDate (this w) with
                   | Some s => inl s
                   | None => inr (_model (this w))
                   end]) /\
    (forall e, In e t0 ->
       exists name,
         e = EDatepickerSetInput datepickerInstance name (options (this w) name)) /\
    (forall name x,
       In (EDatepickerSetInput datepickerInstance name x) t0 <->
       In name optionNames /\ options (this w) name = x /\ x <> VUndefined) /\
    NoDup t0.
Proof.
  intros v w. eexists. split; [apply datepicker_applyInputs_eq|].
  split; [|split].
  - intros e K. apply in_flat_map in K. destruct K as (o & _ & K).
    exists o. destruct (options (this w) o); simpl in K; try contradiction;
      destruct K as [K|[]]; symmetry; exact K.
  - intros name x. apply definedInputs_In.
  - apply definedInputs_NoDup, optionNames_NoDup.
Qed.

(** Once unsubscribed, always unsubscribed: no action subscribes again. *)
Lemma datepicker_unsubscribed_preserved (a : Action) :
  preserves (fun w => _zoneSubscription (this w) = Unsubscribed) (perform a).
Proof.
  assert (PO : preserves (fun w => _zoneSubscription (this w) = Unsubscribed) open).
  { intros w x w' t U E. destruct (_cRef (this w)) as [c|] eqn:R.
    - assert (E' : open w = Ok (tt, w, [])).
      { destruct w as [[] ? ? ?]. simpl in R. subst. reflexivity. }
      rewrite E' in E. injection E as _ <- _. exact U.
    - rewrite (datepicker_open_effects w R) in E. injection E as _ <- _. exact U. }
  assert (PC : preserves (fun w => _zoneSubscription (this w) = Unsubscribed) close).
  { intros w x w' t U E. rewrite datepicker_close_eq in E.
    injection E as _ <- _. exact U. }
  destruct a; simpl perform;
    unfold registerOnChange, registerOnTouched, writeValue, setDisabledState,
      toggle, navigateTo, host, manualDateChange, onBlur, scroll, scrollListener,
      zoneStable, onStable, onDateSelect, onNavigate, writeValue,
      _writeModelValue, ngOnDestroy, isOpen, the_cRef;
    preserve;
    try (apply preserves_modify; intros [[] ? ? ?] C; exact C).
  apply preserves_modify. intros [[] ? ? ?] C. reflexivity.
Qed.

(** After [ngOnDestroy], whatever is done to the directive afterwards, even
    opening it again, a zone that becomes stable reaches nothing: no call is
    made, in particular the popup is never positioned again, and nothing
    changes. *)
Theorem datepicker_destroyed_never_positions :
  forall (w w1 w' : World) (t1 t : list Effect) (acts : list Action),
    ngOnDestroy w = Ok (tt, w1, t1) ->
    performs acts w1 = Ok (tt, w', t) ->
    zoneStable w' = Ok (tt, w', []).
Proof.
  intros w w1 w' t1 t acts D P.
  assert (U1 : _zoneSubscription (this w1) = Unsubscribed).
  { unfold ngOnDestroy in D. rewrite (bind_ok _ _ _ _ _ _ (datepicker_close_eq w)) in D.
    injection D as <- _. reflexivity. }
  assert (U : _zoneSubscription (this w') = Unsubscribed).
  { exact (preserves_forEach (fun w => _zoneSubscription (this w) = Unsubscribed)
             acts perform datepicker_unsubscribed_preserved w1 tt w' t U1 P). }
  unfold zoneStable, bind, get. rewrite U. reflexivity.
Qed.

End DatepickerForms.

(** ** NgbPopover *)

Section PopoverFacts.
Context `{PopupService} `{Triggers}.
Import Popover.

Ltac break :=
  repeat match goal with
         | w : World |- _ => destruct w
         | d : NgbPopover |- _ => destruct d
         end.

Lemma popover_scroll_eq (target : EventTarget) (w : World) :
  scroll target w =
    Ok (tt,
        if is_document target
        then match scrollListeners w with [] => w | _ => flagged w end
        else w,
        []).
Proof.
  unfold scroll. rewrite (bind_ok _ _ _ _ _ _ (eq_refl : get w = Ok (w, w, []))).
  destruct target; simpl is_document.
  - rewrite (forEach_settle _ flagged); [reflexivity | reflexivity |].
    intros; break; reflexivity.
  - rewrite forEach_silent; reflexivity.
Qed.

Lemma popover_close_eq (w : World) : close w = Ok (tt, closed w, []).
Proof. break. reflexivity. Qed.

Lemma popover_closed_closed `{!PopupServiceLaws} (w : World) :
  closed (closed w) = closed w.
Proof.
  break. unfold closed; simpl.
  rewrite removeEventListener_idem, popup_close_idem. reflexivity.
Qed.

Lemma popover_open_eq (w : World) :
  _windowRef (this w) = None ->
  open w = Ok (tt, opened w, []).
Proof.
  intros E. break. simpl in E. subst.
  unfold opened; simpl.
  cbv beta iota zeta delta -[popup_open addEventListener].
  destruct (popup_open ngbPopover0 true _popupService0) as [s [v el]].
  reflexivity.
Qed.

Section PopoverInvariant.
Context `{!PopupServiceLaws}.

Lemma popover_open_preserves : preserves consistent open.
Proof.
  intros w a w' t C E.
  destruct (_windowRef (this w)) as [c|] eqn:R.
  - assert (E' : open w = Ok (tt, w, [])).
    { break. simpl in R. subst. reflexivity. }
    rewrite E' in E. injection E as _ <- _. exact C.
  - rewrite (popover_open_eq w R) in E. injection E as _ <- _.
    unfold consistent in *. rewrite R in C. destruct C as [L _].
    break. simpl in *. subst. eauto.
Qed.

Lemma popover_close_preserves : preserves consistent close.
Proof.
  intros w a w' t C E. rewrite popover_close_eq in E. injection E as _ <- _.
  unfold consistent in *. break. simpl in *. rewrite popup_close_idem.
  destruct _windowRef0 as [c|].
  - destruct C as (l & L & Ls). subst. simpl. rewrite Nat.eqb_refl.
    split; reflexivity.
  - destruct C as [L _]. subst. destruct _scrollListener0; split; reflexivity.
Qed.

Lemma popover_perform_preserves (a : Action) : preserves consistent (perform a).
Proof.
  pose proof popover_open_preserves as PO.
  pose proof popover_close_preserves as PC.
  destruct a; simpl perform;
    unfold toggle, ngOnInit, ngAfterViewChecked, host, trigger, scroll,
      scrollListener, ngOnDestroy, the_windowRef;
    preserve;
    try (apply preserves_modify; intros [[] ? ? ?] C; exact C).
Qed.

(** Every world the directive can reach is consistent. *)
Lemma popover_reachable_consistent (w : World) :
  reachable w -> consistent w.
Proof.
  induction 1 as [el p tr n | w w' a t _ IH E].
  - split; [reflexivity | apply popup_close_new].
  - exact (popover_perform_preserves a w tt w' t IH E).
Qed.

End PopoverInvariant.

End PopoverFacts.

(** ** NgbPopover: listeners and inputs *)

Section PopoverLife.
Context `{PopupService} `{Triggers}.
Import Popover.

Lemma popover_open_when_open (w : World) :
  is_some (_windowRef (this w)) = true -> open w = Ok (tt, w, []).
Proof.
  intros O. destruct w as [[] ? ? ?]. simpl in O.
  destruct _windowRef0; [reflexivity | discriminate O].
Qed.

Lemma popover_open_oneListener : preserves oneListener open.
Proof.
  intros w a w' t C E.
  destruct (_windowRef (this w)) as [c|] eqn:R.
  - rewrite popover_open_when_open in E by (rewrite R; reflexivity).
    injection E as _ <- _. exact C.
  - rewrite (popover_open_eq w R) in E. injection E as _ <- _.
    unfold oneListener in *. rewrite R in C.
    destruct w as [[] ? ? ?]. simpl in *. subst. eauto.
Qed.

Lemma popover_close_oneListener : preserves oneListener close.
Proof.
  intros w a w' t C E. rewrite popover_close_eq in E. injection E as _ <- _.
  unfold oneListener in *. destruct w as [[] ? ? ?]. simpl in *.
  destruct _windowRef0 as [c|].
  - destruct C as (l & L & Ls). subst. simpl. rewrite Nat.eqb_refl. reflexivity.
  - subst. destruct _scrollListener0; reflexivity.
Qed.

Lemma popover_perform_oneListener (a : Action) : preserves oneListener (perform a).
Proof.
  pose proof popover_open_oneListener as PO.
  pose proof popover_close_oneListener as PC.
  destruct a; simpl perform;
    unfold toggle, ngOnInit, ngAfterViewChecked, host, trigger, scroll,
      scrollListener, ngOnDestroy, the_windowRef;
    preserve;
    try (apply preserves_modify; intros [[] ? ? ?] C; exact C).
Qed.

Lemma popover_reachable_oneListener (w : World) : reachable w -> oneListener w.
Proof.
  induction 1 as [el p tr n | w w' a t _ IH E].
  - reflexivity.
  - exact (popover_perform_oneListener a w tt w' t IH E).
Qed.

Lemma popover_ngOnDestroy_eq (w : World) :
  ngOnDestroy w =
    match _unregisterListenersFn (this w) with
    | None => Throw (TypeError "this._unregisterListenersFn")
    | Some _ => Ok (tt, set_hostListeners None (closed w), [EUnregisterListeners])
    end.
Proof.
  unfold ngOnDestroy. rewrite (bind_ok _ _ _ _ _ _ (popover_close_eq w)).
  destruct w as [[c ti pl tr ps r u ig l e] ls hl n]. simpl.
  destruct u; reflexivity.
Qed.

(** The window gets [placement] and [title] when it is opened and keeps
    them: inputs assigned while the popover is open change the placement
    the panel is positioned with, not the placement and title the window
    shows. *)
Theorem popover_window_keeps_inputs_of_open :
  forall (w : World) (from : NgbPopover),
    _windowRef (this w) = None ->
    _ignoreUpdatePosition (this w) = false ->
    exists w1 w2 w3 r,
      open w = Ok (tt, w1, []) /\
      perform (Inputs from) w1 = Ok (tt, w2, []) /\
      ngAfterViewChecked w2 =
        Ok (tt, w3,
            [EPositionElements (_elementRef (this w)) (nativeElement r)
               (placement_name (placement from)) true]) /\
      _windowRef (this w3) = Some r /\
      win_placement (instance r) = placement (this w) /\
      win_title (instance r) = title (this w).
Proof.
  intros w from R F. exists (opened w).
  destruct w as [[c ti pl tr ps r u ig l e] ls hl n]. simpl in R, F. subst.
  eexists. eexists. eexists.
  split; [apply popover_open_eq; reflexivity|].
  split; [reflexivity|]. split; [reflexivity|].
  split; [reflexivity|]. split; reflexivity.
Qed.

Lemma popover_constructed_reachable (w : World) : constructed w -> reachable w.
Proof.
  induction 1 as [el p tr n | w from _ IH].
  - apply reachable_new.
  - apply (reachable_step w _ (Inputs from) []); [exact IH | reflexivity].
Qed.

Lemma popover_initialised_reachable (w : World) : initialised w -> reachable w.
Proof.
  induction 1 as [w0 w t C E | w w' a t _ IH _ E].
  - apply (reachable_step w0 w Init t); [|exact E].
    apply popover_constructed_reachable, C.
  - apply (reachable_step w w' a t IH E).
Qed.

(** [ngOnDestroy] leaves nothing behind: once it has completed on a popover
    initialised once, whatever has happened to it since, no event on the
    host and no scroll changes anything or makes a call, and a view check
    positions nothing. *)
Theorem popover_destroy_leaves_nothing :
  forall (w w1 : World) (t : list Effect),
    initialised w ->
    ngOnDestroy w = Ok (tt, w1, t) ->
    (forall ev, host ev w1 = Ok (tt, w1, [])) /\
    (forall target, scroll target w1 = Ok (tt, w1, [])) /\
    (exists w2, ngAfterViewChecked w1 = Ok (tt, w2, [])) /\
    _windowRef (this w1) = None.
Proof.
  intros w w1 t Iw D.
  pose proof (popover_reachable_oneListener w (popover_initialised_reachable w Iw)) as C.
  rewrite popover_ngOnDestroy_eq in D.
  destruct (_unregisterListenersFn (this w)); [|discriminate D].
  injection D as <- _.
  assert (L : scrollListeners (set_hostListeners None (closed w)) = []).
  { unfold oneListener in C. destruct w as [[] ? ? ?]. simpl in *.
    destruct _windowRef0 as [c|].
    - destruct C as (l & -> & ->). simpl. rewrite Nat.eqb_refl. reflexivity.
    - subst. destruct _scrollListener0; reflexivity. }
  split; [intros ev; reflexivity|]. split.
  - intros target. rewrite popover_scroll_eq, L. destruct (is_document target); reflexivity.
  - split; [|destruct w as [[] ? ? ?]; reflexivity].
    destruct w as [[] ? ? ?]. eexists. reflexivity.
Qed.

End PopoverLife.

(** ** NgbTypeahead *)

Section TypeaheadFacts.
Context `{Util} `{PositioningService} `{PopupService}.
Import Typeahead.

Ltac break :=
  repeat match goal with
         | w : World |- _ => destruct w
         | d : NgbTypeahead |- _ => destruct d
         end.

Lemma typeahead_scroll_eq (target : EventTarget) (w : World) :
  scroll target w =
    Ok (tt,
        if is_document target
        then match scrollListeners w with [] => w | _ => flagged w end
        else w,
        []).
Proof.
  unfold scroll. rewrite (bind_ok _ _ _ _ _ _ (eq_refl : get w = Ok (w, w, []))).
  destruct target; simpl is_document.
  - rewrite (forEach_settle _ flagged); [reflexivity | reflexivity |].
    intros; break; reflexivity.
  - rewrite forEach_silent; reflexivity.
Qed.

Lemma typeahead_close_eq (w : World) : closePopup w = Ok (tt, closed w, []).
Proof. break. reflexivity. Qed.

Lemma typeahead_closed_closed `{!PopupServiceLaws} (w : World) :
  closed (closed w) = closed w.
Proof.
  break. unfold closed; simpl.
  rewrite removeEventListener_idem, popup_close_idem. reflexivity.
Qed.

Lemma typeahead_open_eq (w : World) :
  _windowRef (this w) = None ->
  _openPopup w =
    Ok (tt, opened w,
        [ESubscribeSelectEvent (fst (snd (popup_open VNull true (_popupService (this w)))))]).
Proof.
  intros E. break. simpl in E. subst.
  unfold opened; simpl.
  cbv beta iota zeta delta -[popup_open addEventListener TypeaheadWindow.new].
  destruct (popup_open VNull true _popupService0) as [s [v el]].
  reflexivity.
Qed.

(** With a panel open, the Escape key reaches [closePopup]. *)
Lemma typeahead_escape_eq (w : World) :
  toString (VNum 27) = "27" ->
  is_some (_windowRef (this w)) = true ->
  handleKeyDown 27 w = Ok (tt, closed w, [EPreventDefault]).
Proof.
  intros T O. break. simpl in O. destruct _windowRef0; [|discriminate].
  unfold handleKeyDown. cbv [bind get]. simpl is_some. simpl negb. cbv iota.
  rewrite T. reflexivity.
Qed.

Section TypeaheadInvariant.
Context `{!PopupServiceLaws}.

Lemma typeahead_open_preserves : preserves consistent _openPopup.
Proof.
  intros w a w' t C E.
  destruct (_windowRef (this w)) as [c|] eqn:R.
  - assert (E' : _openPopup w = Ok (tt, w, [])).
    { break. simpl in R. subst. reflexivity. }
    rewrite E' in E. injection E as _ <- _. exact C.
  - rewrite (typeahead_open_eq w R) in E. injection E as _ <- _.
    unfold consistent in *. rewrite R in C. destruct C as [L _].
    break. simpl in *. subst. eauto.
Qed.

Lemma typeahead_close_preserves : preserves consistent closePopup.
Proof.
  intros w a w' t C E. rewrite typeahead_close_eq in E. injection E as _ <- _.
  unfold consistent in *. break. simpl in *. rewrite popup_close_idem.
  destruct _windowRef0 as [c|].
  - destruct C as (l & L & Ls). subst. simpl. rewrite Nat.eqb_refl.
    split; reflexivity.
  - destruct C as [L _]. subst. destruct _scrollListener0; split; reflexivity.
Qed.

(** A method of the window changes the window only. *)
Lemma typeahead_on_instance_preserves {A} (m : M TypeaheadWindow.NgbTypeaheadWindow A) :
  preserves consistent (on_instance m).
Proof.
  intros w x w' t C E. unfold on_instance, the_windowRef, bind, get in E.
  unfold consistent in *. destruct w as [[] ? ?]. simpl in *.
  destruct _windowRef0 as [r|]; [|discriminate E]. simpl in E.
  destruct (m (instance r)) as [[[y i] t']|]; [|discriminate E].
  injection E as _ <- _. exact C.
Qed.

Lemma typeahead_perform_preserves (a : Action) : preserves consistent (perform a).
Proof.
  pose proof typeahead_open_preserves as PO.
  pose proof typeahead_close_preserves as PC.
  destruct a; simpl perform;
    unfold ngOnInit, ngAfterViewChecked, registerOnChange, registerOnTouched,
      host, handleKeyDown, onChange, documentClick, scroll, scrollListener,
      onResults, _selectResult, writeValue, ngOnDestroy, the_windowRef;
    preserve_by ltac:(apply typeahead_on_instance_preserves);
    try (apply preserves_modify; intros [[] ? ?] C; exact C).
Qed.

(** Every world the directive can reach is consistent. *)
Lemma typeahead_reachable_consistent (w : World) :
  reachable w -> consistent w.
Proof.
  induction 1 as [el n | w w' a t _ IH E].
  - split; [reflexivity | apply popup_close_new].
  - exact (typeahead_perform_preserves a w tt w' t IH E).
Qed.

End TypeaheadInvariant.

End TypeaheadFacts.

(** ** NgbTypeahead: keys and results *)

Section TypeaheadKeys.
Context `{Util} `{PositioningService} `{PopupService}.
Import TypeaheadWindow Typeahead.

Lemma on_instance_eq {A} (m : M NgbTypeaheadWindow A) (w : World)
    (r : ComponentRef NgbTypeaheadWindow) a i t :
  _windowRef (this w) = Some r ->
  m (instance r) = Ok (a, i, t) ->
  on_instance m w = Ok (a, on_this (set_windowRef (Some (set_instance i r))) w, t).
Proof.
  intros R E. unfold on_instance, the_windowRef, bind, get. rewrite R. simpl.
  rewrite E. reflexivity.
Qed.

Lemma on_this_same_ref (w : World) (r : ComponentRef NgbTypeaheadWindow) :
  _windowRef (this w) = Some r ->
  on_this (set_windowRef (Some (set_instance (instance r) r))) w = w.
Proof.
  intros R. destruct w as [[] ? ?]. simpl in R. subst. destruct r. reflexivity.
Qed.

(** What [handleKeyDown] does once the popup is open and the key is one of
    [Key]. *)
Lemma handleKeyDown_open (which : Z) (w : World) (k : M World unit) :
  is_some (_windowRef (this w)) = true ->
  truthy (Key_at (toString (VNum which))) = true ->
  k = (if which =? Key_value ArrowDown then on_instance next
       else if which =? Key_value ArrowUp then on_instance prev
       else if (which =? Key_value Enter) || (which =? Key_value Tab) then
         result <- on_instance getActive ;; _selectResult result
       else if which =? Key_value Escape then closePopup
       else ret tt) ->
  handleKeyDown which w = (emit EPreventDefault ;; k) w.
Proof.
  intros O K ->. unfold handleKeyDown. unfold bind at 1. unfold get.
  rewrite O. simpl negb. cbv iota. rewrite K. unfold when.
  match goal with
  | |- match ?x with _ => _ end = ?y =>
      change y with x; destruct x as [[[u s] t]|]; reflexivity
  end.
Qed.

(** [handleKeyDown] swallows a key, calling [preventDefault] first of all,
    exactly when the popup is open and the key is one of [Key]; in every
    other case it does nothing at all. *)
Theorem typeahead_swallows_only_its_keys :
  forall (which : Z) (w : World),
    (is_some (_windowRef (this w)) && truthy (Key_at (toString (VNum which))) = false ->
     handleKeyDown which w = Ok (tt, w, [])) /\
    (is_some (_windowRef (this w)) && truthy (Key_at (toString (VNum which))) = true ->
     forall w' t, handleKeyDown which w = Ok (tt, w', t) ->
     exists t', t = EPreventDefault :: t').
Proof.
  intros which w. split; intros G.
  - unfold handleKeyDown, bind, get.
    destruct (is_some (_windowRef (this w))); simpl in *; [|reflexivity].
    rewrite G. reflexivity.
  - apply andb_prop in G. destruct G as [O K]. intros w' t E.
    rewrite (handleKeyDown_open which w _ O K eq_refl) in E.
    unfold bind at 1 in E. simpl in E.
    match type of E with
    | match ?x with _ => _ end = _ => destruct x as [[[u s2] t2]|]; [|discriminate E]
    end.
    injection E as _ _ <-. eexists. reflexivity.
Qed.

Lemma arrow_step (n : Nav) (w : World) (r : ComponentRef NgbTypeaheadWindow)
    (rs : list Value) :
  (forall k : Key, truthy (Key_at (toString (VNum (Key_value k)))) = true) ->
  _windowRef (this w) = Some r ->
  results (instance r) = Some rs ->
  exists navUpwards,
    arrow n w =
      Ok (tt,
          on_this (set_windowRef (Some (set_instance (moved n (instance r)) r))) w,
          [EPreventDefault; EUpdateView navUpwards]).
Proof.
  intros K R Rs.
  assert (O : is_some (_windowRef (this w)) = true) by (rewrite R; reflexivity).
  unfold moved. rewrite Rs. destruct n; unfold arrow.
  - rewrite (handleKeyDown_open _ w _ O (K ArrowDown) eq_refl). simpl Z.eqb. cbv iota.
    eexists. eapply (bind_ok_ok _ _ _ _ _ [EPreventDefault]); [reflexivity|].
    apply (on_instance_eq _ _ r); [exact R|]. apply (next_step _ rs Rs).
  - rewrite (handleKeyDown_open _ w _ O (K ArrowUp) eq_refl). simpl Z.eqb. cbv iota.
    eexists. eapply (bind_ok_ok _ _ _ _ _ [EPreventDefault]); [reflexivity|].
    apply (on_instance_eq _ _ r); [exact R|]. apply (prev_step _ rs Rs).
Qed.

(** With the popup open and a non-empty list of results in its window,
    ArrowDown and ArrowUp are swallowed and change nothing but the window's
    active index, which
    moves as [next()] and [prev()] move it: the popup stays open, with the
    same panel. *)
Theorem typeahead_arrows_move_only_the_index :
  forall (n : Nav) (w : World) (r : ComponentRef NgbTypeaheadWindow)
         (rs : list Value),
    (forall k : Key, truthy (Key_at (toString (VNum (Key_value k)))) = true) ->
    _windowRef (this w) = Some r ->
    results (instance r) = Some rs ->
    rs <> [] ->
    exists navUpwards,
      arrow n w =
        Ok (tt,
            on_this (set_windowRef
                       (Some (set_instance
                                (set_activeIdx
                                   (match n with
                                    | Next => next_index (Z.of_nat (List.length rs))
                                                (focusFirst (instance r))
                                                (activeIdx (instance r))
                                    | Prev => prev_index (Z.of_nat (List.length rs))
                                                (focusFirst (instance r))
                                                (activeIdx (instance r))
                                    end) (instance r)) r))) w,
            [EPreventDefault; EUpdateView navUpwards]).
Proof.
  intros n w r rs K R Rs _. destruct (arrow_step n w r rs K R Rs) as [b E].
  exists b. rewrite E. unfold moved. rewrite Rs. reflexivity.
Qed.

Lemma selectResult_eq (result : Value) (w : World) :
  _selectResult result w = Ok (tt, closed w, selectEffects (this w) result).
Proof.
  destruct w as [[] ? ?]. unfold selectEffects. simpl.
  destruct _onChangeNoEmit0; reflexivity.
Qed.

Lemma enter_step (which : Z) (w : World) (r : ComponentRef NgbTypeaheadWindow)
    (rs : list Value) :
  (forall k : Key, truthy (Key_at (toString (VNum (Key_value k)))) = true) ->
  which = Key_value Enter \/ which = Key_value Tab ->
  _windowRef (this w) = Some r ->
  results (instance r) = Some rs ->
  handleKeyDown which w =
    Ok (tt, closed w, EPreventDefault :: selectEffects (this w) (active (instance r))).
Proof.
  intros K W R Rs.
  assert (O : is_some (_windowRef (this w)) = true) by (rewrite R; reflexivity).
  assert (Kw : truthy (Key_at (toString (VNum which))) = true)
    by (destruct W; subst; apply K).
  rewrite (handleKeyDown_open _ w _ O Kw eq_refl).
  assert (B : (if which =? Key_value ArrowDown then on_instance next
               else if which =? Key_value ArrowUp then on_instance prev
               else if (which =? Key_value Enter) || (which =? Key_value Tab) then
                 result <- on_instance getActive ;; _selectResult result
               else if which =? Key_value Escape then closePopup
               else ret tt)
              = (result <- on_instance getActive ;; _selectResult result))
    by (destruct W; subst; reflexivity).
  rewrite B.
  eapply (bind_ok_ok _ _ _ _ _ [EPreventDefault]); [reflexivity|].
  change (selectEffects (this w) (active (instance r)))
    with ([] ++ selectEffects (this w) (active (instance r))).
  eapply bind_ok_ok.
  - apply (on_instance_eq _ _ r); [exact R|]. apply (getActive_eq _ rs Rs).
  - rewrite (on_this_same_ref w r R). unfold active. rewrite Rs.
    apply selectResult_eq.
Qed.

(** Enter and Tab, with the popup open: the key is swallowed, the active
    result is written into the input (through [inputFormatter] when there
    is one and the result is truthy), handed to a registered change
    callback, emitted as [selectItem], and the popup is closed.  With no
    row active (index -1) the "result" so selected is [undefined]. *)
Theorem typeahead_enter_selects_active :
  forall (which : Z) (w : World) (r : ComponentRef NgbTypeaheadWindow)
         (rs : list Value),
    (forall k : Key, truthy (Key_at (toString (VNum (Key_value k)))) = true) ->
    which = 13 \/ which = 9 ->
    _windowRef (this w) = Some r ->
    results (instance r) = Some rs ->
    let result := if activeIdx (instance r) <? 0 then VUndefined
                  else nth (Z.to_nat (activeIdx (instance r))) rs VUndefined in
    handleKeyDown which w =
      Ok (tt, closed w,
          [EPreventDefault;
           ESetElementProperty (_elementRef (this w)) "value"
             (VStr (match inputFormatter (this w) with
                    | Some f => if truthy result then f result else toString result
                    | None => toString result
                    end))] ++
          match _onChangeNoEmit (this w) with
          | Registered fn => [ECallOnChange fn result]
          | Noop => []
          end ++ [EEmitSelectItem result]).
Proof.
  intros which w r rs K W R Rs result.
  rewrite (enter_step which w r rs K W R Rs).
  unfold selectEffects, formatted, active. rewrite Rs. reflexivity.
Qed.

Lemma onResults_rest (rs : list Value) (inputValue : string) (w : World)
    (r : ComponentRef NgbTypeaheadWindow) :
  _windowRef (this w) = Some r ->
  (on_instance (modify (set_results rs)) ;;
   on_instance (modify (set_term inputValue)) ;;
   w' <- get ;;
   match resultFormatter (this w') with
   | Some f => on_instance (modify (set_formatter f))
   | None => ret tt
   end ;;
   match resultTemplate (this w') with
   | Some t => on_instance (modify (set_resultTemplate (Some t)))
   | None => ret tt
   end) w =
  Ok (tt,
      on_this (set_windowRef
                 (Some (set_instance (offered (this w) rs inputValue (instance r)) r))) w,
      []).
Proof.
  intros R. destruct w as [[] ? ?]. simpl in R. subst.
  unfold offered. simpl. destruct resultFormatter0, resultTemplate0; reflexivity.
Qed.

Lemma onResults_eq (x : Value) (xs : list Value) (inputValue : string) (w : World) :
  onResults (Some (x :: xs)) inputValue w =
    match _windowRef (this w) with
    | Some r =>
        Ok (tt,
            on_this (set_windowRef
                       (Some (set_instance
                                (offered (this w) (x :: xs) inputValue (instance r)) r))) w,
            [])
    | None =>
        Ok (tt,
            on_this (set_windowRef
                       (Some {| hostView := fst (snd (popup_open VNull true
                                                        (_popupService (this w))));
                                nativeElement := snd (snd (popup_open VNull true
                                                             (_popupService (this w))));
                                instance := offered (this w) (x :: xs) inputValue
                                              TypeaheadWindow.new |}))
              (opened w),
            [ESubscribeSelectEvent
               (fst (snd (popup_open VNull true (_popupService (this w)))))])
    end.
Proof.
  unfold onResults. destruct (_windowRef (this w)) as [r|] eqn:R.
  - eapply (bind_ok_ok _ _ _ _ _ [] _ _ []).
    + destruct w as [[] ? ?]. simpl in R. subst. reflexivity.
    + apply (onResults_rest _ _ w r R).
  - rewrite (bind_ok _ _ _ _ _ _ (typeahead_open_eq w R)).
    rewrite (onResults_rest _ _ (opened w) _ eq_refl).
    destruct w as [[] ? ?]. reflexivity.
Qed.

(** The subscriber of [ngOnInit].  No results, or an empty array, closes
    the popup.  A non-empty array leaves the popup open on these results and
    the current text of the input: a closed popup is opened, and an open one
    is kept, with the same panel, no call made, and the active index where
    it was (not reset, whatever the length of the new array). *)
Theorem typeahead_onResults :
  forall (rs : list Value) (inputValue : string) (w : World),
    rs <> [] ->
    onResults None inputValue w = Ok (tt, closed w, []) /\
    onResults (Some []) inputValue w = Ok (tt, closed w, []) /\
    exists w' t r',
      onResults (Some rs) inputValue w = Ok (tt, w', t) /\
      _windowRef (this w') = Some r' /\
      results (instance r') = Some rs /\
      term (instance r') = Some inputValue /\
      forall r, _windowRef (this w) = Some r ->
        t = [] /\
        hostView r' = hostView r /\ nativeElement r' = nativeElement r /\
        activeIdx (instance r') = activeIdx (instance r) /\
        _popupService (this w') = _popupService (this w) /\
        scrollListeners w' = scrollListeners w.
Proof.
  intros rs inputValue w Hne.
  split; [apply typeahead_close_eq|]. split; [apply typeahead_close_eq|].
  destruct rs as [|x xs]; [congruence|].
  assert (Off : forall t i,
             results (offered t (x :: xs) inputValue i) = Some (x :: xs) /\
             term (offered t (x :: xs) inputValue i) = Some inputValue /\
             activeIdx (offered t (x :: xs) inputValue i) = activeIdx i).
  { intros t i. unfold offered.
    destruct (resultFormatter t), (resultTemplate t); repeat split. }
  rewrite onResults_eq. destruct w as [[c p sb r ig l f ng rf rt ot e] ls n].
  simpl. destruct r as [r|].
  - eexists. eexists. eexists. split; [reflexivity|]. simpl.
    split; [reflexivity|].
    split; [apply (Off _ (instance r))|].
    split; [apply (Off _ (instance r))|].
    intros r0 E. injection E as <-. repeat split. apply (Off _ (instance r)).
  - eexists. eexists. eexists. split; [reflexivity|]. simpl.
    split; [reflexivity|].
    split; [apply (Off _ TypeaheadWindow.new)|].
    split; [apply (Off _ TypeaheadWindow.new)|].
    intros r0 E. discriminate E.
Qed.

Lemma moved_index_ok (n : Nav) (i : NgbTypeaheadWindow) (rs : list Value) :
  results i = Some rs -> rs <> [] ->
  index_ok (Z.of_nat (List.length rs)) i ->
  results (moved n i) = Some rs /\
  focusFirst (moved n i) = focusFirst i /\
  index_ok (Z.of_nat (List.length rs)) (moved n i).
Proof.
  intros R Hne Hok.
  destruct (nav_index_ok n i rs R Hne Hok) as (i' & t & E & R' & F & K).
  assert (M : i' = moved n i).
  { unfold moved. rewrite R. destruct n; simpl nav in E;
      [rewrite (next_step i rs R) in E | rewrite (prev_step i rs R) in E];
      cbv zeta in E; injection E as E _; symmetry; exact E. }
  subst i'. auto.
Qed.

Lemma arrows_browsing (w : World) (rs : list Value) (ns : list Nav) :
  (forall k : Key, truthy (Key_at (toString (VNum (Key_value k)))) = true) ->
  rs <> [] ->
  forall w1, browsing w rs w1 ->
  exists w2 t, forEach ns arrow w1 = Ok (tt, w2, t) /\ browsing w rs w2.
Proof.
  intros K Hne. induction ns as [|n ns IH]; intros w1 B.
  - exists w1, []. split; [reflexivity | exact B].
  - destruct B as (r & R & Rs & F & I & E1 & E2 & E3).
    destruct (arrow_step n w1 r rs K R Rs) as [b A].
    destruct (moved_index_ok n (instance r) rs Rs Hne I) as (Rs' & F' & I').
    destruct (IH (on_this (set_windowRef
                             (Some (set_instance (moved n (instance r)) r))) w1))
      as (w2 & t & E & B2).
    { exists (set_instance (moved n (instance r)) r).
      destruct w1 as [[] ? ?]. simpl in *.
      split; [reflexivity|]. split; [exact Rs'|]. split; [congruence|].
      split; [exact I'|]. auto. }
    exists w2, ([EPreventDefault; EUpdateView b] ++ t). split; [|exact B2].
    simpl forEach. apply bind_ok_ok with (1 := A) (2 := E).
Qed.

Lemma enter_selects_offered_run :
  forall (w : World) (rs : list Value) (inputValue : string) (ns : list Nav),
    (forall k : Key, truthy (Key_at (toString (VNum (Key_value k)))) = true) ->
    _windowRef (this w) = None ->
    rs <> [] ->
    exists w' t result,
      (onResults (Some rs) inputValue ;;
       on_instance TypeaheadWindow.ngOnInit ;;
       forEach ns arrow ;;
       handleKeyDown (Key_value Enter)) w = Ok (tt, w', t) /\
      In result rs /\
      In (EEmitSelectItem result) t /\
      In (ESetElementProperty (_elementRef (this w)) "value"
            (VStr (formatted (this w) result))) t /\
      _windowRef (this w') = None.
Proof.
  intros w rs inputValue ns K C Hne. pose proof (length_pos rs Hne) as Hpos.
  destruct rs as [|x xs]; [congruence|].
  pose proof (onResults_eq x xs inputValue w) as E1. rewrite C in E1.
  match type of E1 with _ = Ok (_, ?s, _) => set (w1 := s) in * end.
  set (i1 := offered (this w) (x :: xs) inputValue TypeaheadWindow.new).
  assert (O1 : results i1 = Some (x :: xs) /\ focusFirst i1 = true).
  { unfold i1, offered. destruct (resultFormatter (this w)), (resultTemplate (this w));
      split; reflexivity. }
  destruct O1 as [Rs1 F1].
  assert (E2 : exists r2 w2,
             on_instance TypeaheadWindow.ngOnInit w1 = Ok (tt, w2, []) /\
             _windowRef (this w2) = Some r2 /\
             instance r2 = set_activeIdx 0 i1 /\
             _elementRef (this w2) = _elementRef (this w) /\
             inputFormatter (this w2) = inputFormatter (this w) /\
             _onChangeNoEmit (this w2) = _onChangeNoEmit (this w)).
  { set (r1 := {| hostView := fst (snd (popup_open VNull true (_popupService (this w))));
                  nativeElement := snd (snd (popup_open VNull true
                                               (_popupService (this w))));
                  instance := i1 |}).
    exists (set_instance (set_activeIdx 0 i1) r1).
    exists (on_this (set_windowRef (Some (set_instance (set_activeIdx 0 i1) r1))) w1).
    split.
    - apply (on_instance_eq _ w1 r1 tt (set_activeIdx 0 i1) []).
      + destruct w as [[] ? ?]. reflexivity.
      + unfold TypeaheadWindow.ngOnInit, bind, get, modify. simpl instance.
        rewrite F1. reflexivity.
    - destruct w as [[] ? ?]. simpl. repeat split. }
  destruct E2 as (r2 & w2 & E2 & R2 & I2 & A2 & B2 & C2).
  destruct (arrows_browsing w (x :: xs) ns K Hne w2) as (w3 & t3 & E3 & B3).
  { exists r2. rewrite I2. split; [exact R2|]. split; [exact Rs1|].
    split; [exact F1|]. split; [|auto].
    unfold index_ok. change (focusFirst (set_activeIdx 0 i1)) with (focusFirst i1).
    rewrite F1. simpl activeIdx. lia. }
  destruct B3 as (r3 & R3 & Rs3 & F3 & I3 & A3 & B3 & C3).
  pose proof (enter_step (Key_value Enter) w3 r3 (x :: xs) K (or_introl eq_refl) R3 Rs3)
    as E4.
  unfold index_ok in I3. rewrite F3 in I3.
  exists (closed w3). eexists. exists (active (instance r3)). split.
  { eapply bind_ok_ok; [exact E1|].
    eapply bind_ok_ok; [exact E2|].
    eapply bind_ok_ok; [exact E3|]. exact E4. }
  split.
  { unfold active. rewrite Rs3.
    destruct (Z.ltb_spec (activeIdx (instance r3)) 0); [lia|].
    apply nth_In. lia. }
  assert (S1 : forall v, In (EEmitSelectItem v)
                          (EPreventDefault :: selectEffects (this w3) v)).
  { intros v. right. right. apply in_or_app. right. left. reflexivity. }
  assert (S2 : forall v, In (ESetElementProperty (_elementRef (this w)) "value"
                               (VStr (formatted (this w) v)))
                          (EPreventDefault :: selectEffects (this w3) v)).
  { intros v. right. left. unfold selectEffects, formatted. rewrite A3, B3.
    reflexivity. }
  split; [|split].
  - do 3 (apply in_or_app; right). apply S1.
  - do 3 (apply in_or_app; right). apply S2.
  - destruct w3 as [[] ? ?]. reflexivity.
Qed.

(** From the results arriving to the selection: when a closed typeahead has
    been given a non-empty list of results, its window has been initialised,
    any arrow keys have been pressed and Enter has been handled, a member of
    that list has been selected: [selectItem] was emitted with it, its text
    was written to the input, and the popup is closed. *)
Theorem typeahead_enter_selects_an_offered_result :
  forall (w w' : World) (rs : list Value) (inputValue : string) (ns : list Nav)
         (t : list Effect),
    (forall k : Key, truthy (Key_at (toString (VNum (Key_value k)))) = true) ->
    _windowRef (this w) = None ->
    rs <> [] ->
    (onResults (Some rs) inputValue ;;
     on_instance TypeaheadWindow.ngOnInit ;;
     forEach ns arrow ;;
     handleKeyDown (Key_value Enter)) w = Ok (tt, w', t) ->
    exists result,
      In result rs /\
      In (EEmitSelectItem result) t /\
      In (ESetElementProperty (_elementRef (this w)) "value"
            (VStr (formatted (this w) result))) t /\
      _windowRef (this w') = None.
Proof.
  intros w w' rs inputValue ns t K C Hne E.
  destruct (enter_selects_offered_run w rs inputValue ns K C Hne)
    as (w2 & t2 & result & E2 & P).
  rewrite E2 in E. injection E as <- <-. exists result. exact P.
Qed.

Lemma typeahead_ngOnDestroy_eq (w : World) :
  ngOnDestroy w =
    match _subscription (this w) with
    | None => Throw (TypeError "this._subscription")
    | Some _ => Ok (tt, on_this (set_subscription (Some Unsubscribed)) (closed w), [])
    end.
Proof.
  unfold ngOnDestroy.
  rewrite (bind_ok _ _ _ _ _ _ (typeahead_close_eq w)).
  destruct w as [[c p sb r ig l f ng rf rt ot e] ls n]. simpl.
  destruct sb; reflexivity.
Qed.

Lemma typeahead_open_when_open (w : World) :
  is_some (_windowRef (this w)) = true -> _openPopup w = Ok (tt, w, []).
Proof.
  intros O. destruct w as [[] ? ?]. simpl in O.
  destruct _windowRef0; [reflexivity | discriminate O].
Qed.

Lemma typeahead_open_oneListener : preserves oneListener _openPopup.
Proof.
  intros w a w' t C E.
  destruct (_windowRef (this w)) as [c|] eqn:R.
  - rewrite typeahead_open_when_open in E by (rewrite R; reflexivity).
    injection E as _ <- _. exact C.
  - rewrite (typeahead_open_eq w R) in E. injection E as _ <- _.
    unfold oneListener in *. rewrite R in C.
    destruct w as [[] ? ?]. simpl in *. subst. eauto.
Qed.

Lemma typeahead_close_oneListener : preserves oneListener closePopup.
Proof.
  intros w a w' t C E. rewrite typeahead_close_eq in E. injection E as _ <- _.
  unfold oneListener in *. destruct w as [[] ? ?]. simpl in *.
  destruct _windowRef0 as [c|].
  - destruct C as (l & L & Ls). subst. simpl. rewrite Nat.eqb_refl. reflexivity.
  - subst. destruct _scrollListener0; reflexivity.
Qed.

Lemma typeahead_on_instance_oneListener {A} (m : M NgbTypeaheadWindow A) :
  preserves oneListener (on_instance m).
Proof.
  intros w x w' t C E. unfold on_instance, the_windowRef, bind, get in E.
  unfold oneListener in *. destruct w as [[] ? ?]. simpl in *.
  destruct _windowRef0 as [r|]; [|discriminate E]. simpl in E.
  destruct (m (instance r)) as [[[y i] t']|]; [|discriminate E].
  injection E as _ <- _. exact C.
Qed.

Lemma typeahead_perform_oneListener (a : Action) : preserves oneListener (perform a).
Proof.
  pose proof typeahead_open_oneListener as PO.
  pose proof typeahead_close_oneListener as PC.
  destruct a; simpl perform;
    unfold ngOnInit, ngAfterViewChecked, registerOnChange, registerOnTouched,
      host, handleKeyDown, onChange, documentClick, scroll, scrollListener,
      onResults, _selectResult, writeValue, ngOnDestroy, the_windowRef;
    preserve_by ltac:(apply typeahead_on_instance_oneListener);
    try (apply preserves_modify; intros [[] ? ?] C; exact C).
Qed.

Lemma typeahead_reachable_oneListener (w : World) : reachable w -> oneListener w.
Proof.
  induction 1 as [el n | w w' a t _ IH E].
  - reflexivity.
  - exact (typeahead_perform_oneListener a w tt w' t IH E).
Qed.

End TypeaheadKeys.

(** ** The shared open/close pattern *)

Lemma sample_popup_laws : @PopupServiceLaws Sample.popup.
Proof. split; [reflexivity | intros [o n]; reflexivity]. Qed.

Section WidgetProperties.
Context `{DateServices} `{Util} `{PositioningService} `{PopupService} `{Triggers}.
Import Widget.

Ltac break :=
  repeat match goal with
         | w : Widget |- _ => destruct w
         | w : Datepicker.World |- _ => destruct w
         | d : Datepicker.NgbInputDatepicker |- _ => destruct d
         | w : Popover.World |- _ => destruct w
         | d : Popover.NgbPopover |- _ => destruct d
         | w : Typeahead.World |- _ => destruct w
         | d : Typeahead.NgbTypeahead |- _ => destruct d
         end.

Lemma lift_ok {S A} (inj : S -> Widget) (m : M S A) s a s' t :
  m s = Ok (a, s', t) -> lift inj m s = Ok (a, inj s', t).
Proof. intros E. unfold lift. rewrite E. reflexivity. Qed.

(** C1. Opening a widget whose panel reference is present does nothing:
    no panel is created, no call is made, and every field, the panel
    reference included, is as before. *)
Theorem open_keeps_single_panel :
  forall w : Widget, isOpen w = true -> open w = Ok (tt, w, []).
Proof.
  intros w O. break; cbn in O;
    match goal with c : option (ComponentRef _) |- _ => destruct c end;
    first [discriminate O | reflexivity].
Qed.

(** C5. A tick that reaches the widget (the datepicker input being
    subscribed to the zone, as it is until [ngOnDestroy]) always completes,
    and it calls [positionElements], once and with the anchor element and
    the panel element, exactly when the panel is open and the suppression
    flag is not set; with the panel closed, or the flag set, it makes no
    positioning call. *)
Theorem tick_positions_iff_open_and_unsuppressed :
  forall w : Widget,
    subscribed w = true ->
    exists w' t,
      tick w = Ok (tt, w', t) /\
      positionings t =
        match panel w with
        | Some (_, el) =>
            if ignoring w then []
            else [EPositionElements (anchor w) el (placementOf w) true]
        | None => []
        end.
Proof.
  intros w S. break; cbn in S;
    try match goal with z : Subscription |- _ => destruct z; [|discriminate S] end;
    match goal with c : option (ComponentRef _) |- _ => destruct c end;
    match goal with b : bool |- _ => destruct b end;
    eexists; eexists; split; reflexivity.
Qed.

(** A tick that reaches the widget leaves the panel as it is and always
    ends with the flag clear. *)
Lemma tick_clears_flag (w : Widget) :
  subscribed w = true ->
  exists w' t, tick w = Ok (tt, w', t) /\ ignoring w' = false /\ panel w' = panel w.
Proof.
  intros S. break; cbn in S;
    try match goal with z : Subscription |- _ => destruct z; [|discriminate S] end;
    match goal with c : option (ComponentRef _) |- _ => destruct c end;
    match goal with b : bool |- _ => destruct b end;
    eexists; eexists; split; try reflexivity; split; reflexivity.
Qed.

Lemma close_eq (w : Widget) :
  close w =
    Ok (tt,
        match w with
        | DatepickerInput x => DatepickerInput (Datepicker.closed x)
        | PopoverDirective x => PopoverDirective (Popover.closed x)
        | TypeaheadDirective x => TypeaheadDirective (Typeahead.closed x)
        end, []).
Proof.
  destruct w; unfold close, dispatch.
  - apply lift_ok, datepicker_close_eq.
  - apply lift_ok, popover_close_eq.
  - apply lift_ok, typeahead_close_eq.
Qed.

(** C6. [close()] (or [closePopup()]) completes; afterwards the panel
    reference is absent while the stored model, the registered callbacks
    and the configuration inputs are exactly as before. *)
Theorem close_changes_only_the_panel :
  forall w : Widget,
  exists w', close w = Ok (tt, w', []) /\ panel w' = None /\ sameSettings w w'.
Proof.
  intros w. eexists. split; [apply close_eq|].
  break; cbn; repeat split; reflexivity.
Qed.

Lemma scroll_eq (target : EventTarget) (w : Widget) :
  scroll target w =
    Ok (tt,
        if is_document target
        then match documentListeners w with [] => w | _ => flagged w end
        else w,
        []).
Proof.
  destruct w as [x|x|x]; unfold scroll, dispatch; simpl documentListeners.
  - rewrite (lift_ok _ _ _ _ _ _ (datepicker_scroll_eq target x)).
    destruct (is_document target), (Datepicker.scrollListeners x); reflexivity.
  - rewrite (lift_ok _ _ _ _ _ _ (popover_scroll_eq target x)).
    destruct (is_document target), (Popover.scrollListeners x); reflexivity.
  - rewrite (lift_ok _ _ _ _ _ _ (typeahead_scroll_eq target x)).
    destruct (is_document target), (Typeahead.scrollListeners x); reflexivity.
Qed.

Lemma listening_nonempty (w : Widget) :
  listening w = true -> documentListeners w <> [].
Proof.
  unfold listening. destruct (scrollListenerOf w); [|discriminate].
  destruct (documentListeners w); [discriminate | congruence].
Qed.

(** A tick that reaches a widget whose flag is clear leaves the widget
    exactly as it is; an open panel is positioned. *)
Lemma tick_unflagged (w : Widget) :
  subscribed w = true ->
  ignoring w = false ->
  exists t,
    tick w = Ok (tt, w, t) /\
    positionings t =
      match panel w with
      | Some (_, el) => [EPositionElements (anchor w) el (placementOf w) true]
      | None => []
      end.
Proof.
  intros S F. break; cbn in F; subst; cbn in S;
    try match goal with z : Subscription |- _ => destruct z; [|discriminate S] end;
    match goal with c : option (ComponentRef _) |- _ => destruct c end;
    eexists; split; reflexivity.
Qed.

Lemma ticks_unflagged (w : Widget) (n : nat) :
  subscribed w = true ->
  ignoring w = false ->
  exists t,
    ticks n w = Ok (tt, w, t) /\
    positionings t =
      match panel w with
      | Some (_, el) => repeat (EPositionElements (anchor w) el (placementOf w) true) n
      | None => []
      end.
Proof.
  intros S F. destruct (tick_unflagged w S F) as (t1 & E1 & P1).
  induction n as [|n (t2 & E2 & P2)].
  - exists []. split; [reflexivity|]. destruct (panel w) as [[v el]|]; reflexivity.
  - exists (t1 ++ t2). split.
    + unfold ticks. simpl. apply bind_ok_ok with (1 := E1) (2 := E2).
    + unfold positionings in *. rewrite filter_app, P1, P2.
      destruct (panel w) as [[v el]|]; reflexivity.
Qed.

(** C2. With the panel open and its scroll listener registered (as it is
    in every widget the code can get to, see [reachable_open_listening]),
    and the ticks reaching the widget (the datepicker input being subscribed
    to the zone, as it is until [ngOnDestroy]), a scroll event whose target
    is the document sets the flag; the next tick makes no call at all and
    ends with the flag clear; each of the ticks that follow, however many,
    calls [positionElements] again. *)
Theorem scroll_flag_is_one_shot :
  forall w : Widget,
    isOpen w = true -> listening w = true -> subscribed w = true ->
    exists w1 w2,
      scroll TargetDocument w = Ok (tt, w1, []) /\ ignoring w1 = true /\
      tick w1 = Ok (tt, w2, []) /\ ignoring w2 = false /\
      match panel w with
      | Some (_, el) =>
          forall n : nat,
          exists t,
            ticks n w2 = Ok (tt, w2, t) /\
            positionings t =
              repeat (EPositionElements (anchor w) el (placementOf w) true) n
      | None => False
      end.
Proof.
  intros w O L Sb. pose proof (listening_nonempty w L) as N.
  exists (flagged w). rewrite scroll_eq. simpl is_document.
  destruct (documentListeners w) as [|l ls] eqn:D; [congruence|]. clear D N L.
  assert (S : exists w2,
             tick (flagged w) = Ok (tt, w2, []) /\ ignoring w2 = false /\
             panel w2 = panel w /\ anchor w2 = anchor w /\
             placementOf w2 = placementOf w /\ subscribed w2 = true).
  { break; cbn in O; cbn in Sb;
      try match goal with z : Subscription |- _ => destruct z; [|discriminate Sb] end;
      match goal with c : option (ComponentRef _) |- _ => destruct c end;
      try discriminate O;
      eexists; (split; [reflexivity|]); repeat split; reflexivity. }
  destruct S as (w2 & T & F & P & A & Pl & Sb2). exists w2.
  split; [reflexivity|]. split; [break; reflexivity|].
  split; [exact T|]. split; [exact F|].
  unfold isOpen in O. destruct (panel w) as [[v el]|] eqn:Pw; [|discriminate O].
  intros n. destruct (ticks_unflagged w2 n Sb2 F) as (t & E & Q).
  exists t. split; [exact E|]. rewrite Q, P, A, Pl. reflexivity.
Qed.


(** C4, as the code has it.  With the panel open, pressing Escape closes
    the panel of a datepicker input (host binding [(keyup.esc)]) and of a
    typeahead ([handleKeyDown], given that [toString] prints 27 as "27");
    a popover has no Escape handling of its own and, when none of its
    trigger listeners is bound to the key, stays exactly as it was. *)
Theorem escape_closes_datepicker_and_typeahead :
  forall w : Widget,
    isOpen w = true ->
    toString (VNum 27) = "27" ->
    match w with
    | PopoverDirective _ =>
        escapeUnbound w = true -> pressEscape w = Ok (tt, w, [])
    | _ =>
        exists w' t, pressEscape w = Ok (tt, w', t) /\ isOpen w' = false
    end.
Proof.
  intros [x|x|x] O T.
  - exists (DatepickerInput (Datepicker.closed x)), ([] ++ []). split; [|reflexivity].
    unfold pressEscape, dispatch. apply lift_ok.
    unfold Datepicker.pressEscape.
    eapply bind_ok_ok; [reflexivity | apply datepicker_close_eq].
  - intros U. unfold pressEscape, dispatch. apply lift_ok.
    unfold escapeUnbound in U. unfold Popover.pressEscape.
    assert (K : forall ev,
               match Popover.hostListeners x with
               | Some t => is_nil (listenToTriggers t ev) = true
               | None => True
               end -> Popover.host ev x = Ok (tt, x, [])).
    { intros ev. unfold Popover.host, bind, get.
      destruct (Popover.hostListeners x) as [t|]; [|reflexivity].
      destruct (listenToTriggers t ev); [reflexivity | discriminate]. }
    change (@nil Effect) with (@nil Effect ++ []).
    destruct (Popover.hostListeners x) as [t|];
      [apply andb_prop in U; destruct U as [U1 U2]|];
      (eapply bind_ok_ok; apply K; auto).
  - exists (TypeaheadDirective (Typeahead.closed x)), ([EPreventDefault] ++ []).
    split; [|reflexivity].
    unfold pressEscape, dispatch. apply lift_ok.
    unfold Typeahead.pressEscape. simpl Typeahead.host.
    eapply bind_ok_ok; [apply typeahead_escape_eq|reflexivity].
    + exact T.
    + unfold isOpen, panel in O.
      destruct (Typeahead._windowRef (Typeahead.this x)); [reflexivity | discriminate O].
Qed.

(** C7. [manualDateChange] completes for every input string; when the
    parsed string is not a valid date the model becomes null, a registered
    [onChange] callback is called with null, and the input element gets
    the formatting of null (an open popup is told the same). *)
Theorem manualDateChange_without_error_branch :
  forall (value : string) (w : Datepicker.World),
    (exists w' t, Datepicker.manualDateChange value w = Ok (tt, w', t)) /\
    (toValidDate (parse value) None = None ->
     Datepicker.manualDateChange value w =
       Ok (tt, Datepicker.on_this (Datepicker.set_model None) w,
           match Datepicker._onChange (Datepicker.this w) with
           | Registered fn => [ECallOnChangeDate fn None]
           | Noop => []
           end ++
           ESetElementProperty (Datepicker._elRef (Datepicker.this w)) "value"
             (VStr (format None)) ::
           match Datepicker._cRef (Datepicker.this w) with
           | Some c =>
               EDatepickerWriteValue (hostView c) None ::
               match Datepicker._onTouched (Datepicker.this w) with
               | Registered fn => [ECallOnTouched fn]
               | Noop => []
               end
           | None => []
           end)).
Proof.
  intros value [[c m z i l o s oc ot e] ls vs n]. split.
  - unfold Datepicker.manualDateChange. cbn.
    destruct (toValidDate (parse value) None), oc, c, ot;
      eexists; eexists; reflexivity.
  - intros E. unfold Datepicker.manualDateChange. cbn. rewrite E.
    destruct oc, c, ot; reflexivity.
Qed.

(** C8. [toggle()] completes and inverts the open/closed state, for the
    datepicker input and for the popover; a second [toggle()] brings the
    original open/closed state back. *)
Theorem toggle_alternates :
  (forall w : Datepicker.World,
     exists w1 t1 w2 t2,
       Datepicker.toggle w = Ok (tt, w1, t1) /\
       isOpen (DatepickerInput w1) = negb (isOpen (DatepickerInput w)) /\
       Datepicker.toggle w1 = Ok (tt, w2, t2) /\
       isOpen (DatepickerInput w2) = isOpen (DatepickerInput w)) /\
  (forall w : Popover.World,
     exists w1 t1 w2 t2,
       Popover.toggle w = Ok (tt, w1, t1) /\
       isOpen (PopoverDirective w1) = negb (isOpen (PopoverDirective w)) /\
       Popover.toggle w1 = Ok (tt, w2, t2) /\
       isOpen (PopoverDirective w2) = isOpen (PopoverDirective w)).
Proof.
  assert (TD : forall w : Datepicker.World,
             exists w1 t1, Datepicker.toggle w = Ok (tt, w1, t1) /\
               isOpen (DatepickerInput w1) = negb (isOpen (DatepickerInput w))).
  { intros w. unfold Datepicker.toggle.
    destruct (Datepicker._cRef (Datepicker.this w)) as [c|] eqn:E.
    - exists (Datepicker.closed w), ([] ++ []). split.
      + eapply bind_ok_ok;
          [unfold Datepicker.isOpen, bind, get, ret; rewrite E; reflexivity|].
        simpl is_some. cbv iota. apply datepicker_close_eq.
      + unfold isOpen, panel. rewrite E. reflexivity.
    - destruct (datepicker_open_eq w E) as [t Ht].
      exists (Datepicker.opened w), ([] ++ t). split.
      + eapply bind_ok_ok;
          [unfold Datepicker.isOpen, bind, get, ret; rewrite E; reflexivity|].
        simpl is_some. cbv iota. exact Ht.
      + unfold isOpen, panel. rewrite E. reflexivity. }
  assert (TP : forall w : Popover.World,
             exists w1 t1, Popover.toggle w = Ok (tt, w1, t1) /\
               isOpen (PopoverDirective w1) = negb (isOpen (PopoverDirective w))).
  { intros w. unfold Popover.toggle.
    destruct (Popover._windowRef (Popover.this w)) as [c|] eqn:E.
    - exists (Popover.closed w), ([] ++ []). split.
      + eapply bind_ok_ok; [reflexivity|].
        cbv beta. rewrite E. simpl is_some. cbv iota. apply popover_close_eq.
      + unfold isOpen, panel. rewrite E. reflexivity.
    - exists (Popover.opened w), ([] ++ []). split.
      + eapply bind_ok_ok; [reflexivity|].
        cbv beta. rewrite E. simpl is_some. cbv iota. apply (popover_open_eq w E).
      + unfold isOpen, panel. rewrite E. reflexivity. }
  split; intros w.
  - destruct (TD w) as (w1 & t1 & E1 & O1). destruct (TD w1) as (w2 & t2 & E2 & O2).
    exists w1, t1, w2, t2. repeat split; try assumption.
    rewrite O2, O1. apply negb_involutive.
  - destruct (TP w) as (w1 & t1 & E1 & O1). destruct (TP w1) as (w2 & t2 & E2 & O2).
    exists w1, t1, w2, t2. repeat split; try assumption.
    rewrite O2, O1. apply negb_involutive.
Qed.

(** In every widget the code can get to, an open panel has its scroll
    listener registered. *)
Lemma reachable_open_listening `{!PopupServiceLaws} (w : Widget) :
  reachable w -> isOpen w = true -> listening w = true.
Proof.
  intros R O. destruct w as [x|x|x]; simpl in R;
    [apply datepicker_reachable_consistent in R
    |apply popover_reachable_consistent in R
    |apply typeahead_reachable_consistent in R];
    unfold Datepicker.consistent, Popover.consistent, Typeahead.consistent in R;
    unfold isOpen, panel in O; unfold listening; simpl.
  - destruct (Datepicker._cRef (Datepicker.this x)); [|discriminate O].
    destruct R as [(l & -> & ->) _]. simpl. rewrite Nat.eqb_refl. reflexivity.
  - destruct (Popover._windowRef (Popover.this x)); [|discriminate O].
    destruct R as (l & -> & ->). simpl. rewrite Nat.eqb_refl. reflexivity.
  - destruct (Typeahead._windowRef (Typeahead.this x)); [|discriminate O].
    destruct R as (l & -> & ->). simpl. rewrite Nat.eqb_refl. reflexivity.
Qed.

(** A datepicker input the code can get to has at most one view in its
    container: that of the panel, if there is one. *)
Lemma reachable_datepicker_single_view (x : Datepicker.World) :
  Datepicker.reachable x ->
  Datepicker.views x =
    match Datepicker._cRef (Datepicker.this x) with
    | Some c => [hostView c]
    | None => []
    end.
Proof.
  intros R. apply datepicker_reachable_consistent in R.
  unfold Datepicker.consistent in R.
  destruct (Datepicker._cRef (Datepicker.this x)); apply R.
Qed.

(** C10. [close()] (or [closePopup()]) on a widget that was never opened
    completes without a call and leaves everything as it was, and so it
    does on every widget the code can get to that has no panel open; on
    any widget it completes, and calling it once more changes nothing, so
    two calls in a row have the effect of one.  The popup service is
    assumed to do nothing when told to close while it has no window. *)
Theorem close_is_idempotent `{!PopupServiceLaws} :
  forall w : Widget,
    (neverOpened w -> close w = Ok (tt, w, [])) /\
    (reachable w -> isOpen w = false -> close w = Ok (tt, w, [])) /\
    (exists w1,
       close w = Ok (tt, w1, []) /\ isOpen w1 = false /\
       close w1 = Ok (tt, w1, []) /\
       (close ;; close) w = Ok (tt, w1, [])).
Proof.
  intros w. split; [|split].
  - intros (O & L & P). rewrite close_eq.
    break; cbn in O, L, P; subst;
      match goal with c : option (ComponentRef _) |- _ => destruct c end;
      try discriminate O; unfold Popover.closed, Typeahead.closed; cbn;
      rewrite ?popup_close_new; reflexivity.
  - intros R O. rewrite close_eq. destruct w as [x|x|x]; simpl in R;
      [apply datepicker_reachable_consistent in R
      |apply popover_reachable_consistent in R
      |apply typeahead_reachable_consistent in R];
      unfold Datepicker.consistent, Popover.consistent, Typeahead.consistent in R;
      unfold isOpen, panel in O;
      unfold Datepicker.closed, Popover.closed, Typeahead.closed;
      break; simpl in *;
      match goal with c : option (ComponentRef _) |- _ => destruct c end;
      try discriminate O; destruct R as [-> R]; rewrite ?R;
      match goal with l : option ListenerId |- _ => destruct l end;
      reflexivity.
  - eexists. split; [apply close_eq|].
    assert (K : forall x, close
               match x with
               | DatepickerInput x => DatepickerInput (Datepicker.closed x)
               | PopoverDirective x => PopoverDirective (Popover.closed x)
               | TypeaheadDirective x => TypeaheadDirective (Typeahead.closed x)
               end =
             Ok (tt,
               match x with
               | DatepickerInput x => DatepickerInput (Datepicker.closed x)
               | PopoverDirective x => PopoverDirective (Popover.closed x)
               | TypeaheadDirective x => TypeaheadDirective (Typeahead.closed x)
               end, [])).
    { intros [x|x|x]; rewrite close_eq.
      - rewrite datepicker_closed_closed. reflexivity.
      - rewrite popover_closed_closed. reflexivity.
      - rewrite typeahead_closed_closed. reflexivity. }
    split; [destruct w; reflexivity|]. split; [apply K|].
    apply bind_ok_ok with (1 := close_eq w) (2 := K w).
Qed.

End WidgetProperties.

(** ** The shared pattern, over the life of a widget *)

Section WidgetLife.
Context `{DateServices} `{Util} `{PositioningService} `{PopupService} `{Triggers}.
Import Widget.

(** Scroll listeners never pile up.  In every widget the code can get to,
    the document carries no scroll listener of the widget, or the panel is
    open and it carries exactly one, the closure in [_scrollListener]; with
    the panel closed there is none.  A popover or a typeahead with its
    panel open always has that one listener. *)
Theorem scroll_listeners_never_pile_up :
  forall w : Widget,
    reachable w ->
    (documentListeners w = [] \/
     (isOpen w = true /\
      exists l, scrollListenerOf w = Some l /\ documentListeners w = [l])) /\
    (usesPopupService w = true -> isOpen w = true -> documentListeners w <> []).
Proof.
  intros [x|x|x] R; simpl in R; unfold isOpen, panel; simpl.
  - apply datepicker_reachable_consistent in R. unfold Datepicker.consistent in R.
    split; [|discriminate].
    destruct (Datepicker._cRef (Datepicker.this x)); simpl.
    + right. split; [reflexivity | apply R].
    + left. apply R.
  - apply popover_reachable_oneListener in R. unfold Popover.oneListener in R.
    destruct (Popover._windowRef (Popover.this x)); simpl.
    + destruct R as (l & L & Ls). split.
      * right. split; [reflexivity|]. exists l. split; assumption.
      * intros _ _. rewrite Ls. discriminate.
    + split; [left; exact R | discriminate].
  - apply typeahead_reachable_oneListener in R. unfold Typeahead.oneListener in R.
    destruct (Typeahead._windowRef (Typeahead.this x)); simpl.
    + destruct R as (l & L & Ls). split.
      * right. split; [reflexivity|]. exists l. split; assumption.
      * intros _ _. rewrite Ls. discriminate.
    + split; [left; exact R | discriminate].
Qed.

Lemma widget_open_when_open (w : Widget) :
  isOpen w = true -> open w = Ok (tt, w, []).
Proof.
  intros O. destruct w as [x|x|x]; unfold isOpen, panel in O; simpl in O;
    unfold open, dispatch, lift.
  - destruct x as [[c m z i l o s oc ot e] ls vs n]. simpl in O.
    destruct c; [reflexivity | discriminate O].
  - rewrite popover_open_when_open; [reflexivity|].
    destruct (Popover._windowRef (Popover.this x)); [reflexivity | discriminate O].
  - rewrite typeahead_open_when_open; [reflexivity|].
    destruct (Typeahead._windowRef (Typeahead.this x)); [reflexivity | discriminate O].
Qed.

Lemma widget_open_opens (w : Widget) :
  exists w1 t, open w = Ok (tt, w1, t) /\ isOpen w1 = true.
Proof.
  { destruct (isOpen w) eqn:O.
    - exists w, []. split; [apply (widget_open_when_open w O) | exact O].
    - destruct w as [x|x|x]; unfold isOpen, panel in O; simpl in O;
        unfold open, dispatch, lift.
      + destruct (Datepicker._cRef (Datepicker.this x)) eqn:R; [discriminate O|].
        rewrite (datepicker_open_effects x R). eexists. eexists.
        split; reflexivity.
      + destruct (Popover._windowRef (Popover.this x)) eqn:R; [discriminate O|].
        rewrite (popover_open_eq x R). eexists. eexists. split; reflexivity.
      + destruct (Typeahead._windowRef (Typeahead.this x)) eqn:R; [discriminate O|].
        rewrite (typeahead_open_eq x R). eexists. eexists. split; reflexivity. }
Qed.

(** When [open] has returned the panel is open, and opening again is
    opening once: the second call finds the panel, changes nothing and
    makes no call. *)
Theorem open_twice_is_open_once :
  forall (w w1 : Widget) (t : list Effect),
    open w = Ok (tt, w1, t) ->
    isOpen w1 = true /\
    open w1 = Ok (tt, w1, []) /\
    (open ;; open) w = Ok (tt, w1, t).
Proof.
  intros w w1 t E. destruct (widget_open_opens w) as (w2 & t2 & E2 & O).
  rewrite E2 in E. injection E as <- <-.
  split; [exact O|]. split; [apply (widget_open_when_open w2 O)|].
  pose proof (bind_ok_ok open (fun _ => open) w tt w2 t2 tt w2 [] E2
                (widget_open_when_open w2 O)) as B.
  rewrite app_nil_r in B. exact B.
Qed.

(** [ngOnDestroy] of the popover and of the typeahead calls what [ngOnInit]
    stored, and throws a [TypeError] when [ngOnInit] has not run; after
    [ngOnInit] it completes, as that of the datepicker input always does,
    with the panel closed and the subscription or trigger listeners gone. *)
Theorem ngOnDestroy_needs_ngOnInit :
  (forall w : Popover.World,
     Popover.ngOnDestroy w =
       match Popover._unregisterListenersFn (Popover.this w) with
       | None => Throw (TypeError "this._unregisterListenersFn")
       | Some _ =>
           Ok (tt, Popover.set_hostListeners None (Popover.closed w),
               [EUnregisterListeners])
       end) /\
  (forall w : Typeahead.World,
     Typeahead.ngOnDestroy w =
       match Typeahead._subscription (Typeahead.this w) with
       | None => Throw (TypeError "this._subscription")
       | Some _ =>
           Ok (tt,
               Typeahead.on_this (Typeahead.set_subscription (Some Unsubscribed))
                 (Typeahead.closed w), [])
       end) /\
  (forall w : Datepicker.World,
     Datepicker.ngOnDestroy w =
       Ok (tt,
           Datepicker.on_this (Datepicker.set_zoneSubscription Unsubscribed)
             (Datepicker.closed w), [])).
Proof.
  split; [exact popover_ngOnDestroy_eq|]. split; [exact typeahead_ngOnDestroy_eq|].
  intros w. unfold Datepicker.ngOnDestroy.
  rewrite (bind_ok _ _ _ _ _ _ (datepicker_close_eq w)). reflexivity.
Qed.

End WidgetLife.

(** ** The properties on concrete widgets *)

Section Examples.
#[local] Existing Instance Sample.util.
#[local] Existing Instance Sample.positioning.
#[local] Existing Instance Sample.dates.
#[local] Existing Instance Sample.popup.
#[local] Existing Instance Sample.triggers.
#[local] Existing Instance sample_popup_laws.
Import Widget.

(** The sample widgets are what [open] makes of the new ones. *)
Lemma sample_widgets_opened :
  (exists t, Datepicker.open Sample.newDatepicker = Ok (tt, Sample.openDatepicker, t)) /\
  Popover.open Sample.newPopover = Ok (tt, Sample.openPopover, []) /\
  Typeahead._openPopup Sample.newTypeahead =
    Ok (tt, Sample.openTypeahead, [ESubscribeSelectEvent 0%nat]).
Proof.
  split; [|split].
  - apply datepicker_open_eq. reflexivity.
  - apply popover_open_eq. reflexivity.
  - apply (typeahead_open_eq Sample.newTypeahead). reflexivity.
Qed.

Lemma open_keeps_single_panel_witness :
  open (DatepickerInput Sample.openDatepicker)
    = Ok (tt, DatepickerInput Sample.openDatepicker, []) /\
  open (PopoverDirective Sample.openPopover)
    = Ok (tt, PopoverDirective Sample.openPopover, []) /\
  open (TypeaheadDirective Sample.openTypeahead)
    = Ok (tt, TypeaheadDirective Sample.openTypeahead, []).
Proof.
  split; [|split]; apply open_keeps_single_panel; reflexivity.
Defined.

Lemma scroll_flag_is_one_shot_witness :
  exists w1 w2,
    scroll TargetDocument (DatepickerInput Sample.openDatepicker) = Ok (tt, w1, []) /\
    ignoring w1 = true /\
    tick w1 = Ok (tt, w2, []) /\ ignoring w2 = false /\
    forall n : nat,
    exists t,
      ticks n w2 = Ok (tt, w2, t) /\
      positionings t = repeat (EPositionElements 1%nat 0%nat "bottom-left" true) n.
Proof.
  apply (scroll_flag_is_one_shot (DatepickerInput Sample.openDatepicker));
    reflexivity.
Defined.

Lemma tick_positions_iff_open_and_unsuppressed_witness :
  (exists w' t,
     tick (DatepickerInput Sample.openDatepicker) = Ok (tt, w', t) /\
     positionings t = [EPositionElements 1%nat 0%nat "bottom-left" true]) /\
  (exists w' t,
     tick (PopoverDirective Sample.newPopover) = Ok (tt, w', t) /\
     positionings t = []).
Proof.
  split.
  - apply (tick_positions_iff_open_and_unsuppressed
             (DatepickerInput Sample.openDatepicker)).
    reflexivity.
  - apply (tick_positions_iff_open_and_unsuppressed
             (PopoverDirective Sample.newPopover)).
    reflexivity.
Defined.



(** C4 as stated fails for the popover: configured with the trigger
    [click] and open, it is unchanged, and so still open, after Escape has
    been pressed. *)
Lemma escape_tears_popover_down_counterexample :
  Popover.pressEscape Sample.openPopover = Ok (tt, Sample.openPopover, []) /\
  is_some (Popover._windowRef (Popover.this Sample.openPopover)) = true.
Proof. split; reflexivity. Qed.

Lemma escape_closes_datepicker_and_typeahead_witness :
  (exists w' t,
     pressEscape (DatepickerInput Sample.openDatepicker) = Ok (tt, w', t) /\
     isOpen w' = false) /\
  (exists w' t,
     pressEscape (TypeaheadDirective Sample.openTypeahead) = Ok (tt, w', t) /\
     isOpen w' = false) /\
  pressEscape (PopoverDirective Sample.openPopover)
    = Ok (tt, PopoverDirective Sample.openPopover, []).
Proof.
  split; [|split].
  - apply (escape_closes_datepicker_and_typeahead
             (DatepickerInput Sample.openDatepicker)); reflexivity.
  - apply (escape_closes_datepicker_and_typeahead
             (TypeaheadDirective Sample.openTypeahead)); reflexivity.
  - apply (escape_closes_datepicker_and_typeahead
             (PopoverDirective Sample.openPopover)); reflexivity.
Defined.

Lemma manualDateChange_without_error_branch_witness :
  Datepicker.manualDateChange "next tuesday"
      (Datepicker.on_this (Datepicker.set_onChange (Registered 3%nat))
         Sample.openDatepicker) =
    Ok (tt,
        Datepicker.on_this (Datepicker.set_model None)
          (Datepicker.on_this (Datepicker.set_onChange (Registered 3%nat))
             Sample.openDatepicker),
        [ECallOnChangeDate 3%nat None;
         ESetElementProperty 1%nat "value" (VStr EmptyString);
         EDatepickerWriteValue 0%nat None]).
Proof.
  exact (proj2 (manualDateChange_without_error_branch "next tuesday"
                  (Datepicker.on_this (Datepicker.set_onChange (Registered 3%nat))
                     Sample.openDatepicker))
               eq_refl).
Defined.

Lemma close_is_idempotent_witness :
  close (TypeaheadDirective Sample.newTypeahead)
    = Ok (tt, TypeaheadDirective Sample.newTypeahead, []) /\
  close (PopoverDirective (Popover.closed Sample.openPopover))
    = Ok (tt, PopoverDirective (Popover.closed Sample.openPopover), []) /\
  (exists w1,
     close (PopoverDirective Sample.openPopover) = Ok (tt, w1, []) /\
     isOpen w1 = false /\
     close w1 = Ok (tt, w1, []) /\
     (close ;; close) (PopoverDirective Sample.openPopover) = Ok (tt, w1, [])).
Proof.
  split; [|split].
  - apply (proj1 (close_is_idempotent (TypeaheadDirective Sample.newTypeahead))).
    repeat split.
  - apply (proj1 (proj2 (close_is_idempotent
                           (PopoverDirective (Popover.closed Sample.openPopover))))).
    + apply Popover.reachable_step with (w := Sample.openPopover)
                                        (a := Popover.Close) (t := []).
      * apply Popover.reachable_step with (w := Sample.newPopover)
                                          (a := Popover.Open) (t := []).
        -- apply Popover.reachable_step
             with (w := {| Popover.this := Popover.new 1%nat Popover.top "click";
                           Popover.scrollListeners := [];
                           Popover.hostListeners := None;
                           Popover.fresh := 0%nat |})
                  (a := Popover.Init) (t := []).
           ++ apply Popover.reachable_new.
           ++ reflexivity.
        -- reflexivity.
      * reflexivity.
    + reflexivity.
  - apply (proj2 (proj2 (close_is_idempotent (PopoverDirective Sample.openPopover)))).
Defined.

End Examples.

(** ** More of the properties on concrete widgets *)

Section MoreExamples.
#[local] Existing Instance Sample.util.
#[local] Existing Instance Sample.positioning.
#[local] Existing Instance Sample.dates.
#[local] Existing Instance Sample.popup.
#[local] Existing Instance Sample.triggers.
#[local] Existing Instance sample_popup_laws.

Lemma sample_keys_known :
  forall k : Typeahead.Key,
    truthy (Typeahead.Key_at (toString (VNum (Typeahead.Key_value k)))) = true.
Proof. intros []; reflexivity. Qed.

Lemma offeredTypeahead_ref :
  Typeahead._windowRef (Typeahead.this Sample2.offeredTypeahead)
    = Some Sample2.offeredRef.
Proof. reflexivity. Qed.

Lemma typeahead_swallows_only_its_keys_witness :
  Typeahead.handleKeyDown 65 Sample.openTypeahead
    = Ok (tt, Sample.openTypeahead, []) /\
  Typeahead.handleKeyDown 27 Sample.newTypeahead
    = Ok (tt, Sample.newTypeahead, []) /\
  (exists t', [EPreventDefault] = EPreventDefault :: t').
Proof.
  split; [|split].
  - apply (proj1 (typeahead_swallows_only_its_keys 65 Sample.openTypeahead)).
    reflexivity.
  - apply (proj1 (typeahead_swallows_only_its_keys 27 Sample.newTypeahead)).
    reflexivity.
  - refine (proj2 (typeahead_swallows_only_its_keys 27 Sample.openTypeahead)
              _ (Typeahead.closed Sample.openTypeahead) [EPreventDefault] _);
      reflexivity.
Defined.

Lemma typeahead_arrows_move_only_the_index_witness :
  exists navUpwards w',
    Typeahead.arrow TypeaheadWindow.Next Sample2.offeredTypeahead
      = Ok (tt, w', [EPreventDefault; EUpdateView navUpwards]) /\
    option_map (fun r => TypeaheadWindow.activeIdx (instance r))
               (Typeahead._windowRef (Typeahead.this w')) = Some 1.
Proof.
  destruct (typeahead_arrows_move_only_the_index TypeaheadWindow.Next
              Sample2.offeredTypeahead Sample2.offeredRef Sample2.fruits
              sample_keys_known offeredTypeahead_ref eq_refl) as [b E].
  - discriminate.
  - exists b. eexists. split; [exact E | reflexivity].
Defined.

Lemma typeahead_enter_selects_active_witness :
  Typeahead.handleKeyDown 13 Sample2.offeredTypeahead =
    Ok (tt, Typeahead.closed Sample2.offeredTypeahead,
        [EPreventDefault;
         ESetElementProperty 1%nat "value" (VStr "apple");
         EEmitSelectItem (VStr "apple")]).
Proof.
  exact (typeahead_enter_selects_active 13 Sample2.offeredTypeahead
           Sample2.offeredRef Sample2.fruits sample_keys_known
           (or_introl eq_refl) offeredTypeahead_ref eq_refl).
Defined.

Lemma typeahead_onResults_witness :
  exists w' t r',
    Typeahead.onResults (Some [VStr "avocado"]) "av" Sample2.offeredTypeahead
      = Ok (tt, w', t) /\
    Typeahead._windowRef (Typeahead.this w') = Some r' /\
    TypeaheadWindow.results (instance r') = Some [VStr "avocado"] /\
    TypeaheadWindow.term (instance r') = Some "av".
Proof.
  destruct (typeahead_onResults [VStr "avocado"] "av" Sample2.offeredTypeahead)
    as (_ & _ & w' & t & r' & E & R & Rs & T & _).
  - discriminate.
  - exists w', t, r'. auto.
Defined.

Lemma typeahead_enter_selects_an_offered_result_witness :
  exists w' t,
    (Typeahead.onResults (Some Sample2.fruits) "a" ;;
     Typeahead.on_instance TypeaheadWindow.ngOnInit ;;
     forEach [TypeaheadWindow.Next; TypeaheadWindow.Next; TypeaheadWindow.Prev]
       Typeahead.arrow ;;
     Typeahead.handleKeyDown (Typeahead.Key_value Typeahead.Enter))
      Sample.newTypeahead = Ok (tt, w', t) /\
    exists result,
      In result Sample2.fruits /\
      In (EEmitSelectItem result) t /\
      In (ESetElementProperty 1%nat "value" (VStr (toString result))) t /\
      Typeahead._windowRef (Typeahead.this w') = None.
Proof.
  eexists. eexists. split; [vm_compute; reflexivity|].
  refine (typeahead_enter_selects_an_offered_result Sample.newTypeahead _
            Sample2.fruits "a"
            [TypeaheadWindow.Next; TypeaheadWindow.Next; TypeaheadWindow.Prev]
            _ sample_keys_known eq_refl _ _).
  - discriminate.
  - vm_compute. reflexivity.
Defined.

Lemma datepicker_manualDateChange_valid_witness :
  Datepicker.manualDateChange "2016-08-01" Sample.newDatepicker =
    Ok (tt,
        Datepicker.on_this
          (Datepicker.set_model (Some {| year := 2016; month := 8; day := 1 |}))
          Sample.newDatepicker,
        [ESetElementProperty 1%nat "value" (VStr "2016-08-01")]).
Proof.
  exact (datepicker_manualDateChange_valid "2016-08-01"
           {| year := 2016; month := 8; day := 1 |} Sample.newDatepicker eq_refl).
Defined.

Lemma datepicker_destroyed_never_positions_witness :
  Datepicker.zoneStable Sample2.revivedDatepicker
    = Ok (tt, Sample2.revivedDatepicker, []) /\
  is_some (Datepicker._cRef (Datepicker.this Sample2.revivedDatepicker)) = true.
Proof.
  split; [|reflexivity].
  eapply (datepicker_destroyed_never_positions Sample.openDatepicker
            Sample2.destroyedDatepicker Sample2.revivedDatepicker _ _
            [Datepicker.Open; Datepicker.Scroll TargetDocument]);
    reflexivity.
Defined.

Lemma sample_datepicker_reachable : Datepicker.reachable Sample.openDatepicker.
Proof.
  apply Datepicker.reachable_step
    with (w := Sample.newDatepicker) (a := Datepicker.Open)
         (t := Datepicker.openEffects 0%nat (Datepicker.new 1%nat)).
  - apply Datepicker.reachable_new.
  - apply (datepicker_open_effects Sample.newDatepicker). reflexivity.
Qed.

Lemma sample_popover_reachable : Popover.reachable Sample.openPopover.
Proof.
  apply Popover.reachable_step
    with (w := Sample.newPopover) (a := Popover.Open) (t := []).
  - apply Popover.reachable_step
      with (w := Sample2.constructedPopover) (a := Popover.Init) (t := []).
    + apply Popover.reachable_new.
    + reflexivity.
  - reflexivity.
Qed.

Lemma reachable_datepicker_single_view_witness :
  Datepicker.views Sample.openDatepicker = [0%nat].
Proof.
  exact (reachable_datepicker_single_view Sample.openDatepicker
           sample_datepicker_reachable).
Defined.

Lemma popover_window_keeps_inputs_of_open_witness :
  exists w1 w2 w3 r,
    Popover.open Sample.newPopover = Ok (tt, w1, []) /\
    Popover.perform
      (Popover.Inputs (Popover.new 1%nat Popover.bottom "click")) w1
      = Ok (tt, w2, []) /\
    Popover.ngAfterViewChecked w2 =
      Ok (tt, w3, [EPositionElements 1%nat (nativeElement r) "bottom" true]) /\
    Popover._windowRef (Popover.this w3) = Some r /\
    Popover.win_placement (instance r) = Popover.top /\
    Popover.win_title (instance r) = VUndefined.
Proof.
  exact (popover_window_keeps_inputs_of_open Sample.newPopover
           (Popover.new 1%nat Popover.bottom "click") eq_refl eq_refl).
Defined.

Lemma popover_destroy_leaves_nothing_witness :
  (forall ev, Popover.host ev Sample2.destroyedPopover
              = Ok (tt, Sample2.destroyedPopover, [])) /\
  (forall target, Popover.scroll target Sample2.destroyedPopover
                  = Ok (tt, Sample2.destroyedPopover, [])) /\
  (exists w2, Popover.ngAfterViewChecked Sample2.destroyedPopover = Ok (tt, w2, [])) /\
  Popover._windowRef (Popover.this Sample2.destroyedPopover) = None.
Proof.
  apply (popover_destroy_leaves_nothing Sample.openPopover Sample2.destroyedPopover
           [EUnregisterListeners]).
  - apply (Popover.initialised_step Sample.newPopover _ Popover.Open []).
    + apply (Popover.initialised_ngOnInit Sample2.constructedPopover _ []).
      * apply Popover.constructed_new.
      * reflexivity.
    + discriminate.
    + reflexivity.
  - reflexivity.
Defined.

Lemma scroll_listeners_never_pile_up_witness :
  (Widget.documentListeners (Widget.PopoverDirective Sample.openPopover) = [] \/
   (Widget.isOpen (Widget.PopoverDirective Sample.openPopover) = true /\
    exists l,
      Widget.scrollListenerOf (Widget.PopoverDirective Sample.openPopover) = Some l /\
      Widget.documentListeners (Widget.PopoverDirective Sample.openPopover) = [l])) /\
  Widget.documentListeners (Widget.PopoverDirective Sample.openPopover) <> [].
Proof.
  destruct (scroll_listeners_never_pile_up
              (Widget.PopoverDirective Sample.openPopover) sample_popover_reachable)
    as [A B].
  split; [exact A | apply B; reflexivity].
Defined.

Lemma open_twice_is_open_once_witness :
  Widget.isOpen (Widget.DatepickerInput Sample.openDatepicker) = true /\
  Widget.open (Widget.DatepickerInput Sample.openDatepicker)
    = Ok (tt, Widget.DatepickerInput Sample.openDatepicker, []) /\
  (Widget.open ;; Widget.open) (Widget.DatepickerInput Sample.newDatepicker)
    = Ok (tt, Widget.DatepickerInput Sample.openDatepicker,
          Datepicker.openEffects 0%nat (Datepicker.new 1%nat)).
Proof.
  apply (open_twice_is_open_once (Widget.DatepickerInput Sample.newDatepicker)).
  reflexivity.
Defined.

Lemma isFullyVisibleVertically_sound_and_complete_witness :
  WindowView.isFullyVisibleVertically Sample2.page (Sample2.row 250) 2%nat
    = Ok {| WindowView.isVisible := false;
            WindowView.topClipped := Some true;
            WindowView.bottomClipped := None |} /\
  (false = true <->
   Forall (fun el =>
             exists r,
               WindowView.boundingClientRect Sample2.page el = Some r /\
               WindowView.holds r (WindowView.top (WindowView.rect (Sample2.row 250)))
                 (WindowView.bottom (WindowView.rect (Sample2.row 250))))
          (WindowView.climbed Sample2.page 2%nat
             (WindowView.ancestors (Sample2.row 250))) /\
   QArith_base.Qle (WindowView.bottom (WindowView.rect (Sample2.row 250)))
     (WindowView.clientHeight Sample2.page)).
Proof.
  split; [reflexivity|].
  exact (isFullyVisibleVertically_sound_and_complete Sample2.page
           (Sample2.row 250) 2%nat _ eq_refl).
Defined.

Lemma updateView_scrolls_hidden_active_row_witness :
  WindowView.updateView Sample2.page 2%nat [Sample2.row 0; Sample2.row 250] (-1) false
    = Ok None /\
  WindowView.updateView Sample2.page 2%nat [Sample2.row 0; Sample2.row 250] 1 false
    = Ok (Some (2%nat, 80)) /\
  exists elem v,
    nth_error (WindowView.directChildren 2%nat [Sample2.row 0; Sample2.row 250])
              (Z.to_nat 1) = Some elem /\
    WindowView.isFullyVisibleVertically Sample2.page elem 2%nat = Ok v /\
    WindowView.isVisible v = false /\
    80 = WindowView.offsetTop elem + WindowView.button_offsetHeight elem
         - WindowView.offsetHeight Sample2.page 2%nat.
Proof.
  split; [|split].
  - apply (proj1 (updateView_scrolls_hidden_active_row Sample2.page 2%nat
                    [Sample2.row 0; Sample2.row 250] (-1) false)).
    left. lia.
  - reflexivity.
  - apply (proj2 (updateView_scrolls_hidden_active_row Sample2.page 2%nat
                    [Sample2.row 0; Sample2.row 250] 1 false) 2%nat 80 eq_refl).
Defined.

End MoreExamples.
